(** * Rowing results database: time parsing, seasons and cascading deletes

    A shallow embedding of the pure helpers of
    [Collegeite_SQL_Race_input/utils/helpers.py] and of the SQL operations of
    [Collegeite_SQL_Race_input/database/manager.py], followed by the
    properties proved about them.

    Conventions of the embedding:
    - a Python [int] is a [Z] (unbounded);
    - a Python [str] is a [string]; a character is the code point it
      carries, so the strings covered are those whose code points are below
      256 (ASCII and the Latin-1 supplement);
    - a call that may raise returns a [pyres]: [Ok v] or [Raise e];
    - [None] is [None] of an [option]. *)

From Stdlib Require Import ZArith List String Ascii Bool Lia QArith.
From Stdlib Require Import SpecFloat.
From Stdlib Require Import DecimalString DecimalFacts DecimalPos DecimalN.
From stdpp Require Import gmap strings.

Close Scope Q_scope.
Local Open Scope Z_scope.

(** ** Exceptions and results *)

Inductive pyexn : Type :=
| ValueError
| IndexError
| UnboundLocalError
| OverflowError
| IntegrityError
| OperationalError
| SystemExit.

Inductive pyres (A : Type) : Type :=
| Ok (a : A)
| Raise (e : pyexn).

Arguments Ok {A} a.
Arguments Raise {A} e.

Definition pybind {A B : Type} (r : pyres A) (k : A -> pyres B) : pyres B :=
  match r with
  | Ok a => k a
  | Raise e => Raise e
  end.

Notation "x <~ c1 ;; c2" := (pybind c1 (fun x => c2))
  (at level 60, c1 at next level, right associativity).

(** ** Python string primitives *)

Module PyStr.

Definition ord (c : ascii) : N := N_of_ascii c.

(** The characters [int()] reads as decimal digits: '0' .. '9'. *)
Definition is_decimal (c : ascii) : bool :=
  ((48 <=? ord c) && (ord c <=? 57))%N.

Definition digit_val (c : ascii) : Z := Z.of_N (ord c) - 48.

(** [str.isdigit] on one character.  Below code point 256 it holds of
    '0' .. '9' and of the superscript digits U+00B2, U+00B3 and U+00B9. *)
Definition isdigit (c : ascii) : bool :=
  (is_decimal c || (ord c =? 178) || (ord c =? 179) || (ord c =? 185))%N.

(** [str.isspace] on one character (what [str.strip()] removes). *)
Definition isspace (c : ascii) : bool :=
  (((9 <=? ord c) && (ord c <=? 13)) || ((28 <=? ord c) && (ord c <=? 32))
   || (ord c =? 133) || (ord c =? 160))%N.

(** The white space [int()] skips around a literal: the C white space,
    and the non-ASCII spaces, which it first rewrites to ' '. *)
Definition int_isspace (c : ascii) : bool :=
  (((9 <=? ord c) && (ord c <=? 13)) || (ord c =? 32)
   || (ord c =? 133) || (ord c =? 160))%N.

Fixpoint lstrip_with (p : ascii -> bool) (s : string) : string :=
  match s with
  | EmptyString => EmptyString
  | String c s' => if p c then lstrip_with p s' else s
  end.

Fixpoint rstrip_with (p : ascii -> bool) (s : string) : string :=
  match s with
  | EmptyString => EmptyString
  | String c s' =>
      match rstrip_with p s' with
      | EmptyString => if p c then EmptyString else String c EmptyString
      | r => String c r
      end
  end.

(** [s.strip()] *)
Definition strip (s : string) : string :=
  rstrip_with isspace (lstrip_with isspace s).

(** Truth value of a string: non-empty. *)
Definition truthy (s : string) : bool :=
  match s with EmptyString => false | String _ _ => true end.

(** [sub in s] *)
Fixpoint py_in (sub s : string) : bool :=
  String.prefix sub s ||
  match s with
  | EmptyString => false
  | String _ s' => py_in sub s'
  end.

(** [s.split(sep)] for a one-character separator. *)
Fixpoint split (sep : ascii) (s : string) : list string :=
  match s with
  | EmptyString => [EmptyString]
  | String c s' =>
      if Ascii.eqb c sep then EmptyString :: split sep s'
      else match split sep s' with
           | h :: t => String c h :: t
           | [] => [String c EmptyString]
           end
  end.

(** [s.split(sep, 1)] for a one-character separator. *)
Fixpoint split1 (sep : ascii) (s : string) : list string :=
  match s with
  | EmptyString => [EmptyString]
  | String c s' =>
      if Ascii.eqb c sep then [EmptyString; s']
      else match split1 sep s' with
           | h :: t => String c h :: t
           | [] => [String c EmptyString]
           end
  end.

(** [s.split(sep)[0]] for any non-empty separator: the text before the
    first occurrence of [sep], or all of [s]. *)
Fixpoint split_head (sep s : string) : string :=
  if String.prefix sep s then EmptyString
  else match s with
       | EmptyString => EmptyString
       | String c s' => String c (split_head sep s')
       end.

Fixpoint replicate_char (n : nat) (c : ascii) : string :=
  match n with
  | O => EmptyString
  | S n' => String c (replicate_char n' c)
  end.

(** [s.ljust(w, fill)] and [s.rjust(w, fill)] *)
Definition ljust (w : nat) (fill : ascii) (s : string) : string :=
  s +:+ replicate_char (w - String.length s) fill.

Definition rjust (w : nat) (fill : ascii) (s : string) : string :=
  replicate_char (w - String.length s) fill +:+ s.

(** [s[i:j]], [s[:-k]] and [s[-k:]] for non-negative [i], [j], [k]. *)
Definition slice (i j : nat) (s : string) : string :=
  String.substring i (j - i) s.

Definition drop_last (k : nat) (s : string) : string :=
  String.substring 0 (String.length s - k) s.

Definition take_last (k : nat) (s : string) : string :=
  String.substring (String.length s - k) k s.

(** [s[0]]: raises [IndexError] on the empty string. *)
Definition index0 (s : string) : pyres string :=
  match s with
  | EmptyString => Raise IndexError
  | String c _ => Ok (String c EmptyString)
  end.

(** ["".join(filter(p, s))] *)
Fixpoint filter (p : ascii -> bool) (s : string) : string :=
  match s with
  | EmptyString => EmptyString
  | String c s' => if p c then String c (filter p s') else filter p s'
  end.

(** The digits of an [int()] literal after its sign: decimal digits, with
    single underscores allowed between two digits. *)
Fixpoint int_digits (acc : Z) (after_underscore : bool) (s : string)
  : option Z :=
  match s with
  | EmptyString => if after_underscore then None else Some acc
  | String c s' =>
      if is_decimal c then int_digits (10 * acc + digit_val c) false s'
      else if Ascii.eqb c "_" then
             if after_underscore then None else int_digits acc true s'
      else None
  end.

Definition int_body (s : string) : option Z :=
  match s with
  | String c _ => if is_decimal c then int_digits 0 false s else None
  | EmptyString => None
  end.

(** [int(s)]: white space around, an optional sign, then the digits.
    Anything else raises [ValueError].  (The interpreter's configurable
    cap on the length of a decimal literal is not part of the model.) *)
Definition py_int (s : string) : pyres Z :=
  let t := rstrip_with int_isspace (lstrip_with int_isspace s) in
  let r :=
    match t with
    | String c b =>
        if Ascii.eqb c "+" then int_body b
        else if Ascii.eqb c "-" then option_map Z.opp (int_body b)
        else int_body t
    | EmptyString => None
    end in
  match r with
  | Some z => Ok z
  | None => Raise ValueError
  end.

(** Decimal digits of a natural number, most significant first. *)
Definition str_of_N (n : N) : string :=
  DecimalString.NilZero.string_of_uint (N.to_uint n).

(** [str(z)] *)
Definition str_of_Z (z : Z) : string :=
  if z <? 0 then String "-" (str_of_N (Z.to_N (- z)))
  else str_of_N (Z.to_N z).

(** [format(z, "0{w}d")]: zero padding between the sign and the digits. *)
Definition format_0d (w : nat) (z : Z) : string :=
  if z <? 0 then String "-" (rjust (w - 1) "0" (str_of_N (Z.to_N (- z))))
  else rjust w "0" (str_of_N (Z.to_N z)).

(** The number a string of decimal digits denotes, read left to right
    from the value [acc] of the digits already seen. *)
Fixpoint dec_value (acc : Z) (s : string) : Z :=
  match s with
  | EmptyString => acc
  | String c s' => dec_value (10 * acc + digit_val c) s'
  end.

Definition nonzero_decimal (c : ascii) : bool :=
  is_decimal c && negb (Ascii.eqb c "0").

(** [all(p(c) for c in s)] and [any(p(c) for c in s)] *)
Fixpoint allb (p : ascii -> bool) (s : string) : bool :=
  match s with
  | EmptyString => true
  | String c s' => p c && allb p s'
  end.

Definition anyb (p : ascii -> bool) (s : string) : bool :=
  negb (allb (fun c => negb (p c)) s).

End PyStr.

(** ** Seasons ([helpers.py], class [Season]) *)

Record Season : Type := mkSeason {
  start_year : Z;
  end_year : option Z
}.

Definition display_name (s : Season) : string :=
  match end_year s with
  | None => PyStr.str_of_Z (start_year s) +:+ " - current"
  | Some e => PyStr.str_of_Z (start_year s) +:+ "-" +:+ PyStr.str_of_Z e
  end.

Definition start_date (s : Season) : string :=
  PyStr.str_of_Z (start_year s) +:+ "-09-01".

Definition end_date (s : Season) : option string :=
  match end_year s with
  | None => None
  | Some e => Some (PyStr.str_of_Z e +:+ "-08-31")
  end.

Definition is_current (s : Season) : bool :=
  match end_year s with None => true | Some _ => false end.

(** ** Overlap classification ([OverlapAnalyzer.analyze_overlap]) *)

Module OverlapAnalyzer.

(** [a == b] where [b] may be [None]. *)
Definition eq_opt (a : Z) (b : option Z) : bool :=
  match b with Some y => a =? y | None => false end.

Definition opt_eqb (a b : option Z) : bool :=
  match a, b with
  | Some x, Some y => x =? y
  | None, None => true
  | _, _ => false
  end.

Definition analyze_overlap (new_season existing_season : Season) : string :=
  if (start_year new_season =? start_year existing_season)
     && opt_eqb (end_year new_season) (end_year existing_season)
  then "EXACT_MATCH"
  else if match end_year existing_season with
          | Some ee => start_year new_season =? ee
          | None => false
          end
  then "NO_OVERLAP"
  else if match end_year new_season with
          | Some ne => start_year existing_season =? ne
          | None => false
          end
  then "NO_OVERLAP"
  else if match end_year existing_season with
          | Some ee => start_year new_season >? ee
          | None => false
          end
  then "NO_OVERLAP"
  else if match end_year new_season with
          | Some ne => start_year existing_season >? ne
          | None => false
          end
  then "NO_OVERLAP"
  else if is_current existing_season && is_current new_season
          && (start_year new_season =? start_year existing_season + 1)
  then "ADJACENT_CURRENT_SEASONS"
  else if is_current existing_season && negb (is_current new_season)
          && (start_year new_season =? start_year existing_season + 1)
  then "ADJACENT_CURRENT_TO_FINITE"
  else
    let new_end := match end_year new_season with
                   | Some e => e | None => 9999 end in
    let existing_end := match end_year existing_season with
                        | Some e => e | None => 9999 end in
    if (start_year new_season <=? start_year existing_season)
       && (new_end >=? existing_end)
    then "NEW_CONTAINS_EXISTING"
    else if (start_year existing_season <=? start_year new_season)
            && (existing_end >=? new_end)
    then "EXISTING_CONTAINS_NEW"
    else if (start_year new_season <? start_year existing_season)
            && (new_end >=? start_year existing_season)
    then "OVERLAP_START"
    else if (start_year new_season <=? existing_end)
            && (start_year new_season >? start_year existing_season)
    then "OVERLAP_END"
    else "NO_OVERLAP".

End OverlapAnalyzer.

(** Calendar dates, ordered as the ISO strings of the program are. *)
Record date : Type := mkDate { d_year : Z; d_month : Z; d_day : Z }.

Definition date_le (a b : date) : Prop :=
  d_year a < d_year b
  \/ (d_year a = d_year b
      /\ (d_month a < d_month b
          \/ (d_month a = d_month b /\ d_day a <= d_day b))).

(** The academic-year range of a finite season that starts in [s] and ends
    in [e]: 1 September of [s] to 31 August of [e]. *)
Definition range_first (s : Z) : date := mkDate s 9 1.
Definition range_last (e : Z) : date := mkDate e 8 31.

(** Two closed date ranges are disjoint when no date lies in both. *)
Definition ranges_disjoint (s1 e1 s2 e2 : Z) : Prop :=
  forall d : date,
    ~ ((date_le (range_first s1) d /\ date_le d (range_last e1))
       /\ (date_le (range_first s2) d /\ date_le d (range_last e2))).


(** The classifications that report an actual overlap. *)
Definition overlap_classes : list string :=
  ["EXACT_MATCH"; "NEW_CONTAINS_EXISTING"; "EXISTING_CONTAINS_NEW";
   "OVERLAP_START"; "OVERLAP_END"].

(** ** Time strings ([helpers.py], [widgets/time_entries.py]) *)

Module TimeParse.

Import PyStr.

(** [int(x) if x else 0] *)
Definition int_or_zero (x : string) : pyres Z :=
  if truthy x then py_int x else Ok 0.

(** [sec_str, ms_str = part.split(".", 1)], then the seconds and the
    milliseconds read from the two halves. *)
Definition seconds_and_millis (part : string) : pyres (Z * Z) :=
  match split1 "." part with
  | [sec_str; ms_str] =>
      seconds <~ int_or_zero sec_str ;;
      let ms_str := slice 0 3 (ljust 3 "0" ms_str) in
      milliseconds <~ py_int ms_str ;;
      Ok (seconds, milliseconds)
  | _ => Raise ValueError
  end.

(** The body of the [try] block of [parse_time_input]. *)
Definition parse_formatted (text : string) : pyres (Z * Z * Z) :=
  parts <~
    (if py_in ":" text then
       match split ":" text with
       | time_part :: rest =>
           minutes <~ int_or_zero time_part ;;
           match rest with
           | sec_part :: _ =>
               if py_in "." sec_part then
                 sm <~ seconds_and_millis sec_part ;;
                 Ok (minutes, fst sm, snd sm)
               else
                 seconds <~ int_or_zero sec_part ;;
                 Ok (minutes, seconds, 0)
           | [] => Ok (minutes, 0, 0)
           end
       | [] => Raise ValueError
       end
     else if py_in "." text then
       sm <~ seconds_and_millis text ;;
       Ok (0, fst sm, snd sm)
     else Raise UnboundLocalError) ;;
  let '(minutes, seconds, milliseconds) := parts in
  if seconds >=? 60 then Raise ValueError
  else Ok (minutes, seconds, milliseconds).

(** The digit-position reading that follows the [try] block. *)
Definition parse_digits (text : string) : pyres (Z * Z * Z) :=
  let digits := filter isdigit text in
  if negb (truthy digits) then Raise ValueError
  else
    parts <~
      (if (String.length digits <=? 6)%nat then
         let digits := ljust 6 "0" digits in
         d0 <~ index0 digits ;;
         minutes <~ py_int d0 ;;
         seconds <~ py_int (slice 1 3 digits) ;;
         milliseconds <~ py_int (slice 3 6 digits) ;;
         Ok (minutes, seconds, milliseconds)
       else
         let extra_digits := drop_last 6 digits in
         let core_digits := take_last 6 digits in
         tens_of_minutes <~ py_int extra_digits ;;
         c0 <~ index0 core_digits ;;
         single_minutes <~ py_int c0 ;;
         let minutes := tens_of_minutes * 10 + single_minutes in
         seconds <~ py_int (slice 1 3 core_digits) ;;
         milliseconds <~ py_int (slice 3 6 core_digits) ;;
         Ok (minutes, seconds, milliseconds)) ;;
    let '(minutes, seconds, milliseconds) := parts in
    if seconds >=? 60 then Raise ValueError
    else Ok (minutes, seconds, milliseconds).

Definition parse_time_input (text : string) : pyres (Z * Z * Z) :=
  let text := strip text in
  if py_in ":" text || py_in "." text then
    match parse_formatted text with
    | Ok r => Ok r
    | Raise ValueError | Raise IndexError => parse_digits text
    | Raise e => Raise e
    end
  else parse_digits text.

(** *** Inputs without a decimal digit that are read as (0, 0, 0)

    The description of those inputs, in words rather than by the steps of
    the parser.  A blank fraction is what may follow the '.' : nothing, one
    character that is white space for [int()] or a sign, or such a white
    space followed by a white space or a sign. *)
Definition sign_or_space (c : ascii) : bool :=
  int_isspace c || Ascii.eqb c "+" || Ascii.eqb c "-".

Definition blank_fraction (ms : string) : bool :=
  match ms with
  | EmptyString => true
  | String c EmptyString => sign_or_space c
  | String c1 (String c2 EmptyString) => int_isspace c1 && sign_or_space c2
  | _ => false
  end.

Definition dot_and_blank_fraction (s : string) : bool :=
  match s with
  | String c ms => Ascii.eqb c "." && blank_fraction ms
  | EmptyString => false
  end.

(** The text before the first ':' of [s], or all of [s]. *)
Fixpoint before_colon (s : string) : string :=
  match s with
  | EmptyString => EmptyString
  | String c s' =>
      if Ascii.eqb c ":" then EmptyString else String c (before_colon s')
  end.

(** [t], already stripped, starts with ':' and its seconds field, the
    text between that ':' and the next one or the end, is empty or a '.'
    with a blank fraction; or [t] has no ':' and is a '.' with a blank
    fraction. *)
Definition reads_as_zero (t : string) : bool :=
  match t with
  | String c rest =>
      if Ascii.eqb c ":" then
        let field := before_colon rest in
        negb (truthy field) || dot_and_blank_fraction field
      else negb (py_in ":" t) && dot_and_blank_fraction t
  | EmptyString => false
  end.

(** A [float] is an IEEE 754 binary64 number, as specified by
    [SpecFloat] of the Standard Library with precision 53 and [emax] 1024:
    signed zeros, infinities, NaN, and the finite numbers
    [(-1)^s * m * 2^e].  Every operation rounds to nearest, ties to
    even. *)
Definition float : Type := spec_float.

(** The double nearest to the integer [z]; 0 gives +0.0. *)
Definition float_of_Z (z : Z) : float := binary_normalize 53 1024 z 0 false.

(** The conversion the arithmetic operators apply to an [int] operand
    that meets a [float]: the nearest double, and [OverflowError] when the
    integer rounds to 2^1024 or beyond, that is from 2^1024 - 2^970 on. *)
Definition float_of_int (z : Z) : pyres float :=
  if Z.abs z >=? 2 ^ 1024 - 2 ^ 970 then Raise OverflowError
  else Ok (float_of_Z z).

(** [x + y] and [x / y] on floats, the latter for a divisor other than
    zero. *)
Definition float_add (x y : float) : float := SFadd 53 1024 x y.
Definition float_div (x y : float) : float := SFdiv 53 1024 x y.

(** The literals [0.0] and [1000.0]. *)
Definition float_0 : float := S754_zero false.
Definition float_1000 : float := float_of_Z 1000.

(** [minutes * 60 + seconds + milliseconds / 1000.0] under
    [try ... except ValueError: return 0.0].  The integer sum is exact;
    the quotient converts [milliseconds], the final sum converts the
    integer on its left. *)
Definition time_to_seconds (time_str : string) : pyres float :=
  match parse_time_input time_str with
  | Ok (minutes, seconds, milliseconds) =>
      let whole := minutes * 60 + seconds in
      ms <~ float_of_int milliseconds ;;
      let frac := float_div ms float_1000 in
      w <~ float_of_int whole ;;
      Ok (float_add w frac)
  | Raise ValueError => Ok float_0
  | Raise e => Raise e
  end.

(** [f"{minutes:02d}:{seconds:02d}.{milliseconds:03d}"] *)
Definition normalized (minutes seconds milliseconds : Z) : string :=
  format_0d 2 minutes +:+ ":" +:+ format_0d 2 seconds +:+ "."
  +:+ format_0d 3 milliseconds.

(** [TimeEntry._normalize]: the text of the entry field once the handler
    has run.  An empty field is left alone; on any exception the error
    dialog is shown and the text stays as typed. *)
Definition normalize (field : string) : string :=
  let text := strip field in
  if negb (truthy text) then field
  else match parse_time_input text with
       | Ok (minutes, seconds, milliseconds) =>
           normalized minutes seconds milliseconds
       | Raise _ => field
       end.

(** The reading the specification gives of an input with one to six
    digits: the decimal digits, right-padded with zeros to six, taken as
    minutes (one digit), seconds (two) and milliseconds (three). *)
Fixpoint decimal_values (s : string) : list Z :=
  match s with
  | EmptyString => []
  | String c s' =>
      if is_decimal c then digit_val c :: decimal_values s'
      else decimal_values s'
  end.

Definition pad6 (ds : list Z) : list Z :=
  ds ++ repeat 0 (6 - length ds).

Definition six_digit_reading (text : string) : Z * Z * Z :=
  match pad6 (decimal_values text) with
  | [m1; s1; s2; t1; t2; t3] =>
      (m1, 10 * s1 + s2, 100 * t1 + 10 * t2 + t3)
  | _ => (0, 0, 0)
  end.

(** The inputs on which that reading is the program's: every character
that [str.isdigit] accepts is one of '0' .. '9'. *)
Definition digits_are_decimal (text : string) : bool :=
  allb (fun c => implb (isdigit c) (is_decimal c)) text.

(** SUPERSCRIPT TWO, U+00B2: a digit for [str.isdigit], not for [int()]. *)
Definition superscript_two : ascii := "178"%char.

End TimeParse.

(** ** The database ([database_initializer.py], [create_tables])

    One list of rows per table, in row order.  The columns [created_at]
    and [updated_at] carry no behaviour of the program and are left out; a
    [REAL] is represented by a rational.  Beside the tables the file keeps,
    for the tables the manager inserts into, the row id counter of
    [AUTOINCREMENT]. *)

Record school_row : Type := mkSchoolRow {
  s_school_id : Z;
  s_name : string;
  s_short_name : option string;
  s_acronym : option string;
  s_crr_name : string;
  s_color : option string
}.

Record team_row : Type := mkTeamRow {
  t_team_id : Z;
  t_school_id : Z;
  t_gender : string;
  t_weight : string
}.

Record affiliation_row : Type := mkAffiliationRow {
  a_affiliation_id : Z;
  a_team_id : Z;
  a_conference : string;
  a_start_date : string;
  a_end_date : option string
}.

(** What a [DATE] column of [school_participations] can hold: the text
    the program binds, kept as text because it does not read as a number,
    or an integer (a Python [bool] is bound as 1 or 0). *)
Inductive sql_value : Type :=
| SqlText (s : string)
| SqlInt (z : Z).

Record participation_row : Type := mkParticipationRow {
  p_participation_id : Z;
  p_school_id : Z;
  p_start_date : sql_value;
  p_end_date : option sql_value;
  p_openweight_women : bool;
  p_heavyweight_men : bool;
  p_lightweight_men : bool;
  p_lightweight_women : bool
}.

Record regatta_row : Type := mkRegattaRow {
  r_regatta_id : Z;
  r_name : string;
  r_location : option string;
  r_start_date : option string;
  r_end_date : option string
}.

Record event_row : Type := mkEventRow {
  ev_event_id : Z;
  ev_regatta_id : Z;
  ev_boat_type : string;
  ev_event_boat_class : string;
  ev_gender : string;
  ev_weight : string;
  ev_round : string;
  ev_event_distance : option string;
  ev_scheduled_at : option string
}.

Record entry_row : Type := mkEntryRow {
  en_entry_id : Z;
  en_event_id : Z;
  en_team_id : Z;
  en_entry_boat_class : option string;
  en_conference_at_time : option string;
  en_seed : option Z;
  en_notes : option string
}.

Record result_row : Type := mkResultRow {
  res_result_id : Z;
  res_entry_id : Z;
  res_lane : option Z;
  res_position : option Z;
  res_elapsed_sec : option Q;
  res_margin_sec : option Q
}.

Record database : Type := mkDatabase {
  schools : list school_row;
  teams : list team_row;
  conference_affiliations : list affiliation_row;
  school_participations : list participation_row;
  regattas : list regatta_row;
  events : list event_row;
  entries : list entry_row;
  results : list result_row;
  seq_schools : Z;
  seq_school_participations : Z;
  seq_results : Z
}.

Module Sql.

Definition with_results (db : database) (rs : list result_row) : database :=
  mkDatabase (schools db) (teams db) (conference_affiliations db)
    (school_participations db) (regattas db) (events db) (entries db) rs
    (seq_schools db) (seq_school_participations db) (seq_results db).

Definition with_entries (db : database) (es : list entry_row) : database :=
  mkDatabase (schools db) (teams db) (conference_affiliations db)
    (school_participations db) (regattas db) (events db) es (results db)
    (seq_schools db) (seq_school_participations db) (seq_results db).

Definition with_events (db : database) (evs : list event_row) : database :=
  mkDatabase (schools db) (teams db) (conference_affiliations db)
    (school_participations db) (regattas db) evs (entries db) (results db)
    (seq_schools db) (seq_school_participations db) (seq_results db).

Definition with_regattas (db : database) (rgs : list regatta_row)
  : database :=
  mkDatabase (schools db) (teams db) (conference_affiliations db)
    (school_participations db) rgs (events db) (entries db) (results db)
    (seq_schools db) (seq_school_participations db) (seq_results db).

Definition with_schools (db : database) (ss : list school_row) (seq : Z)
  : database :=
  mkDatabase ss (teams db) (conference_affiliations db)
    (school_participations db) (regattas db) (events db) (entries db)
    (results db) seq (seq_school_participations db) (seq_results db).

Definition with_school_participations (db : database)
  (ps : list participation_row) (seq : Z) : database :=
  mkDatabase (schools db) (teams db) (conference_affiliations db) ps
    (regattas db) (events db) (entries db) (results db)
    (seq_schools db) seq (seq_results db).

Definition count {A : Type} (p : A -> bool) (l : list A) : Z :=
  Z.of_nat (length (List.filter p l)).

Definition keep {A : Type} (p : A -> bool) (l : list A) : list A :=
  List.filter (fun x => negb (p x)) l.

(** The row id [AUTOINCREMENT] gives to a new row: one more than the
    largest id the table holds or has ever held. *)
Definition next_id (ids : list Z) (seq : Z) : Z :=
  Z.max (fold_right Z.max 0 ids) seq + 1.

(** *** DELETE, with the [ON DELETE CASCADE] actions of the schema

    Each function returns the new database and the number of rows the
    statement itself deleted ([cursor.rowcount]): rows removed by a
    cascade are not counted. *)

Definition delete_results (p : result_row -> bool) (db : database)
  : database * Z :=
  (with_results db (keep p (results db)), count p (results db)).

Definition delete_entries (p : entry_row -> bool) (db : database)
  : database * Z :=
  let gone := List.filter p (entries db) in
  let db1 := with_entries db (keep p (entries db)) in
  let cascade :=
    delete_results
      (fun r => existsb (fun e => en_entry_id e =? res_entry_id r) gone) db1 in
  (fst cascade, Z.of_nat (length gone)).

Definition delete_events (p : event_row -> bool) (db : database)
  : database * Z :=
  let gone := List.filter p (events db) in
  let db1 := with_events db (keep p (events db)) in
  let cascade :=
    delete_entries
      (fun e => existsb (fun ev => ev_event_id ev =? en_event_id e) gone) db1 in
  (fst cascade, Z.of_nat (length gone)).

Definition delete_regattas (p : regatta_row -> bool) (db : database)
  : database * Z :=
  let gone := List.filter p (regattas db) in
  let db1 := with_regattas db (keep p (regattas db)) in
  let cascade :=
    delete_events
      (fun ev => existsb (fun rg => r_regatta_id rg =? ev_regatta_id ev) gone)
      db1 in
  (fst cascade, Z.of_nat (length gone)).

(** [SELECT event_id FROM events WHERE regatta_id = ?] as a membership
    test on one entry, and the join of [delete_regatta] on one result. *)
Definition entry_in_regatta (db : database) (regatta_id : Z) (e : entry_row)
  : bool :=
  existsb (fun ev => (ev_event_id ev =? en_event_id e)
                     && (ev_regatta_id ev =? regatta_id)) (events db).

Definition result_in_regatta (db : database) (regatta_id : Z)
  (r : result_row) : bool :=
  existsb (fun e => (en_entry_id e =? res_entry_id r)
                    && entry_in_regatta db regatta_id e) (entries db).

(** [SELECT entry_id FROM entries WHERE event_id = ?] on one result. *)
Definition result_in_event (db : database) (event_id : Z) (r : result_row)
  : bool :=
  existsb (fun e => (en_entry_id e =? res_entry_id r)
                    && (en_event_id e =? event_id)) (entries db).

(** *** INSERT and UPDATE, with the constraints of the schema *)

(** [INSERT INTO results (entry_id, lane, position, elapsed_sec,
    margin_sec)]: the entry must exist (foreign key). *)
Definition insert_result (entry_id : Z) (lane position : option Z)
  (elapsed_sec margin_sec : option Q) (db : database)
  : pyres (database * Z) :=
  if existsb (fun e => en_entry_id e =? entry_id) (entries db) then
    let id := next_id (List.map res_result_id (results db)) (seq_results db) in
    let row := mkResultRow id entry_id lane position elapsed_sec margin_sec in
    Ok (mkDatabase (schools db) (teams db) (conference_affiliations db)
          (school_participations db) (regattas db) (events db) (entries db)
          (results db ++ [row])
          (seq_schools db) (seq_school_participations db) id, id)
  else Raise IntegrityError.

(** [INSERT INTO schools (name, short_name, acronym, crr_name, color)]:
    [crr_name] is UNIQUE. *)
Definition insert_school (name short_name acronym crr_name color : string)
  (db : database) : pyres (database * Z) :=
  if existsb (fun s => String.eqb (s_crr_name s) crr_name) (schools db)
  then Raise IntegrityError
  else
    let id := next_id (List.map s_school_id (schools db)) (seq_schools db) in
    let row := mkSchoolRow id name (Some short_name) (Some acronym) crr_name
                 (Some color) in
    Ok (with_schools db (schools db ++ [row]) id, id).

(** The columns [update_school_field] may name. *)
Definition school_fields : list string :=
  ["name"; "short_name"; "acronym"; "crr_name"; "color"].

Definition set_school_field (field_name new_value : string) (s : school_row)
  : school_row :=
  if String.eqb field_name "name" then
    mkSchoolRow (s_school_id s) new_value (s_short_name s) (s_acronym s)
      (s_crr_name s) (s_color s)
  else if String.eqb field_name "short_name" then
    mkSchoolRow (s_school_id s) (s_name s) (Some new_value) (s_acronym s)
      (s_crr_name s) (s_color s)
  else if String.eqb field_name "acronym" then
    mkSchoolRow (s_school_id s) (s_name s) (s_short_name s) (Some new_value)
      (s_crr_name s) (s_color s)
  else if String.eqb field_name "crr_name" then
    mkSchoolRow (s_school_id s) (s_name s) (s_short_name s) (s_acronym s)
      new_value (s_color s)
  else if String.eqb field_name "color" then
    mkSchoolRow (s_school_id s) (s_name s) (s_short_name s) (s_acronym s)
      (s_crr_name s) (Some new_value)
  else s.

(** [UPDATE schools SET {field_name} = ? WHERE school_id = ?], for
    [field_name] among [school_fields].  Setting [crr_name] to a value
    another row holds violates UNIQUE. *)
Definition update_school (field_name new_value : string) (school_id : Z)
  (db : database) : pyres (database * Z) :=
  let hit := fun s : school_row => s_school_id s =? school_id in
  if String.eqb field_name "crr_name"
     && existsb hit (schools db)
     && existsb (fun s => negb (hit s)
                          && String.eqb (s_crr_name s) new_value) (schools db)
  then Raise IntegrityError
  else
    Ok (with_schools db
          (List.map (fun s => if hit s
                              then set_school_field field_name new_value s
                              else s) (schools db))
          (seq_schools db),
        count hit (schools db)).

(** The text SQLite takes a value for in a string function. *)
Definition sql_text (v : sql_value) : string :=
  match v with
  | SqlText s => s
  | SqlInt z => PyStr.str_of_Z z
  end.

(** [SUBSTR(start_date, 1, 4)] *)
Definition year_prefix (date : sql_value) : string :=
  String.substring 0 4 (sql_text date).

(** [SELECT participation_id FROM school_participations WHERE school_id = ?
    AND SUBSTR(start_date, 1, 4) = ?], [fetchone()].  The rows of a table
    are listed in the order of their row ids, the order of the scan. *)
Definition select_participation (school_id : Z) (season_year : string)
  (db : database) : option Z :=
  match List.filter
          (fun p => (p_school_id p =? school_id)
                    && String.eqb (year_prefix (p_start_date p)) season_year)
          (school_participations db) with
  | p :: _ => Some (p_participation_id p)
  | [] => None
  end.

(** The team columns of [school_participations] that the schools tab
    passes as [team_type]. *)
Definition team_columns : list string :=
  ["openweight_women"; "heavyweight_men"; "lightweight_men";
   "lightweight_women"].

Definition set_team_column (team_type : string) (v : bool)
  (p : participation_row) : participation_row :=
  mkParticipationRow (p_participation_id p) (p_school_id p)
    (p_start_date p) (p_end_date p)
    (if String.eqb team_type "openweight_women" then v
     else p_openweight_women p)
    (if String.eqb team_type "heavyweight_men" then v
     else p_heavyweight_men p)
    (if String.eqb team_type "lightweight_men" then v
     else p_lightweight_men p)
    (if String.eqb team_type "lightweight_women" then v
     else p_lightweight_women p).

(** Column names are compared without regard to ASCII case. *)
Definition sql_lower_char (c : ascii) : ascii :=
  if ((65 <=? PyStr.ord c) && (PyStr.ord c <=? 90))%N
  then ascii_of_N (PyStr.ord c + 32) else c.

Fixpoint sql_lower (s : string) : string :=
  match s with
  | EmptyString => EmptyString
  | String c s' => String (sql_lower_char c) (sql_lower s')
  end.

(** The columns of [school_participations], and the names SQLite gives
    the row id of a table, here the [INTEGER PRIMARY KEY]. *)
Definition participation_columns : list string :=
  ["participation_id"; "school_id"; "start_date"; "end_date";
   "openweight_women"; "heavyweight_men"; "lightweight_men";
   "lightweight_women"; "created_at"].

Definition rowid_names : list string := ["rowid"; "oid"; "_rowid_"].

(** The column an identifier of the [SET] clause names, if any. *)
Definition participation_column (name : string) : option string :=
  let n := sql_lower name in
  if existsb (String.eqb n) rowid_names then Some "participation_id"
  else if existsb (String.eqb n) participation_columns then Some n
  else None.

(** [SET column = v] on one row, [v] being the integer of a [bool].
    [created_at] is not among the fields of a [participation_row]. *)
Definition set_participation_column (column : string) (v : bool)
  (p : participation_row) : participation_row :=
  let n := if v then 1 else 0 in
  if String.eqb column "participation_id" then
    mkParticipationRow n (p_school_id p) (p_start_date p) (p_end_date p)
      (p_openweight_women p) (p_heavyweight_men p) (p_lightweight_men p)
      (p_lightweight_women p)
  else if String.eqb column "school_id" then
    mkParticipationRow (p_participation_id p) n (p_start_date p)
      (p_end_date p) (p_openweight_women p) (p_heavyweight_men p)
      (p_lightweight_men p) (p_lightweight_women p)
  else if String.eqb column "start_date" then
    mkParticipationRow (p_participation_id p) (p_school_id p) (SqlInt n)
      (p_end_date p) (p_openweight_women p) (p_heavyweight_men p)
      (p_lightweight_men p) (p_lightweight_women p)
  else if String.eqb column "end_date" then
    mkParticipationRow (p_participation_id p) (p_school_id p)
      (p_start_date p) (Some (SqlInt n)) (p_openweight_women p)
      (p_heavyweight_men p) (p_lightweight_men p) (p_lightweight_women p)
  else set_team_column column v p.

(** A row put at its place in the order of the row ids. *)
Fixpoint place_row (row : participation_row) (ps : list participation_row)
  : list participation_row :=
  match ps with
  | [] => [row]
  | p :: ps' =>
      if p_participation_id row <=? p_participation_id p then row :: ps
      else p :: place_row row ps'
  end.

Definition by_rowid (ps : list participation_row)
  : list participation_row :=
  fold_right place_row [] ps.

(** [UPDATE school_participations SET {team_type} = ? WHERE
    participation_id = ?], the value bound being the [bool]
    [participating].  [team_type] is pasted into the statement; it is read
    here as one column name.  Naming a column of the table, it sets that
    column, whichever it is: a team column, a date, [school_id] (the
    school must exist: foreign key) or the key itself (it must stay
    unique, and the row moves to its place).  Any other text is taken as
    an unknown column: quoted names, blanks and text that would add to
    the statement are outside this model. *)
Definition update_participation (team_type : string) (participating : bool)
  (participation_id : Z) (db : database) : pyres (database * Z) :=
  match participation_column team_type with
  | None => Raise OperationalError
  | Some column =>
      let ps := school_participations db in
      let hit := fun p : participation_row =>
                   p_participation_id p =? participation_id in
      let n := if participating then 1 else 0 in
      if String.eqb column "school_id" && existsb hit ps
         && negb (existsb (fun s => s_school_id s =? n) (schools db))
      then Raise IntegrityError
      else if String.eqb column "participation_id" && existsb hit ps
              && existsb (fun p => negb (hit p)
                                   && (p_participation_id p =? n)) ps
      then Raise IntegrityError
      else
        let ps' := List.map (fun p => if hit p
                                      then set_participation_column
                                             column participating p
                                      else p) ps in
        Ok (with_school_participations db
              (if String.eqb column "participation_id" then by_rowid ps'
               else ps')
              (seq_school_participations db),
            count hit ps)
  end.

(** [INSERT INTO school_participations (school_id, start_date, end_date,
    openweight_women, heavyweight_men, lightweight_men,
    lightweight_women)]: the school must exist (foreign key). *)
Definition insert_participation (school_id : Z) (start_date : string)
  (end_date : option string) (ow hm lm lw : bool) (db : database)
  : pyres (database * Z) :=
  if existsb (fun s => s_school_id s =? school_id) (schools db) then
    let id := next_id (List.map p_participation_id (school_participations db))
                (seq_school_participations db) in
    let row := mkParticipationRow id school_id (SqlText start_date)
                 (option_map SqlText end_date) ow hm lm lw in
    Ok (with_school_participations db (school_participations db ++ [row]) id,
        id)
  else Raise IntegrityError.

End Sql.

(** ** The database manager ([database/manager.py]) *)

(** The dataclass [School]; its constructor refuses a blank CRR name. *)
Record School : Type := mkSchool {
  sc_school_id : Z;
  sc_name : string;
  sc_short_name : string;
  sc_acronym : string;
  sc_crr_name : string;
  sc_color : string
}.

(** [not s or not s.strip()] *)
Definition blank (s : string) : bool :=
  negb (PyStr.truthy s) || negb (PyStr.truthy (PyStr.strip s)).

Definition new_School (school_id : Z)
  (name short_name acronym crr_name color : string) : pyres School :=
  if blank crr_name then Raise ValueError
  else Ok (mkSchool school_id name short_name acronym crr_name color).

(** The state the manager works on: the database file ([committed]), the
    view of the connection with its uncommitted changes ([working]),
    whether a transaction is open, and the two school caches.  [faults]
    is the environment: each statement sent to the engine consumes one
    flag, and [true] makes that statement fail with [OperationalError]
    (a locked or unreadable file); the empty list means no failure.
    The change listeners of the user interface are not part of the
    model. *)
Record world : Type := mkWorld {
  committed : database;
  working : database;
  in_transaction : bool;
  school_cache : gmap Z School;
  crr_name_to_id_cache : gmap string Z;
  faults : list bool
}.

Definition M (A : Type) : Type := world -> world * pyres A.

Definition ret {A : Type} (a : A) : M A := fun w => (w, Ok a).

Definition raise {A : Type} (e : pyexn) : M A := fun w => (w, Raise e).

Definition mbind {A B : Type} (m : M A) (k : A -> M B) : M B :=
  fun w => match m w with
           | (w', Ok a) => k a w'
           | (w', Raise e) => (w', Raise e)
           end.

Notation "x <- c1 ;; c2" := (mbind c1 (fun x => c2))
  (at level 100, c1 at next level, c2 at level 200, right associativity).
Notation "c1 ;; c2" := (mbind c1 (fun _ => c2))
  (at level 100, c2 at level 200, right associativity).

(** [try: m except Exception as e: h e] *)
Definition try_except {A : Type} (m : M A) (h : pyexn -> M A) : M A :=
  fun w => match m w with
           | (w', Ok a) => (w', Ok a)
           | (w', Raise e) => h e w'
           end.

Definition lift {A : Type} (r : pyres A) : M A := fun w => (w, r).

Definition gets {A : Type} (f : world -> A) : M A := fun w => (w, Ok (f w)).

Definition set_working (db : database) (tx : bool) (w : world) : world :=
  mkWorld (committed w) db tx (school_cache w) (crr_name_to_id_cache w)
    (faults w).

Definition set_caches (sc : gmap Z School) (cc : gmap string Z) : M unit :=
  fun w => (mkWorld (committed w) (working w) (in_transaction w) sc cc
              (faults w), Ok tt).

(** One statement reaches the engine: the next fault flag is consumed. *)
Definition engine : M unit :=
  fun w =>
    let w' := mkWorld (committed w) (working w) (in_transaction w)
                (school_cache w) (crr_name_to_id_cache w) (tl (faults w)) in
    match faults w with
    | true :: _ => (w', Raise OperationalError)
    | _ => (w', Ok tt)
    end.

(** [cursor.execute] of an INSERT, UPDATE or DELETE.  The [sqlite3] module
    first opens a transaction if none is open; a statement that fails
    changes nothing and leaves the transaction open. *)
Definition execute_dml {A : Type} (stmt : database -> pyres (database * A))
  : M A :=
  engine ;;
  (fun w =>
     match stmt (working w) with
     | Ok (db', a) => (set_working db' true w, Ok a)
     | Raise e => (set_working (working w) true w, Raise e)
     end).

(** [cursor.execute] of a SELECT. *)
Definition execute_select {A : Type} (query : database -> A) : M A :=
  engine ;; gets (fun w => query (working w)).

(** [cursor.execute("BEGIN TRANSACTION")] *)
Definition execute_begin : M unit :=
  engine ;;
  (fun w => if in_transaction w then (w, Raise OperationalError)
            else (set_working (working w) true w, Ok tt)).

(** [conn.commit()] and [conn.rollback()] *)
Definition commit : M unit :=
  fun w =>
    if in_transaction w then
      (engine ;;
       (fun w1 => (mkWorld (working w1) (working w1) false (school_cache w1)
                     (crr_name_to_id_cache w1) (faults w1), Ok tt))) w
    else (w, Ok tt).

Definition rollback : M unit :=
  fun w =>
    if in_transaction w then (set_working (committed w) false w, Ok tt)
    else (w, Ok tt).

Module DatabaseManager.

Import PyStr.

Definition coalesce (o : option string) : string :=
  match o with Some s => s | None => EmptyString end.

(** [ORDER BY crr_name]: insertion sort on the byte order of the names. *)
Fixpoint insert_by_crr_name (r : school_row) (l : list school_row)
  : list school_row :=
  match l with
  | [] => [r]
  | x :: l' =>
      if String.leb (s_crr_name r) (s_crr_name x) then r :: l
      else x :: insert_by_crr_name r l'
  end.

Definition order_by_crr_name (l : list school_row) : list school_row :=
  fold_right insert_by_crr_name [] l.

(** The [for row in cursor.fetchall()] loop of
    [_initialize_school_caches]. *)
Fixpoint fill_caches (rows : list school_row) : M unit :=
  match rows with
  | [] => ret tt
  | row :: rest =>
      school <- lift (new_School (s_school_id row) (s_name row)
                        (coalesce (s_short_name row))
                        (coalesce (s_acronym row)) (s_crr_name row)
                        (coalesce (s_color row))) ;;
      sc <- gets school_cache ;;
      cc <- gets crr_name_to_id_cache ;;
      set_caches (<[sc_school_id school := school]> sc)
        (<[sc_crr_name school := sc_school_id school]> cc) ;;
      fill_caches rest
  end.

Definition _initialize_school_caches : M unit :=
  rows <- execute_select
            (fun db => order_by_crr_name
                         (List.filter
                            (fun s => negb (String.eqb (s_crr_name s) ""))
                            (schools db))) ;;
  set_caches ∅ ∅ ;;
  fill_caches rows.

Definition refresh_school_caches : M unit := _initialize_school_caches.

(** [exit(1)] when a table cannot be read or is empty. *)
Definition _verify_database_initialized : M unit :=
  try_except
    (school_count <- execute_select (fun db => length (schools db)) ;;
     team_count <- execute_select (fun db => length (teams db)) ;;
     if (school_count =? 0)%nat || (team_count =? 0)%nat
     then raise SystemExit else ret tt)
    (fun e => match e with
              | OperationalError => raise SystemExit
              | _ => raise e
              end).

(** [DatabaseManager(db_path)] on an existing file that holds [db]. *)
Definition init (db : database) (fl : list bool) : world * pyres unit :=
  (_verify_database_initialized ;; _initialize_school_caches)
    (mkWorld db db false ∅ ∅ fl).

Definition set_School_field (field_name new_value : string) (s : School)
  : pyres School :=
  new_School (sc_school_id s)
    (if String.eqb field_name "name" then new_value else sc_name s)
    (if String.eqb field_name "short_name" then new_value
     else sc_short_name s)
    (if String.eqb field_name "acronym" then new_value else sc_acronym s)
    (if String.eqb field_name "crr_name" then new_value else sc_crr_name s)
    (if String.eqb field_name "color" then new_value else sc_color s).

Definition update_school_field (school_id : Z) (field_name new_value : string)
  : M bool :=
  if negb (existsb (String.eqb field_name) Sql.school_fields)
  then raise ValueError
  else
    sc <- gets school_cache ;;
    match sc !! school_id with
    | None => raise ValueError
    | Some old_school =>
        let is_crr := String.eqb field_name "crr_name" in
        new_value <-
          (if is_crr then
             if blank new_value then raise ValueError
             else
               let new_value := strip new_value in
               cc <- gets crr_name_to_id_cache ;;
               match cc !! new_value with
               | Some existing_id =>
                   if negb (existing_id =? 0)
                      && negb (existing_id =? school_id)
                   then raise ValueError
                   else ret new_value
               | None => ret new_value
               end
           else ret new_value) ;;
        try_except
          (execute_begin ;;
           execute_dml (Sql.update_school field_name new_value school_id) ;;
           (if is_crr then
              sc <- gets school_cache ;;
              cc <- gets crr_name_to_id_cache ;;
              set_caches sc
                (<[new_value := school_id]>
                   (delete (sc_crr_name old_school) cc))
            else ret tt) ;;
           new_school <- lift (set_School_field field_name new_value
                                 old_school) ;;
           sc <- gets school_cache ;;
           cc <- gets crr_name_to_id_cache ;;
           set_caches (<[school_id := new_school]> sc) cc ;;
           commit ;;
           ret true)
          (fun e =>
             rollback ;;
             cc <- gets crr_name_to_id_cache ;;
             (if is_crr
              then match cc !! sc_crr_name old_school with
                   | None =>
                       sc <- gets school_cache ;;
                       set_caches sc
                         (<[sc_crr_name old_school := school_id]> cc)
                   | Some _ => ret tt
                   end
              else ret tt) ;;
             raise e)
    end.

Definition add_school (name short_name acronym crr_name color : string)
  : M Z :=
  let crr_name := if truthy crr_name then crr_name else name in
  let crr_name := strip crr_name in
  cc <- gets crr_name_to_id_cache ;;
  match cc !! crr_name with
  | Some _ => raise ValueError
  | None =>
      try_except
        (school_id <- execute_dml
                        (Sql.insert_school name short_name acronym crr_name
                           color) ;;
         new_school <- lift (new_School school_id name short_name acronym
                               crr_name color) ;;
         sc <- gets school_cache ;;
         cc <- gets crr_name_to_id_cache ;;
         set_caches (<[school_id := new_school]> sc)
           (<[crr_name := school_id]> cc) ;;
         commit ;;
         ret school_id)
        (fun e => rollback ;; raise e)
  end.

Definition add_result (entry_id : Z) (lane position : option Z)
  (elapsed_sec margin_sec : option Q) : M Z :=
  result_id <- execute_dml
                 (Sql.insert_result entry_id lane position elapsed_sec
                    margin_sec) ;;
  commit ;;
  ret result_id.

Definition delete_event (event_id : Z) : M (Z * Z * Z) :=
  try_except
    (results_deleted <-
       execute_dml (fun db => Ok (Sql.delete_results
                                    (Sql.result_in_event db event_id) db)) ;;
     entries_deleted <-
       execute_dml (fun db => Ok (Sql.delete_entries
                                    (fun e => en_event_id e =? event_id) db)) ;;
     events_deleted <-
       execute_dml (fun db => Ok (Sql.delete_events
                                    (fun ev => ev_event_id ev =? event_id)
                                    db)) ;;
     commit ;;
     ret (results_deleted, entries_deleted, events_deleted))
    (fun e => rollback ;; raise e).

Definition delete_regatta (regatta_id : Z) : M (Z * Z * Z * Z) :=
  try_except
    (results_deleted <-
       execute_dml (fun db => Ok (Sql.delete_results
                                    (Sql.result_in_regatta db regatta_id)
                                    db)) ;;
     entries_deleted <-
       execute_dml (fun db => Ok (Sql.delete_entries
                                    (Sql.entry_in_regatta db regatta_id)
                                    db)) ;;
     events_deleted <-
       execute_dml (fun db => Ok (Sql.delete_events
                                    (fun ev => ev_regatta_id ev =? regatta_id)
                                    db)) ;;
     regattas_deleted <-
       execute_dml (fun db => Ok (Sql.delete_regattas
                                    (fun rg => r_regatta_id rg =? regatta_id)
                                    db)) ;;
     commit ;;
     ret (results_deleted, entries_deleted, events_deleted,
          regattas_deleted))
    (fun e => rollback ;; raise e).

Definition update_school_participation_by_id (school_id : Z)
  (team_type : string) (participating : bool) (season_display : string)
  : M bool :=
  let is_current := py_in " - current" season_display in
  let season_year :=
    if is_current then split_head " - current" season_display
    else split_head "-" season_display in
  let start_date := season_year +:+ "-09-01" in
  end_date <-
    (if is_current then ret None
     else y <- lift (py_int season_year) ;;
          ret (Some (str_of_Z (y + 1) +:+ "-08-31"))) ;;
  try_except
    (existing <- execute_select
                   (Sql.select_participation school_id season_year) ;;
     match existing with
     | Some participation_id =>
         execute_dml (Sql.update_participation team_type participating
                        participation_id) ;;
         ret tt
     | None =>
         execute_dml
           (Sql.insert_participation school_id start_date end_date
              (String.eqb team_type "openweight_women" && participating)
              (String.eqb team_type "heavyweight_men" && participating)
              (String.eqb team_type "lightweight_men" && participating)
              (String.eqb team_type "lightweight_women" && participating)) ;;
         ret tt
     end ;;
     commit ;;
     ret true)
    (fun e => rollback ;; ret false).

End DatabaseManager.

(** A small database in the shape the initializer gives: two schools (one
    of them under the CRR name the initializer's table spells with a
    trailing blank), one team, two regattas with an event and an entry
    each, and one result. *)
Definition example_db : database :=
  mkDatabase
    [mkSchoolRow 1 "Villanova University" (Some "Villanova") (Some "")
       "Villanova " (Some "#002F87");
     mkSchoolRow 2 "Yale University" (Some "Yale") (Some "") "Yale"
       (Some "#00356B")]
    [mkTeamRow 1 1 "W" "OW"; mkTeamRow 2 2 "W" "OW"]
    [] []
    [mkRegattaRow 1 "Head of the Charles" (Some "Boston")
       (Some "2024-10-19") (Some "2024-10-20");
     mkRegattaRow 2 "Eastern Sprints" None None None]
    [mkEventRow 1 1 "8+" "1V" "W" "OW" "Final" (Some "2k") None;
     mkEventRow 2 2 "8+" "1V" "W" "OW" "Final" (Some "2k") None]
    [mkEntryRow 1 1 1 (Some "1V") (Some "Big East") None (Some "");
     mkEntryRow 2 2 2 (Some "1V") (Some "Ivy") None (Some "")]
    [mkResultRow 1 2 (Some 3) (Some 1) None None]
    2 0 1.

Definition example_world : world := fst (DatabaseManager.init example_db []).

(** No uncommitted change is pending unless a transaction is open. *)
Definition clean (w : world) : Prop :=
  in_transaction w = false -> working w = committed w.

(** A world in which the third statement sent by the next call fails. *)
Definition failing_world : world :=
  fst (DatabaseManager.init example_db
         [false; false; false; false; false; true]).

(** ** Reachable states *)

Inductive op : Type :=
| AddSchool (name short_name acronym crr_name color : string)
| UpdateSchoolField (school_id : Z) (field_name new_value : string)
| RefreshSchoolCaches
| AddResult (entry_id : Z) (lane position : option Z)
    (elapsed_sec margin_sec : option Q)
| DeleteEvent (event_id : Z)
| DeleteRegatta (regatta_id : Z)
| UpdateSchoolParticipationById (school_id : Z) (team_type : string)
    (participating : bool) (season_display : string).

Definition run (o : op) (w : world) : world :=
  match o with
  | AddSchool name short_name acronym crr_name color =>
      fst (DatabaseManager.add_school name short_name acronym crr_name color w)
  | UpdateSchoolField school_id field_name new_value =>
      fst (DatabaseManager.update_school_field school_id field_name
             new_value w)
  | RefreshSchoolCaches => fst (DatabaseManager.refresh_school_caches w)
  | AddResult entry_id lane position elapsed_sec margin_sec =>
      fst (DatabaseManager.add_result entry_id lane position elapsed_sec
             margin_sec w)
  | DeleteEvent event_id => fst (DatabaseManager.delete_event event_id w)
  | DeleteRegatta regatta_id =>
      fst (DatabaseManager.delete_regatta regatta_id w)
  | UpdateSchoolParticipationById school_id team_type participating
      season_display =>
      fst (DatabaseManager.update_school_participation_by_id school_id
             team_type participating season_display w)
  end.

(** What the schema and the initializer give of the schools table a
    manager is opened on: school ids are distinct (PRIMARY KEY) and
    positive (AUTOINCREMENT), CRR names are distinct (UNIQUE) and not
    blank. *)
Definition initial_ok (db : database) : Prop :=
  NoDup (List.map s_school_id (schools db))
  /\ NoDup (List.map s_crr_name (schools db))
  /\ Forall (fun s => 1 <= s_school_id s /\ blank (s_crr_name s) = false)
       (schools db).

(** The worlds a manager can be in: opened on a database, then driven by
    the operations above.  The methods of the manager that are not
    modelled (regattas, events, entries, notes, conference affiliations,
    whole seasons) commit changes to other tables only; [reachable_other]
    stands for them.  What the schools tab sends on the connection itself,
    an INSERT or a DELETE on schools followed by [refresh_school_caches],
    is no operation of the manager and is not covered. *)
Inductive reachable : world -> Prop :=
| reachable_init (db : database) (fl : list bool) (w : world) :
    initial_ok db -> DatabaseManager.init db fl = (w, Ok tt) -> reachable w
| reachable_run (o : op) (w : world) :
    reachable w -> reachable (run o w)
| reachable_other (w : world) (db' : database) (fl : list bool) :
    reachable w ->
    schools db' = schools (working w) ->
    reachable (mkWorld db' db' false (school_cache w)
                 (crr_name_to_id_cache w) fl).

(** ** The invariant of the schools table and its caches

    On the schools table [rows] (the same in the file and in the view of
    the connection), with the caches [sc] and [cc]: ids and CRR names are
    distinct, ids are positive, names are not blank, the name cache sends
    the name of every school to the id of that school, every cached
    [School] is reached from its own name, and no cached id is 0. *)
Definition schools_inv (w : world) : Prop :=
  let rows := schools (working w) in
  let sc := school_cache w in
  let cc := crr_name_to_id_cache w in
  schools (committed w) = rows
  /\ NoDup (List.map s_school_id rows)
  /\ NoDup (List.map s_crr_name rows)
  /\ (forall r, In r rows ->
                1 <= s_school_id r /\ blank (s_crr_name r) = false
                /\ cc !! s_crr_name r = Some (s_school_id r))
  /\ (forall sid S, sc !! sid = Some S ->
                    cc !! sc_crr_name S = Some sid
                    /\ blank (sc_crr_name S) = false)
  /\ (forall n sid, cc !! n = Some sid -> sid <> 0).

(** What an operation on other tables may do to the schools table and the
    caches: nothing, up to taking the committed table for the working
    one or the reverse. *)
Definition frame (w w' : world) : Prop :=
  school_cache w' = school_cache w
  /\ crr_name_to_id_cache w' = crr_name_to_id_cache w
  /\ (schools (working w') = schools (working w)
      \/ schools (working w') = schools (committed w))
  /\ (schools (committed w') = schools (committed w)
      \/ schools (committed w') = schools (working w)).

Definition framed {A : Type} (m : M A) : Prop :=
  forall w, frame w (fst (m w)).

(** The part of [schools_inv] that concerns the table alone. *)
Definition table_ok (w : world) : Prop :=
  let rows := schools (working w) in
  schools (committed w) = rows
  /\ NoDup (List.map s_school_id rows)
  /\ NoDup (List.map s_crr_name rows)
  /\ (forall r, In r rows ->
                1 <= s_school_id r /\ blank (s_crr_name r) = false).

(** ** The cascade below a regatta and below an event

    In the words of the specification: a regatta contains events, each
    event has entries, each entry has results.  An entry is below a
    regatta when its event is an event of the regatta, a result is below
    a regatta (an event) when its entry is. *)
Definition entry_of_regatta (db : database) (regatta_id : Z)
  (e : entry_row) : Prop :=
  exists ev, In ev (events db) /\ ev_event_id ev = en_event_id e
             /\ ev_regatta_id ev = regatta_id.

Definition result_of_regatta (db : database) (regatta_id : Z)
  (r : result_row) : Prop :=
  exists e, In e (entries db) /\ en_entry_id e = res_entry_id r
            /\ entry_of_regatta db regatta_id e.

Definition result_of_event (db : database) (event_id : Z)
  (r : result_row) : Prop :=
  exists e, In e (entries db) /\ en_entry_id e = res_entry_id r
            /\ en_event_id e = event_id.

(** The number of rows a table has lost. *)
Definition rows_lost {A : Type} (before after : list A) : Z :=
  Z.of_nat (length before) - Z.of_nat (length after).

(** ** Reading a participation row

    The flag a row holds in one of its team columns. *)
Definition team_flag (column : string) (p : participation_row) : bool :=
  if String.eqb column "openweight_women" then p_openweight_women p
  else if String.eqb column "heavyweight_men" then p_heavyweight_men p
  else if String.eqb column "lightweight_men" then p_lightweight_men p
  else p_lightweight_women p.

(** The example world once Yale has been marked as rowing openweight
    women in the current season that began in 2025: the school has a row
    that starts on 2025-09-01 and has no end. *)
Definition current_2025_world : world :=
  fst (DatabaseManager.update_school_participation_by_id 2
         "openweight_women" true "2025 - current" example_world).
(** * Properties *)

(** ** Season overlap *)

Section OverlapFacts.

Import OverlapAnalyzer.

Lemma date_le_first_last (s e : Z) :
  date_le (range_first s) (range_last e) <-> s < e.
Proof.
  unfold date_le, range_first, range_last; simpl. lia.
Qed.

Lemma date_le_trans (a b c : date) :
  date_le a b -> date_le b c -> date_le a c.
Proof. unfold date_le. lia. Qed.

(** Disjointness of two academic-year ranges, in terms of the years. *)
Lemma ranges_disjoint_years (s1 e1 s2 e2 : Z) :
  s1 < e1 -> s2 < e2 ->
  (ranges_disjoint s1 e1 s2 e2 <-> s1 >= e2 \/ s2 >= e1).
Proof.
  intros H1 H2. unfold ranges_disjoint. split.
  - intros Hd.
    destruct (Z_lt_ge_dec s1 e2) as [Ha | Ha]; [ | lia ].
    destruct (Z_lt_ge_dec s2 e1) as [Hb | Hb]; [ | lia ].
    exfalso.
    destruct (Z_le_gt_dec s1 s2) as [Hc | Hc].
    + apply (Hd (range_first s2)).
      unfold date_le, range_first, range_last; simpl. lia.
    + apply (Hd (range_first s1)).
      unfold date_le, range_first, range_last; simpl. lia.
  - intros Hy d [[Ha Hb] [Hc Hd]].
    pose proof (date_le_trans _ _ _ Ha Hd) as Hx.
    pose proof (date_le_trans _ _ _ Hc Hb) as Hz.
    apply date_le_first_last in Hx. apply date_le_first_last in Hz. lia.
Qed.

Lemma analyze_overlap_finite (ns ne es ee : Z) :
  ns < ne -> es < ee ->
  let r := analyze_overlap (mkSeason ns (Some ne)) (mkSeason es (Some ee)) in
  ((ns >= ee \/ es >= ne) /\ r = "NO_OVERLAP")
  \/ (~ (ns >= ee \/ es >= ne) /\ In r overlap_classes).
Proof.
  intros H1 H2. unfold analyze_overlap, overlap_classes; simpl.
  repeat match goal with
         | |- context [ ?a =? ?b ] => destruct (Z.eqb_spec a b)
         | |- context [ ?a >? ?b ] =>
             let H := fresh in
             pose proof (Zgt_cases a b) as H; destruct (a >? b)
         | |- context [ ?a >=? ?b ] =>
             let H := fresh in
             pose proof (Zge_cases a b) as H; destruct (a >=? b)
         | |- context [ ?a <=? ?b ] => destruct (Z.leb_spec a b)
         | |- context [ ?a <? ?b ] => destruct (Z.ltb_spec a b)
         end; simpl;
    first [ left; split; [ lia | reflexivity ]
          | right; split; [ lia | tauto ]
          | exfalso; lia ].
Qed.

End OverlapFacts.

(** C1. For two well-formed finite seasons, [analyze_overlap] answers
    "NO_OVERLAP" exactly when the two academic-year date ranges (1 September
    of the start year to 31 August of the end year) are disjoint, which is
    exactly when one season starts in or after the year the other ends; a
    season ending in year X and one starting in year X are therefore
    classified "NO_OVERLAP", and ranges that do overlap get one of the five
    overlap classifications. *)
Theorem analyze_overlap_no_overlap_iff_disjoint (ns ne es ee : Z) :
  ns < ne -> es < ee ->
  let r := OverlapAnalyzer.analyze_overlap
             (mkSeason ns (Some ne)) (mkSeason es (Some ee)) in
  (r = "NO_OVERLAP" <-> ranges_disjoint ns ne es ee)
  /\ (ranges_disjoint ns ne es ee <-> ns >= ee \/ es >= ne)
  /\ (ns = ee \/ es = ne -> r = "NO_OVERLAP")
  /\ (~ ranges_disjoint ns ne es ee -> In r overlap_classes).
Proof.
  intros H1 H2 r.
  pose proof (ranges_disjoint_years ns ne es ee H1 H2) as Hd.
  pose proof (analyze_overlap_finite ns ne es ee H1 H2) as Hc.
  fold r in Hc.
  assert (Hno : ~ In "NO_OVERLAP" overlap_classes).
  { unfold overlap_classes; simpl. intros H.
    repeat (destruct H as [H | H]; [ discriminate H | ]). exact H. }
  repeat split.
  - intros Hr. apply Hd. destruct Hc as [[Hy _] | [_ Hin]]; [ exact Hy | ].
    rewrite Hr in Hin. contradiction.
  - intros Hdis. apply Hd in Hdis.
    destruct Hc as [[_ Hr] | [Hn _]]; [ exact Hr | contradiction ].
  - apply Hd.
  - apply Hd.
  - intros Hadj. destruct Hc as [[_ Hr] | [Hn _]]; [ exact Hr | ].
    exfalso. apply Hn. lia.
  - intros Hnd. destruct Hc as [[Hy _] | [_ Hin]]; [ | exact Hin ].
    exfalso. apply Hnd. apply Hd. exact Hy.
Qed.

Lemma analyze_overlap_no_overlap_iff_disjoint_witness :
  2023 < 2024 /\ 2024 < 2025
  /\ OverlapAnalyzer.analyze_overlap
       (mkSeason 2024 (Some 2025)) (mkSeason 2023 (Some 2024)) = "NO_OVERLAP"
  /\ In (OverlapAnalyzer.analyze_overlap
           (mkSeason 2023 (Some 2025)) (mkSeason 2024 (Some 2026)))
        overlap_classes.
Proof.
  split; [ lia | ]. split; [ lia | ]. split.
  - apply (analyze_overlap_no_overlap_iff_disjoint 2024 2025 2023 2024);
      [ lia | lia | left; reflexivity ].
  - apply (analyze_overlap_no_overlap_iff_disjoint 2023 2025 2024 2026);
      [ lia | lia | ].
    intros Hd.
    apply (ranges_disjoint_years 2023 2025 2024 2026) in Hd; lia.
Defined.

(** ** Characters and strings *)

Module PyStrFacts.

Import PyStr.

Ltac by_cases_on_char c :=
  destruct c as [[] [] [] [] [] [] [] []]; vm_compute;
  intuition (try discriminate; try reflexivity).

Lemma decimal_not_isspace c : is_decimal c = true -> isspace c = false.
Proof. by_cases_on_char c. Qed.

Lemma decimal_not_int_isspace c :
  is_decimal c = true -> int_isspace c = false.
Proof. by_cases_on_char c. Qed.

Lemma isdigit_not_isspace c : isdigit c = true -> isspace c = false.
Proof. by_cases_on_char c. Qed.

Lemma decimal_isdigit c : is_decimal c = true -> isdigit c = true.
Proof. by_cases_on_char c. Qed.

Lemma decimal_not_punct c :
  is_decimal c = true ->
  Ascii.eqb c "+" = false /\ Ascii.eqb c "-" = false
  /\ Ascii.eqb c "_" = false /\ Ascii.eqb c ":" = false
  /\ Ascii.eqb c "." = false.
Proof. by_cases_on_char c. Qed.

Lemma decimal_val_range c :
  is_decimal c = true -> 0 <= digit_val c <= 9.
Proof.
  destruct c as [[] [] [] [] [] [] [] []]; vm_compute;
    intuition discriminate.
Qed.

(** *** [allb] through the string operations *)

Section Allb.

Variable p : ascii -> bool.

Lemma allb_app s t : allb p (s +:+ t) = allb p s && allb p t.
Proof.
  induction s as [ | c s IH ]; simpl; [ reflexivity | ].
  rewrite IH. apply andb_assoc.
Qed.

Lemma allb_replicate n c : p c = true -> allb p (replicate_char n c) = true.
Proof. intros Hc. induction n; simpl; [ | rewrite Hc ]; auto. Qed.

Lemma allb_lstrip q s : allb p s = true -> allb p (lstrip_with q s) = true.
Proof.
  induction s as [ | c s IH ]; simpl; [ auto | ].
  intros H. apply andb_prop in H. destruct H as [Hc Hs].
  destruct (q c); [ auto | ]. simpl. rewrite Hc, Hs. reflexivity.
Qed.

Lemma allb_rstrip q s : allb p s = true -> allb p (rstrip_with q s) = true.
Proof.
  induction s as [ | c s IH ]; simpl; [ auto | ].
  intros H. apply andb_prop in H. destruct H as [Hc Hs].
  specialize (IH Hs).
  destruct (rstrip_with q s) as [ | c' r ].
  - destruct (q c); simpl; [ reflexivity | rewrite Hc; reflexivity ].
  - simpl. rewrite Hc. exact IH.
Qed.

Lemma allb_strip s : allb p s = true -> allb p (strip s) = true.
Proof. intros H. unfold strip. apply allb_rstrip, allb_lstrip, H. Qed.

Lemma allb_substring s : forall n m,
  allb p s = true -> allb p (String.substring n m s) = true.
Proof.
  induction s as [ | c s IH ]; intros n m H.
  - destruct n, m; reflexivity.
  - simpl in H. apply andb_prop in H. destruct H as [Hc Hs].
    destruct n as [ | n ]; simpl.
    + destruct m as [ | m ]; simpl; [ reflexivity | ].
      rewrite Hc. apply IH, Hs.
    + apply IH, Hs.
Qed.

Lemma allb_filter q s : allb p s = true -> allb p (filter q s) = true.
Proof.
  induction s as [ | c s IH ]; simpl; [ auto | ].
  intros H. apply andb_prop in H. destruct H as [Hc Hs].
  destruct (q c); simpl; [ rewrite Hc | ]; auto.
Qed.

Lemma allb_split sep s :
  allb p s = true -> Forall (fun x => allb p x = true) (split sep s).
Proof.
  induction s as [ | c s IH ]; simpl; intros H.
  - constructor; [ reflexivity | constructor ].
  - apply andb_prop in H. destruct H as [Hc Hs]. specialize (IH Hs).
    destruct (Ascii.eqb c sep).
    + constructor; [ reflexivity | exact IH ].
    + destruct (split sep s) as [ | h t ].
      * constructor; [ simpl; rewrite Hc; reflexivity | constructor ].
      * inversion IH; subst. constructor; [ | assumption ].
        simpl. rewrite Hc. assumption.
Qed.

Lemma allb_split1 sep s :
  allb p s = true -> Forall (fun x => allb p x = true) (split1 sep s).
Proof.
  induction s as [ | c s IH ]; simpl; intros H.
  - constructor; [ reflexivity | constructor ].
  - apply andb_prop in H. destruct H as [Hc Hs]. specialize (IH Hs).
    destruct (Ascii.eqb c sep).
    + repeat constructor. exact Hs.
    + destruct (split1 sep s) as [ | h t ].
      * constructor; [ simpl; rewrite Hc; reflexivity | constructor ].
      * inversion IH; subst. constructor; [ | assumption ].
        simpl. rewrite Hc. assumption.
Qed.

End Allb.

Lemma allb_impl (p q : ascii -> bool) s :
  (forall c, p c = true -> q c = true) ->
  allb p s = true -> allb q s = true.
Proof.
  intros Hpq. induction s as [ | c s IH ]; simpl; [ auto | ].
  intros H. apply andb_prop in H. destruct H as [Hc Hs].
  rewrite (Hpq c Hc), (IH Hs). reflexivity.
Qed.

Lemma allb_filter_self p s : allb p (filter p s) = true.
Proof.
  induction s as [ | c s IH ]; simpl; [ reflexivity | ].
  destruct (p c) eqn:E; simpl; [ rewrite E | ]; exact IH.
Qed.

(** *** [int()] *)

Lemma py_int_raises s e : py_int s = Raise e -> e = ValueError.
Proof.
  unfold py_int.
  destruct (match rstrip_with int_isspace (lstrip_with int_isspace s) with
            | EmptyString => _ | String _ _ => _ end);
    [ discriminate | intros H; inversion H; reflexivity ].
Qed.

Lemma int_body_first_decimal s z :
  int_body s = Some z -> exists c s', s = String c s' /\ is_decimal c = true.
Proof.
  destruct s as [ | c s' ]; simpl; [ discriminate | ].
  destruct (is_decimal c) eqn:E; [ | discriminate ]. eauto.
Qed.

(** [int()] needs at least one decimal digit. *)
Lemma py_int_no_decimal s :
  allb (fun c => negb (is_decimal c)) s = true -> py_int s = Raise ValueError.
Proof.
  intros H. unfold py_int.
  pose proof (allb_rstrip _ int_isspace _ (allb_lstrip _ int_isspace _ H))
    as Ht.
  destruct (rstrip_with int_isspace (lstrip_with int_isspace s))
    as [ | c b ]; [ reflexivity | ].
  simpl in Ht. apply andb_prop in Ht. destruct Ht as [Hc Hb].
  assert (Hbody : int_body b = None).
  { destruct (int_body b) as [z | ] eqn:E; [ | reflexivity ].
    apply int_body_first_decimal in E. destruct E as (c' & b' & -> & Hd).
    simpl in Hb. rewrite Hd in Hb. discriminate. }
  rewrite Hbody. simpl.
  apply negb_true_iff in Hc. rewrite Hc.
  destruct (Ascii.eqb c "+"); [ reflexivity | ].
  destruct (Ascii.eqb c "-"); reflexivity.
Qed.

Lemma int_digits_zero s : forall b z,
  allb (fun c => negb (nonzero_decimal c)) s = true ->
  int_digits 0 b s = Some z -> z = 0.
Proof.
  induction s as [ | c s IH ]; intros b z Hall; simpl.
  - destruct b; [ discriminate | ]. intros H; inversion H; reflexivity.
  - simpl in Hall. apply andb_prop in Hall. destruct Hall as [Hc Hs].
    unfold nonzero_decimal in Hc.
    destruct (is_decimal c) eqn:Ed.
    + simpl in Hc. apply negb_true_iff, negb_false_iff in Hc.
      apply Ascii.eqb_eq in Hc. subst c. apply IH, Hs.
    + destruct (Ascii.eqb c "_"); [ | discriminate ].
      destruct b; [ discriminate | ]. apply IH, Hs.
Qed.

(** A literal whose decimal digits are all '0' denotes 0. *)
Lemma py_int_zero s z :
  allb (fun c => negb (nonzero_decimal c)) s = true ->
  py_int s = Ok z -> z = 0.
Proof.
  intros H. unfold py_int.
  pose proof (allb_rstrip _ int_isspace _ (allb_lstrip _ int_isspace _ H))
    as Ht.
  destruct (rstrip_with int_isspace (lstrip_with int_isspace s))
    as [ | c b ]; [ discriminate | ].
  assert (Hb : allb (fun c => negb (nonzero_decimal c)) b = true).
  { simpl in Ht. apply andb_prop in Ht. tauto. }
  assert (Hbody : forall t y,
             allb (fun c => negb (nonzero_decimal c)) t = true ->
             int_body t = Some y -> y = 0).
  { intros t y Hall. unfold int_body. destruct t as [ | c' t' ];
      [ discriminate | ].
    destruct (is_decimal c'); [ | discriminate ].
    apply int_digits_zero, Hall. }
  destruct (Ascii.eqb c "+").
  - destruct (int_body b) as [y | ] eqn:E; [ | discriminate ].
    intros Hz; inversion Hz; subst. exact (Hbody b z Hb E).
  - destruct (Ascii.eqb c "-").
    + destruct (int_body b) as [y | ] eqn:E; [ | discriminate ].
      simpl. intros Hz; inversion Hz; subst.
      rewrite (Hbody b y Hb E). reflexivity.
    + destruct (int_body (String c b)) as [y | ] eqn:E; [ | discriminate ].
      intros Hz; inversion Hz; subst. exact (Hbody _ z Ht E).
Qed.

Lemma lstrip_noop q s :
  allb (fun c => negb (q c)) s = true -> lstrip_with q s = s.
Proof.
  destruct s as [ | c s ]; simpl; [ reflexivity | ].
  intros H. apply andb_prop in H. destruct H as [Hc _].
  apply negb_true_iff in Hc. rewrite Hc. reflexivity.
Qed.

Lemma rstrip_noop q s :
  allb (fun c => negb (q c)) s = true -> rstrip_with q s = s.
Proof.
  induction s as [ | c s IH ]; simpl; [ reflexivity | ].
  intros H. apply andb_prop in H. destruct H as [Hc Hs].
  rewrite (IH Hs). apply negb_true_iff in Hc. rewrite Hc.
  destruct s; reflexivity.
Qed.

Lemma int_digits_decimal s : forall acc,
  allb is_decimal s = true -> int_digits acc false s = Some (dec_value acc s).
Proof.
  induction s as [ | c s IH ]; intros acc H; simpl; [ reflexivity | ].
  simpl in H. apply andb_prop in H. destruct H as [Hc Hs].
  rewrite Hc. apply IH, Hs.
Qed.

(** [int()] of a non-empty string of decimal digits. *)
Lemma py_int_decimal s :
  allb is_decimal s = true -> truthy s = true ->
  py_int s = Ok (dec_value 0 s).
Proof.
  intros H Hne. unfold py_int.
  assert (Hsp : allb (fun c => negb (int_isspace c)) s = true).
  { eapply allb_impl; [ | exact H ]. intros c Hc.
    rewrite (decimal_not_int_isspace c Hc). reflexivity. }
  rewrite (lstrip_noop _ _ Hsp), (rstrip_noop _ _ Hsp).
  destruct s as [ | c s' ]; [ discriminate | ].
  pose proof H as H'. simpl in H'. apply andb_prop in H'.
  destruct H' as [Hc Hs].
  destruct (decimal_not_punct c Hc) as (Hp & Hm & _).
  rewrite Hp, Hm. unfold int_body. rewrite Hc.
  rewrite (int_digits_decimal _ _ H). reflexivity.
Qed.

Lemma dec_value_zeros n s : dec_value 0 (replicate_char n "0" +:+ s)
                            = dec_value 0 s.
Proof. induction n; simpl; [ reflexivity | exact IHn ]. Qed.

(** *** [str()] of a number and back *)

Lemma allb_string_of_uint u :
  allb is_decimal (NilEmpty.string_of_uint u) = true.
Proof. induction u; simpl; auto. Qed.

Lemma dec_value_uint u : forall u',
  dec_value (Z.of_N (Unsigned.of_lu u')) (NilEmpty.string_of_uint u)
  = Z.of_N (Unsigned.of_lu (Decimal.revapp u u')).
Proof.
  induction u; intros u'; simpl Decimal.revapp;
    [ reflexivity | rewrite <- IHu; simpl NilEmpty.string_of_uint;
                    cbn [dec_value]; f_equal;
                    cbn [Unsigned.of_lu]; unfold digit_val; simpl ord;
                    lia .. ].
Qed.

Lemma str_of_N_unfold n : str_of_N n = NilEmpty.string_of_uint (N.to_uint n).
Proof.
  unfold str_of_N, NilZero.string_of_uint.
  destruct (N.to_uint n) eqn:E; try reflexivity.
  destruct n; simpl in E; [ discriminate | ].
  exfalso. eapply Unsigned.to_uint_nonnil. exact E.
Qed.

Lemma str_of_N_decimal n : allb is_decimal (str_of_N n) = true.
Proof. rewrite str_of_N_unfold. apply allb_string_of_uint. Qed.

Lemma str_of_N_truthy n : truthy (str_of_N n) = true.
Proof.
  rewrite str_of_N_unfold.
  destruct (N.to_uint n) eqn:E; try reflexivity.
  destruct n; simpl in E; [ discriminate | ].
  exfalso. eapply Unsigned.to_uint_nonnil. exact E.
Qed.

Lemma dec_value_str_of_N n : dec_value 0 (str_of_N n) = Z.of_N n.
Proof.
  rewrite str_of_N_unfold.
  change 0 with (Z.of_N (Unsigned.of_lu Decimal.Nil)).
  rewrite dec_value_uint.
  change (Decimal.revapp (N.to_uint n) Decimal.Nil)
    with (Decimal.rev (N.to_uint n)).
  rewrite <- Unsigned.of_uint_alt.
  change (Pos.of_uint (N.to_uint n)) with (N.of_uint (N.to_uint n)).
  rewrite DecimalN.Unsigned.of_to. reflexivity.
Qed.

(** [int(format(n, "0{w}d")) == n] for a natural number [n]. *)
Lemma py_int_format_0d w z :
  0 <= z -> py_int (format_0d w z) = Ok z.
Proof.
  intros Hz. unfold format_0d.
  destruct (Z.ltb_spec z 0) as [ | _ ]; [ lia | ].
  unfold rjust. rewrite py_int_decimal.
  - rewrite dec_value_zeros, dec_value_str_of_N. f_equal. lia.
  - rewrite allb_app, allb_replicate, str_of_N_decimal; reflexivity.
  - pose proof (str_of_N_truthy (Z.to_N z)) as Ht.
    destruct (replicate_char _ _); [ exact Ht | reflexivity ].
Qed.

Lemma format_0d_decimal w z :
  0 <= z -> allb is_decimal (format_0d w z) = true.
Proof.
  intros Hz. unfold format_0d.
  destruct (Z.ltb_spec z 0) as [ | _ ]; [ lia | ].
  unfold rjust. rewrite allb_app, allb_replicate, str_of_N_decimal;
    reflexivity.
Qed.

Lemma format_0d_truthy w z : truthy (format_0d w z) = true.
Proof.
  unfold format_0d. destruct (z <? 0); [ reflexivity | ].
  unfold rjust. pose proof (str_of_N_truthy (Z.to_N z)) as Ht.
  destruct (replicate_char _ _); [ exact Ht | reflexivity ].
Qed.

(** *** Membership of one character *)

Lemma py_in_char c s :
  py_in (String c EmptyString) s
  = negb (allb (fun x => negb (Ascii.eqb x c)) s).
Proof.
  induction s as [ | x s IH ]; simpl; [ reflexivity | ].
  rewrite IH. destruct (ascii_dec c x) as [-> | Hne].
  - rewrite Ascii.eqb_refl. simpl. destruct s; reflexivity.
  - apply not_eq_sym in Hne. apply Ascii.eqb_neq in Hne. rewrite Hne.
    reflexivity.
Qed.

Lemma py_in_char_false c s :
  py_in (String c EmptyString) s = false
  <-> allb (fun x => negb (Ascii.eqb x c)) s = true.
Proof. rewrite py_in_char. apply negb_false_iff. Qed.

Lemma py_in_char_strip c s :
  py_in (String c EmptyString) s = false ->
  py_in (String c EmptyString) (strip s) = false.
Proof.
  rewrite !py_in_char_false. apply allb_strip.
Qed.

Lemma substring_truthy s : forall n m,
  (n < String.length s)%nat -> (0 < m)%nat ->
  truthy (String.substring n m s) = true.
Proof.
  induction s as [ | c s IH ]; intros n m Hn Hm; simpl in Hn; [ lia | ].
  destruct n as [ | n ]; simpl.
  - destruct m; [ lia | reflexivity ].
  - apply IH; lia.
Qed.

Lemma index0_truthy s :
  truthy s = true -> exists c s', s = String c s'
                                  /\ index0 s = Ok (String c EmptyString).
Proof. destruct s as [ | c s' ]; [ discriminate | eauto ]. Qed.

(** *** Strings built by concatenation *)

Lemma rstrip_cons_keep q c z :
  rstrip_with q z = z -> truthy z = true ->
  rstrip_with q (String c z) = String c z.
Proof.
  intros Hz Ht. simpl. rewrite Hz. destruct z; [ discriminate | reflexivity ].
Qed.

Lemma truthy_app_r x y : truthy y = true -> truthy (x +:+ y) = true.
Proof. destruct x; simpl; auto. Qed.

Lemma rstrip_app_keep q x y :
  rstrip_with q y = y -> truthy y = true ->
  rstrip_with q (x +:+ y) = x +:+ y.
Proof.
  intros Hy Ht. induction x as [ | c x IH ]; [ exact Hy | ].
  change (String c x +:+ y) with (String c (x +:+ y)).
  apply rstrip_cons_keep; [ exact IH | apply truthy_app_r, Ht ].
Qed.

Lemma split_app sep a b :
  allb (fun x => negb (Ascii.eqb x sep)) a = true ->
  split sep (a +:+ String sep b) = a :: split sep b.
Proof.
  induction a as [ | c a IH ]; intros H.
  - simpl. rewrite Ascii.eqb_refl. reflexivity.
  - simpl in H. apply andb_prop in H. destruct H as [Hc Ha].
    apply negb_true_iff in Hc.
    change (String c a +:+ String sep b) with (String c (a +:+ String sep b)).
    simpl split. rewrite Hc, (IH Ha). reflexivity.
Qed.

Lemma split_none sep b :
  allb (fun x => negb (Ascii.eqb x sep)) b = true -> split sep b = [b].
Proof.
  induction b as [ | c b IH ]; intros H; [ reflexivity | ].
  simpl in H. apply andb_prop in H. destruct H as [Hc Hb].
  apply negb_true_iff in Hc. simpl. rewrite Hc, (IH Hb). reflexivity.
Qed.

Lemma split1_app sep a b :
  allb (fun x => negb (Ascii.eqb x sep)) a = true ->
  split1 sep (a +:+ String sep b) = [a; b].
Proof.
  induction a as [ | c a IH ]; intros H.
  - simpl. rewrite Ascii.eqb_refl. reflexivity.
  - simpl in H. apply andb_prop in H. destruct H as [Hc Ha].
    apply negb_true_iff in Hc.
    change (String c a +:+ String sep b) with (String c (a +:+ String sep b)).
    simpl split1. rewrite Hc, (IH Ha). reflexivity.
Qed.

Lemma py_in_char_mid c a b :
  py_in (String c EmptyString) (a +:+ String c b) = true.
Proof.
  rewrite py_in_char, allb_app. simpl. rewrite Ascii.eqb_refl. simpl.
  rewrite andb_false_r. reflexivity.
Qed.

Lemma decimal_no_char s c :
  is_decimal c = false -> allb is_decimal s = true ->
  allb (fun x => negb (Ascii.eqb x c)) s = true.
Proof.
  intros Hc. apply allb_impl. intros x Hx.
  destruct (Ascii.eqb_spec x c) as [-> | ]; [ congruence | reflexivity ].
Qed.

(** *** Separators of several characters *)

Lemma prefix_app s b : String.prefix s (s +:+ b) = true.
Proof.
  induction s as [ | c s IH ]; simpl; [ destruct b; reflexivity | ].
  destruct (ascii_dec c c) as [ _ | Hne ]; [ exact IH | contradiction ].
Qed.

Lemma prefix_refl s : String.prefix s s = true.
Proof.
  induction s as [ | c s IH ]; simpl; [ reflexivity | ].
  destruct (ascii_dec c c) as [ _ | Hne ]; [ exact IH | contradiction ].
Qed.

Lemma prefix_first_differs c sep x s :
  Ascii.eqb x c = false -> String.prefix (String c sep) (String x s) = false.
Proof.
  intros H. simpl. destruct (ascii_dec c x) as [-> | _ ]; [ | reflexivity ].
  rewrite Ascii.eqb_refl in H. discriminate.
Qed.

Lemma py_in_first_absent c sep s :
  allb (fun x => negb (Ascii.eqb x c)) s = true ->
  py_in (String c sep) s = false.
Proof.
  induction s as [ | x s IH ]; intros H; [ reflexivity | ].
  simpl in H. apply andb_prop in H. destruct H as [Hx Hs].
  apply negb_true_iff in Hx.
  cbn [py_in]. rewrite (prefix_first_differs c sep x s Hx), (IH Hs).
  reflexivity.
Qed.

Lemma py_in_suffix sub a : py_in sub (a +:+ sub) = true.
Proof.
  induction a as [ | x a IH ].
  - simpl append. destruct sub; simpl; [ reflexivity | ].
    destruct (ascii_dec a a) as [ _ | Hne ]; [ | contradiction ].
    rewrite prefix_refl. reflexivity.
  - change (String x a +:+ sub) with (String x (a +:+ sub)).
    cbn [py_in]. rewrite IH. apply orb_true_r.
Qed.

Lemma split_head_suffix c sep a :
  allb (fun x => negb (Ascii.eqb x c)) a = true ->
  split_head (String c sep) (a +:+ String c sep) = a.
Proof.
  induction a as [ | x a IH ]; intros H.
  - simpl append. destruct sep; simpl;
      destruct (ascii_dec c c) as [ _ | Hne ]; try contradiction;
      [ reflexivity | ].
    destruct (ascii_dec a a) as [ _ | Hne ]; [ | contradiction ].
    rewrite prefix_refl. reflexivity.
  - simpl in H. apply andb_prop in H. destruct H as [Hx Ha].
    apply negb_true_iff in Hx.
    change (String x a +:+ String c sep)
      with (String x (a +:+ String c sep)).
    cbn [split_head].
    rewrite (prefix_first_differs c sep x _ Hx), (IH Ha). reflexivity.
Qed.

Lemma split_head_char c a b :
  allb (fun x => negb (Ascii.eqb x c)) a = true ->
  split_head (String c EmptyString) (a +:+ String c b) = a.
Proof.
  induction a as [ | x a IH ]; intros H.
  - simpl. destruct (ascii_dec c c) as [ _ | Hne ]; [ | contradiction ].
    destruct b; reflexivity.
  - simpl in H. apply andb_prop in H. destruct H as [Hx Ha].
    apply negb_true_iff in Hx.
    change (String x a +:+ String c b) with (String x (a +:+ String c b)).
    cbn [split_head].
    rewrite (prefix_first_differs c EmptyString x _ Hx), (IH Ha).
    reflexivity.
Qed.

(** *** [str()] of an integer *)

Lemma str_of_Z_nonneg z : 0 <= z -> str_of_Z z = str_of_N (Z.to_N z).
Proof.
  intros H. unfold str_of_Z.
  destruct (Z.ltb_spec z 0); [ lia | reflexivity ].
Qed.

Lemma py_int_str_of_Z z : 0 <= z -> py_int (str_of_Z z) = Ok z.
Proof.
  intros H. rewrite (str_of_Z_nonneg z H).
  rewrite py_int_decimal by (apply str_of_N_decimal || apply str_of_N_truthy).
  rewrite dec_value_str_of_N. f_equal. lia.
Qed.

Lemma str_of_Z_no_space z :
  allb (fun x => negb (Ascii.eqb x " ")) (str_of_Z z) = true.
Proof.
  unfold str_of_Z. destruct (z <? 0); simpl;
    apply decimal_no_char; try reflexivity; apply str_of_N_decimal.
Qed.

(** *** [strip] twice *)

Lemma rstrip_idem q s : rstrip_with q (rstrip_with q s) = rstrip_with q s.
Proof.
  induction s as [ | c s IH ]; [ reflexivity | ].
  simpl. destruct (rstrip_with q s) as [ | c' r ] eqn:E.
  - destruct (q c) eqn:Eq; simpl; [ reflexivity | rewrite Eq; reflexivity ].
  - cbn [rstrip_with] in IH |- *. rewrite IH. reflexivity.
Qed.

Lemma lstrip_head q s :
  match lstrip_with q s with
  | String c _ => q c = false
  | EmptyString => True
  end.
Proof.
  induction s as [ | c s IH ]; simpl; [ exact I | ].
  destruct (q c) eqn:E; [ exact IH | exact E ].
Qed.

Lemma rstrip_head q c s :
  q c = false -> exists r, rstrip_with q (String c s) = String c r.
Proof.
  intros H. simpl. destruct (rstrip_with q s); [ rewrite H | ]; eauto.
Qed.

Lemma strip_idem s : strip (strip s) = strip s.
Proof.
  unfold strip. pose proof (lstrip_head isspace s) as Hh.
  destruct (lstrip_with isspace s) as [ | c u ]; [ reflexivity | ].
  destruct (rstrip_head isspace c u Hh) as [r Er]. rewrite Er.
  simpl lstrip_with. rewrite Hh. rewrite <- Er. apply rstrip_idem.
Qed.

End PyStrFacts.

(** ** Time strings *)

Example parse_704 : TimeParse.parse_time_input "704" = Ok (7, 4, 0).
Proof. reflexivity. Qed.

Example parse_docstring_examples :
  TimeParse.parse_time_input "7" = Ok (7, 0, 0)
  /\ TimeParse.parse_time_input "1150123" = Ok (11, 50, 123)
  /\ TimeParse.parse_time_input "11150123" = Ok (111, 50, 123)
  /\ TimeParse.parse_time_input "7:04.123" = Ok (7, 4, 123)
  /\ TimeParse.parse_time_input "12:75" = Ok (1, 27, 500)
  /\ TimeParse.parse_time_input ":" = Ok (0, 0, 0)
  /\ TimeParse.parse_time_input "abc" = Raise ValueError
  /\ TimeParse.normalize " 704 " = "07:04.000".
Proof. repeat split; vm_compute; reflexivity. Qed.

Module TimeParseFacts.

Import PyStr PyStrFacts TimeParse.

(** What a step of the parser may do: return, or raise [ValueError]. *)
Local Abbreviation value_error_only r :=
  (match r with Ok _ => True | Raise e => e = ValueError end).

Lemma int_or_zero_raises x : value_error_only (int_or_zero x).
Proof.
  unfold int_or_zero. destruct (truthy x); [ | exact I ].
  destruct (py_int x) eqn:E; [ exact I | ].
  eapply py_int_raises, E.
Qed.

Lemma seconds_and_millis_raises part :
  value_error_only (seconds_and_millis part).
Proof.
  unfold seconds_and_millis.
  destruct (split1 "." part) as [ | a [ | b [ | ? ? ] ] ]; try reflexivity.
  pose proof (int_or_zero_raises a) as Ha.
  destruct (int_or_zero a); simpl; [ | exact Ha ].
  destruct (py_int _) eqn:E; simpl; [ exact I | ].
  eapply py_int_raises, E.
Qed.

Lemma parse_formatted_cases text :
  match parse_formatted text with
  | Ok (_, s, _) => s < 60
  | Raise e =>
      e = ValueError
      \/ (e = UnboundLocalError
          /\ py_in ":" text = false /\ py_in "." text = false)
  end.
Proof.
  unfold parse_formatted.
  set (body := if py_in ":" text then _ else _).
  assert (Hbody : match body with
                  | Ok _ => True
                  | Raise e =>
                      e = ValueError
                      \/ (e = UnboundLocalError
                          /\ py_in ":" text = false
                          /\ py_in "." text = false)
                  end).
  { subst body. destruct (py_in ":" text) eqn:Ec.
    - destruct (split ":" text) as [ | time_part rest ]; [ left; reflexivity | ].
      pose proof (int_or_zero_raises time_part) as Hm.
      destruct (int_or_zero time_part) as [minutes | e]; simpl;
        [ | left; exact Hm ].
      destruct rest as [ | sec_part rest' ]; [ exact I | ].
      destruct (py_in "." sec_part).
      + pose proof (seconds_and_millis_raises sec_part) as Hs.
        destruct (seconds_and_millis sec_part); simpl; [ exact I | left; exact Hs ].
      + pose proof (int_or_zero_raises sec_part) as Hs.
        destruct (int_or_zero sec_part); simpl; [ exact I | left; exact Hs ].
    - destruct (py_in "." text) eqn:Ep.
      + pose proof (seconds_and_millis_raises text) as Hs.
        destruct (seconds_and_millis text); simpl; [ exact I | left; exact Hs ].
      + right. auto. }
  destruct body as [ [[m s] ms] | e ]; simpl; [ | exact Hbody ].
  pose proof (Zge_cases s 60) as Hge.
  destruct (s >=? 60); [ left; reflexivity | lia ].
Qed.

Lemma parse_digits_cases text :
  match parse_digits text with
  | Ok (_, s, _) => s < 60
  | Raise e => e = ValueError
  end.
Proof.
  unfold parse_digits.
  set (digits := filter isdigit text).
  destruct (truthy digits) eqn:Et; simpl; [ | reflexivity ].
  set (body := if (String.length digits <=? 6)%nat then _ else _).
  assert (Hbody : value_error_only body).
  { subst body. destruct (Nat.leb_spec (String.length digits) 6) as [Hl | Hl].
    - destruct (index0_truthy (ljust 6 "0" digits)) as (c & s' & _ & ->).
      { unfold ljust. destruct digits; [ discriminate | reflexivity ]. }
      simpl.
      destruct (py_int (String c "")) eqn:E1; simpl;
        [ | eapply py_int_raises, E1 ].
      destruct (py_int (slice 1 3 _)) eqn:E2; simpl;
        [ | eapply py_int_raises, E2 ].
      destruct (py_int (slice 3 6 _)) eqn:E3; simpl;
        [ exact I | eapply py_int_raises, E3 ].
    - destruct (py_int (drop_last 6 digits)) eqn:E0; simpl;
        [ | eapply py_int_raises, E0 ].
      destruct (index0_truthy (take_last 6 digits)) as (c & s' & _ & ->).
      { unfold take_last. apply substring_truthy; lia. }
      simpl.
      destruct (py_int (String c "")) eqn:E1; simpl;
        [ | eapply py_int_raises, E1 ].
      destruct (py_int (slice 1 3 _)) eqn:E2; simpl;
        [ | eapply py_int_raises, E2 ].
      destruct (py_int (slice 3 6 _)) eqn:E3; simpl;
        [ exact I | eapply py_int_raises, E3 ]. }
  destruct body as [ [[m s] ms] | e ]; simpl; [ | exact Hbody ].
  pose proof (Zge_cases s 60) as Hge.
  destruct (s >=? 60); [ reflexivity | lia ].
Qed.

Lemma parse_time_input_cases text :
  match parse_time_input text with
  | Ok (_, s, _) => s < 60
  | Raise e => e = ValueError
  end.
Proof.
  unfold parse_time_input.
  pose proof (parse_digits_cases (strip text)) as Hd.
  pose proof (parse_formatted_cases (strip text)) as Hf.
  destruct (py_in ":" (strip text) || py_in "." (strip text)) eqn:Eg;
    [ | exact Hd ].
  destruct (parse_formatted (strip text)) as [ [[m s] ms] | e ];
    [ exact Hf | ].
  destruct Hf as [-> | (-> & Hc & Hp)]; [ exact Hd | ].
  rewrite Hc, Hp in Eg. discriminate.
Qed.

(** *** Inputs without a decimal digit *)

Local Abbreviation no_decimal := (fun c : ascii => negb (is_decimal c)).
Local Abbreviation zero_or_other := (fun c : ascii => negb (nonzero_decimal c)).

Lemma no_decimal_zero_or_other s :
  allb no_decimal s = true -> allb zero_or_other s = true.
Proof.
  apply allb_impl. intros c Hc. unfold nonzero_decimal.
  apply negb_true_iff in Hc. rewrite Hc. reflexivity.
Qed.

Lemma anyb_false p s :
  anyb p s = false <-> allb (fun c => negb (p c)) s = true.
Proof. unfold anyb. apply negb_false_iff. Qed.

Lemma int_or_zero_no_decimal x z :
  allb no_decimal x = true -> int_or_zero x = Ok z -> z = 0.
Proof.
  intros H. unfold int_or_zero. destruct (truthy x).
  - rewrite (py_int_no_decimal x H). discriminate.
  - intros E; inversion E; reflexivity.
Qed.

Lemma seconds_and_millis_no_decimal part s ms :
  allb no_decimal part = true ->
  seconds_and_millis part = Ok (s, ms) -> s = 0 /\ ms = 0.
Proof.
  intros H. unfold seconds_and_millis.
  pose proof (allb_split1 _ "." part H) as Hsp.
  destruct (split1 "." part) as [ | a [ | b [ | ? ? ] ] ]; try discriminate.
  inversion Hsp as [ | ? ? Ha Hsp' ]; subst.
  inversion Hsp' as [ | ? ? Hb _ ]; subst.
  destruct (int_or_zero a) as [s' | ] eqn:Ea; simpl; [ | discriminate ].
  destruct (py_int _) as [ms' | ] eqn:Eb; simpl; [ | discriminate ].
  intros E; inversion E; subst. split.
  - exact (int_or_zero_no_decimal a s Ha Ea).
  - eapply py_int_zero; [ | exact Eb ].
    unfold slice, ljust. apply allb_substring.
    rewrite allb_app, (no_decimal_zero_or_other b Hb).
    apply allb_replicate. reflexivity.
Qed.

Lemma parse_formatted_no_decimal text r :
  allb no_decimal text = true -> parse_formatted text = Ok r -> r = (0, 0, 0).
Proof.
  intros H. unfold parse_formatted.
  set (body := if py_in ":" text then _ else _).
  assert (Hbody : forall r', body = Ok r' -> r' = (0, 0, 0)).
  { subst body. intros r'. destruct (py_in ":" text).
    - pose proof (allb_split _ ":" text H) as Hsp.
      destruct (split ":" text) as [ | time_part rest ]; [ discriminate | ].
      inversion Hsp as [ | ? ? Ht Hrest ]; subst.
      destruct (int_or_zero time_part) as [m | ] eqn:Em; simpl;
        [ | discriminate ].
      apply (int_or_zero_no_decimal _ _ Ht) in Em. subst m.
      destruct rest as [ | sec_part rest' ];
        [ intros E; inversion E; reflexivity | ].
      inversion Hrest as [ | ? ? Hs _ ]; subst.
      destruct (py_in "." sec_part).
      + destruct (seconds_and_millis sec_part) as [ [s ms] | ] eqn:Es; simpl;
          [ | discriminate ].
        destruct (seconds_and_millis_no_decimal _ _ _ Hs Es) as [-> ->].
        intros E; inversion E; reflexivity.
      + destruct (int_or_zero sec_part) as [s | ] eqn:Es; simpl;
          [ | discriminate ].
        apply (int_or_zero_no_decimal _ _ Hs) in Es. subst s.
        intros E; inversion E; reflexivity.
    - destruct (py_in "." text); [ | discriminate ].
      destruct (seconds_and_millis text) as [ [s ms] | ] eqn:Es; simpl;
        [ | discriminate ].
      destruct (seconds_and_millis_no_decimal _ _ _ H Es) as [-> ->].
      intros E; inversion E; reflexivity. }
  destruct body as [ [[m s] ms] | e ]; simpl; [ | discriminate ].
  specialize (Hbody _ eq_refl). inversion Hbody; subst. simpl.
  intros E; inversion E; reflexivity.
Qed.

Lemma parse_digits_no_decimal text :
  allb no_decimal text = true -> parse_digits text = Raise ValueError.
Proof.
  intros H. unfold parse_digits.
  pose proof (allb_filter _ isdigit text H) as Hd.
  set (digits := filter isdigit text) in *.
  destruct (truthy digits) eqn:Et; simpl; [ | reflexivity ].
  destruct (Nat.leb_spec (String.length digits) 6) as [Hl | Hl].
  - destruct digits as [ | c d' ]; [ discriminate | ].
    unfold ljust. simpl index0. simpl pybind.
    rewrite (py_int_no_decimal (String c "")); [ reflexivity | ].
    simpl in Hd. apply andb_prop in Hd. destruct Hd as [Hc _].
    simpl. rewrite Hc. reflexivity.
  - rewrite (py_int_no_decimal (drop_last 6 digits)); [ reflexivity | ].
    unfold drop_last. apply allb_substring, Hd.
Qed.

Lemma parse_time_input_no_decimal text :
  anyb is_decimal text = false ->
  parse_time_input text = Raise ValueError
  \/ (parse_time_input text = Ok (0, 0, 0)
      /\ py_in ":" (strip text) || py_in "." (strip text) = true).
Proof.
  intros H. apply anyb_false in H. apply allb_strip in H.
  unfold parse_time_input.
  pose proof (parse_digits_no_decimal _ H) as Hd.
  destruct (py_in ":" (strip text) || py_in "." (strip text)) eqn:Eg;
    [ | left; exact Hd ].
  pose proof (parse_formatted_cases (strip text)) as Hf.
  destruct (parse_formatted (strip text)) as [ r | e ] eqn:Ef.
  - right. rewrite (parse_formatted_no_decimal _ _ H Ef). auto.
  - left. destruct Hf as [-> | (-> & Hc & Hp)]; [ exact Hd | ].
    rewrite Hc, Hp in Eg. discriminate.
Qed.

(** *** Inputs of one to six decimal digits *)

Lemma filter_lstrip p q s :
  (forall c, q c = true -> p c = false) ->
  filter p (lstrip_with q s) = filter p s.
Proof.
  intros Hqp. induction s as [ | c s IH ]; simpl; [ reflexivity | ].
  destruct (q c) eqn:Eq; [ | reflexivity ].
  rewrite (Hqp c Eq). exact IH.
Qed.

Lemma filter_rstrip p q s :
  (forall c, q c = true -> p c = false) ->
  filter p (rstrip_with q s) = filter p s.
Proof.
  intros Hqp. induction s as [ | c s IH ]; simpl; [ reflexivity | ].
  destruct (rstrip_with q s) as [ | c' r ].
  - simpl in IH. rewrite <- IH.
    destruct (q c) eqn:Eq; simpl; [ rewrite (Hqp c Eq) | ]; reflexivity.
  - simpl. simpl in IH. rewrite IH. reflexivity.
Qed.

Lemma filter_strip p s :
  (forall c, isspace c = true -> p c = false) ->
  filter p (strip s) = filter p s.
Proof.
  intros H. unfold strip. rewrite filter_rstrip, filter_lstrip; auto.
Qed.

Lemma filter_isdigit_decimal s :
  digits_are_decimal s = true -> filter isdigit s = filter is_decimal s.
Proof.
  unfold digits_are_decimal.
  induction s as [ | c s IH ]; simpl; [ reflexivity | ].
  intros H. apply andb_prop in H. destruct H as [Hc Hs].
  rewrite (IH Hs). destruct (isdigit c) eqn:Ei.
  - simpl in Hc. rewrite Hc. reflexivity.
  - destruct (is_decimal c) eqn:Ed; [ | reflexivity ].
    rewrite (decimal_isdigit c Ed) in Ei. discriminate.
Qed.

Lemma decimal_values_filter s :
  decimal_values (filter is_decimal s) = decimal_values s.
Proof.
  induction s as [ | c s IH ]; simpl; [ reflexivity | ].
  destruct (is_decimal c) eqn:E; simpl; [ rewrite E, IH | ]; auto.
Qed.

Lemma decimal_values_length s :
  allb is_decimal s = true -> length (decimal_values s) = String.length s.
Proof.
  induction s as [ | c s IH ]; simpl; [ reflexivity | ].
  intros H. apply andb_prop in H. destruct H as [Hc Hs].
  rewrite Hc. simpl. rewrite (IH Hs). reflexivity.
Qed.

Lemma py_int_decimal1 c :
  is_decimal c = true -> py_int (String c "") = Ok (digit_val c).
Proof.
  intros H. rewrite py_int_decimal;
    [ simpl; f_equal; lia | simpl; rewrite H; reflexivity | reflexivity ].
Qed.

Lemma py_int_decimal2 a b :
  is_decimal a = true -> is_decimal b = true ->
  py_int (String a (String b "")) = Ok (10 * digit_val a + digit_val b).
Proof.
  intros Ha Hb.
  rewrite py_int_decimal;
    [ simpl; f_equal; lia | simpl; rewrite Ha, Hb; reflexivity | reflexivity ].
Qed.

Lemma py_int_decimal3 a b c :
  is_decimal a = true -> is_decimal b = true -> is_decimal c = true ->
  py_int (String a (String b (String c "")))
  = Ok (100 * digit_val a + 10 * digit_val b + digit_val c).
Proof.
  intros Ha Hb Hc.
  rewrite py_int_decimal;
    [ simpl; f_equal; lia | simpl; rewrite Ha, Hb, Hc; reflexivity
    | reflexivity ].
Qed.

Lemma parse_digits_six text ds :
  filter isdigit text = ds -> allb is_decimal ds = true ->
  (1 <= String.length ds <= 6)%nat ->
  snd (fst (six_digit_reading ds)) < 60 ->
  parse_digits text = Ok (six_digit_reading ds).
Proof.
  intros Hf Hall Hlen Hs. unfold parse_digits. rewrite Hf. clear Hf text.
  assert (H0 : is_decimal "0" = true) by reflexivity.
  assert (V0 : digit_val "0" = 0) by reflexivity.
  destruct ds as [ | c1 [ | c2 [ | c3 [ | c4 [ | c5 [ | c6 [ | c7 ds ] ] ] ] ] ] ];
    simpl in Hlen; try lia; clear Hlen;
    simpl in Hall;
    repeat match type of Hall with
           | _ && _ = true =>
               let Hc := fresh "Hc" in
               apply andb_prop in Hall; destruct Hall as [Hc Hall]
           end;
    unfold six_digit_reading, pad6 in *; simpl decimal_values in *;
    repeat match goal with
           | H : is_decimal ?c = true |- _ => rewrite H in *; revert H
           end; intros;
    cbn -[py_int Z.mul Z.add Z.geb Z.ltb pybind] in Hs;
    cbv [ljust slice String.append String.substring index0 replicate_char
         String.length Nat.sub Nat.leb truthy negb length repeat app];
    cbn [pybind];
    repeat first [ rewrite py_int_decimal3 by assumption
                 | rewrite py_int_decimal2 by assumption
                 | rewrite py_int_decimal1 by assumption ];
    cbn [pybind]; rewrite ?V0;
    match goal with
    | Hs : ?s < 60 |- context [ ?s' >=? 60 ] =>
        replace s' with s by lia;
        let Hge := fresh in
        pose proof (Zge_cases s 60) as Hge; destruct (s >=? 60); [ lia | ]
    end;
    reflexivity.
Qed.

Lemma six_digit_reading_filter text :
  six_digit_reading (filter is_decimal text) = six_digit_reading text.
Proof. unfold six_digit_reading. rewrite decimal_values_filter. reflexivity. Qed.

Lemma parse_time_input_six text :
  py_in ":" text = false -> py_in "." text = false ->
  digits_are_decimal text = true ->
  (1 <= length (decimal_values text) <= 6)%nat ->
  snd (fst (six_digit_reading text)) < 60 ->
  parse_time_input text = Ok (six_digit_reading text).
Proof.
  intros Hc Hp Hd Hlen Hs. unfold parse_time_input.
  rewrite (py_in_char_strip _ _ Hc), (py_in_char_strip _ _ Hp). simpl.
  rewrite <- six_digit_reading_filter in Hs |- *.
  apply parse_digits_six; [ | apply allb_filter_self | | exact Hs ].
  - rewrite filter_strip.
    + apply filter_isdigit_decimal, Hd.
    + intros c Hsp. destruct (isdigit c) eqn:E; [ | reflexivity ].
      rewrite (isdigit_not_isspace c E) in Hsp. discriminate.
  - rewrite <- decimal_values_length by apply allb_filter_self.
    rewrite decimal_values_filter. exact Hlen.
Qed.

(** *** Normalized strings *)

Lemma decimal_no_space s :
  allb is_decimal s = true -> allb (fun c => negb (isspace c)) s = true.
Proof.
  apply allb_impl. intros c Hc. rewrite (decimal_not_isspace c Hc).
  reflexivity.
Qed.

Lemma parse_formatted_shape a b c m s ms :
  allb is_decimal a = true -> truthy a = true ->
  allb is_decimal b = true -> truthy b = true ->
  allb is_decimal c = true -> truthy c = true ->
  py_int a = Ok m -> py_int b = Ok s ->
  py_int (slice 0 3 (ljust 3 "0" c)) = Ok ms ->
  s < 60 ->
  let text := a +:+ String ":" (b +:+ String "." c) in
  strip text = text /\ parse_time_input text = Ok (m, s, ms).
Proof.
  intros Ha Ta Hb Tb Hc Tc Hm Hs Hms Hlt text.
  assert (Hstrip : strip text = text).
  { unfold strip, text.
    assert (Hl : lstrip_with isspace (a +:+ String ":" (b +:+ String "." c))
                 = a +:+ String ":" (b +:+ String "." c)).
    { destruct a as [ | x a' ]; [ discriminate | ].
      simpl in Ha. apply andb_prop in Ha. destruct Ha as [Hx _].
      change (String x a' +:+ ?r) with (String x (a' +:+ r)).
      simpl. rewrite (decimal_not_isspace x Hx). reflexivity. }
    rewrite Hl. apply rstrip_app_keep; [ | reflexivity ].
    apply rstrip_cons_keep; [ | apply truthy_app_r; reflexivity ].
    apply rstrip_app_keep; [ | reflexivity ].
    apply rstrip_cons_keep; [ | exact Tc ].
    apply rstrip_noop, decimal_no_space, Hc. }
  split; [ exact Hstrip | ].
  unfold parse_time_input. rewrite Hstrip. unfold text.
  rewrite py_in_char_mid. simpl orb. cbv iota.
  unfold parse_formatted. rewrite py_in_char_mid.
  rewrite split_app by (apply decimal_no_char; [ reflexivity | exact Ha ]).
  rewrite split_none.
  2:{ rewrite allb_app. simpl.
      rewrite (decimal_no_char b ":" eq_refl Hb),
        (decimal_no_char c ":" eq_refl Hc). reflexivity. }
  unfold int_or_zero at 1. rewrite Ta, Hm. cbn [pybind].
  rewrite py_in_char_mid.
  unfold seconds_and_millis.
  rewrite split1_app by (apply decimal_no_char; [ reflexivity | exact Hb ]).
  unfold int_or_zero. rewrite Tb, Hs. cbn [pybind]. rewrite Hms.
  cbn [pybind fst snd].
  pose proof (Zge_cases s 60) as Hge.
  destruct (s >=? 60); [ lia | reflexivity ].
Qed.

Lemma millis_roundtrip ms :
  0 <= ms <= 999 ->
  py_int (slice 0 3 (ljust 3 "0" (format_0d 3 ms))) = Ok ms.
Proof.
  intros Hr.
  assert (Hall : List.forallb
            (fun n => match py_int (slice 0 3 (ljust 3 "0"
                                      (format_0d 3 (Z.of_nat n)))) with
                      | Ok z => z =? Z.of_nat n
                      | Raise _ => false
                      end) (List.seq 0 1000) = true)
    by (vm_compute; reflexivity).
  rewrite List.forallb_forall in Hall.
  specialize (Hall (Z.to_nat ms)).
  rewrite Z2Nat.id in Hall by lia.
  assert (Hin : List.In (Z.to_nat ms) (List.seq 0 1000))
    by (apply List.in_seq; lia).
  specialize (Hall Hin).
  destruct (py_int _) as [z | ]; [ | discriminate ].
  apply Z.eqb_eq in Hall. subst z. reflexivity.
Qed.

Lemma normalized_roundtrip m s ms :
  0 <= m -> 0 <= s <= 59 -> 0 <= ms <= 999 ->
  strip (normalized m s ms) = normalized m s ms
  /\ parse_time_input (normalized m s ms) = Ok (m, s, ms).
Proof.
  intros Hm Hs Hms. unfold normalized.
  change (":" +:+ ?x) with (String ":" x).
  change ("." +:+ ?x) with (String "." x).
  apply parse_formatted_shape;
    try apply format_0d_decimal; try apply format_0d_truthy;
    try apply py_int_format_0d; try apply millis_roundtrip; lia.
Qed.

End TimeParseFacts.

(** *** Inputs without a decimal digit, exactly *)

Module ZeroFacts.

Import PyStr PyStrFacts TimeParse TimeParseFacts.

Local Abbreviation no_decimal := (fun c : ascii => negb (is_decimal c)).

Local Abbreviation all_ascii := (List.map ascii_of_nat (List.seq 0 256)).

Lemma in_all_ascii c : In c all_ascii.
Proof.
  apply in_map_iff. exists (nat_of_ascii c).
  split; [ apply ascii_nat_embedding | ].
  apply in_seq. pose proof (nat_ascii_bounded c). lia.
Qed.

(** What [int()] makes of a fraction of one or two characters without a
    digit, once padded with '0'. *)
Local Abbreviation fraction1_ok :=
  (fun c : ascii =>
     implb (no_decimal c)
       (match py_int (String c "00") with
        | Ok z => sign_or_space c && (z =? 0)
        | Raise _ => negb (sign_or_space c)
        end)).

Local Abbreviation fraction2_ok :=
  (fun c1 c2 : ascii =>
     implb (no_decimal c1 && no_decimal c2)
       (match py_int (String c1 (String c2 "0")) with
        | Ok z => int_isspace c1 && sign_or_space c2 && (z =? 0)
        | Raise _ => negb (int_isspace c1 && sign_or_space c2)
        end)).

Lemma fraction1_all : forallb fraction1_ok all_ascii = true.
Proof. vm_compute. reflexivity. Qed.

Lemma fraction2_all :
  forallb (fun c1 => forallb (fraction2_ok c1) all_ascii) all_ascii = true.
Proof. vm_compute. reflexivity. Qed.

Lemma py_int_fraction1 c :
  is_decimal c = false ->
  py_int (String c "00")
  = if sign_or_space c then Ok 0 else Raise ValueError.
Proof.
  intros Hc.
  pose proof (proj1 (forallb_forall _ _) fraction1_all c (in_all_ascii c))
    as H.
  cbv beta in H. rewrite Hc in H. simpl implb in H.
  destruct (py_int (String c "00")) as [z | e] eqn:E.
  - apply andb_prop in H. destruct H as [H1 H2]. rewrite H1.
    apply Z.eqb_eq in H2. subst z. reflexivity.
  - apply negb_true_iff in H. rewrite H.
    rewrite (py_int_raises _ _ E). reflexivity.
Qed.

Lemma py_int_fraction2 c1 c2 :
  is_decimal c1 = false -> is_decimal c2 = false ->
  py_int (String c1 (String c2 "0"))
  = if int_isspace c1 && sign_or_space c2 then Ok 0 else Raise ValueError.
Proof.
  intros H1 H2.
  pose proof (proj1 (forallb_forall _ _) fraction2_all c1 (in_all_ascii c1))
    as H.
  cbv beta in H.
  pose proof (proj1 (forallb_forall _ _) H c2 (in_all_ascii c2)) as H'.
  cbv beta in H'. rewrite H1, H2 in H'. simpl implb in H'.
  destruct (py_int (String c1 (String c2 "0"))) as [z | e] eqn:E.
  - apply andb_prop in H'. destruct H' as [Ha Hb]. rewrite Ha.
    apply Z.eqb_eq in Hb. subst z. reflexivity.
  - apply negb_true_iff in H'. rewrite H'.
    rewrite (py_int_raises _ _ E). reflexivity.
Qed.

(** The milliseconds of a fraction without a digit. *)
Lemma millis_no_decimal ms :
  allb no_decimal ms = true ->
  py_int (slice 0 3 (ljust 3 "0" ms))
  = if blank_fraction ms then Ok 0 else Raise ValueError.
Proof.
  intros H.
  destruct ms as [ | c1 [ | c2 [ | c3 r ] ] ].
  - reflexivity.
  - simpl in H. rewrite andb_true_r in H. apply negb_true_iff in H.
    exact (py_int_fraction1 c1 H).
  - simpl in H. rewrite andb_true_r in H. apply andb_prop in H.
    destruct H as [H1 H2]. apply negb_true_iff in H1, H2.
    exact (py_int_fraction2 c1 c2 H1 H2).
  - assert (E : slice 0 3 (ljust 3 "0" (String c1 (String c2 (String c3 r))))
                = String c1 (String c2 (String c3 ""))).
    { unfold slice, ljust. simpl. destruct (r +:+ _); reflexivity. }
    rewrite E. simpl blank_fraction.
    apply py_int_no_decimal.
    simpl in H |- *.
    apply andb_prop in H. destruct H as [H1 H].
    apply andb_prop in H. destruct H as [H2 H].
    apply andb_prop in H. destruct H as [H3 _].
    rewrite H1, H2, H3. reflexivity.
Qed.

Local Abbreviation returns r :=
  (match r with Ok _ => true | Raise _ => false end).

Lemma int_or_zero_returns x :
  allb no_decimal x = true -> returns (int_or_zero x) = negb (truthy x).
Proof.
  intros H. unfold int_or_zero. destruct (truthy x); [ | reflexivity ].
  rewrite (py_int_no_decimal x H). reflexivity.
Qed.

Lemma seconds_and_millis_returns part :
  allb no_decimal part = true ->
  returns (seconds_and_millis part) = dot_and_blank_fraction part.
Proof.
  intros H. unfold seconds_and_millis.
  destruct part as [ | c rest ]; [ reflexivity | ].
  simpl split1. simpl dot_and_blank_fraction.
  simpl in H. apply andb_prop in H. destruct H as [Hc Hrest].
  destruct (Ascii.eqb c ".").
  - simpl. rewrite (millis_no_decimal rest Hrest).
    destruct (blank_fraction rest); reflexivity.
  - pose proof (allb_split1 _ "." rest Hrest) as Hsp.
    destruct (split1 "." rest) as [ | h [ | b [ | ? ? ] ] ]; try reflexivity.
    inversion Hsp as [ | ? ? Hh _ ]; subst.
    unfold int_or_zero. simpl truthy.
    rewrite (py_int_no_decimal (String c h)); [ reflexivity | ].
    simpl. rewrite Hc, Hh. reflexivity.
Qed.

Lemma split_before_colon s :
  exists rest, split ":" s = before_colon s :: rest.
Proof.
  induction s as [ | c s IH ]; simpl; [ eauto | ].
  destruct (Ascii.eqb c ":"); [ eauto | ].
  destruct IH as [rest ->]. eauto.
Qed.

Lemma allb_before_colon p s :
  allb p s = true -> allb p (before_colon s) = true.
Proof.
  induction s as [ | c s IH ]; simpl; [ reflexivity | ].
  intros H. apply andb_prop in H. destruct H as [Hc Hs].
  destruct (Ascii.eqb c ":"); simpl; [ reflexivity | ].
  rewrite Hc. exact (IH Hs).
Qed.

Lemma py_in_head c s : py_in (String c "") (String c s) = true.
Proof.
  rewrite py_in_char. cbn [allb]. rewrite Ascii.eqb_refl. reflexivity.
Qed.

Lemma dot_and_blank_has_dot s :
  dot_and_blank_fraction s = true -> py_in "." s = true.
Proof.
  destruct s as [ | c ms ]; [ discriminate | ]. cbn [dot_and_blank_fraction].
  intros H. apply andb_prop in H. destruct H as [H _].
  apply Ascii.eqb_eq in H. subst c. apply py_in_head.
Qed.

(** On a text without a digit the formatted branch returns exactly on
    the texts that [reads_as_zero] describes. *)
Lemma parse_formatted_returns t :
  allb no_decimal t = true ->
  returns (parse_formatted t) = reads_as_zero t.
Proof.
  intros H. unfold parse_formatted.
  set (body := if py_in ":" t then _ else _).
  assert (Hbody : returns body = reads_as_zero t
                  /\ forall r, body = Ok r -> r = (0, 0, 0)).
  { split.
    - subst body. destruct t as [ | c rest ]; [ reflexivity | ].
      simpl in H. apply andb_prop in H. destruct H as [Hc Hrest].
      unfold reads_as_zero.
      destruct (Ascii.eqb c ":") eqn:Ec.
      + apply Ascii.eqb_eq in Ec. subst c.
        rewrite py_in_head.
        simpl split.
        destruct (split_before_colon rest) as [tl ->].
        pose proof (allb_before_colon _ rest Hrest) as Hf.
        set (field := before_colon rest) in *.
        unfold int_or_zero at 1. simpl truthy. cbn [pybind].
        destruct (py_in "." field) eqn:Ep.
        * pose proof (seconds_and_millis_returns field Hf) as Hs.
          destruct (seconds_and_millis field) as [ [x y] | ]; simpl;
            simpl in Hs; rewrite <- Hs;
            destruct field; try reflexivity; discriminate.
        * pose proof (int_or_zero_returns field Hf) as Hs.
          assert (Hd : dot_and_blank_fraction field = false).
          { destruct (dot_and_blank_fraction field) eqn:Ed;
              [ | reflexivity ].
            apply dot_and_blank_has_dot in Ed. congruence. }
          rewrite Hd, orb_false_r.
          destruct (int_or_zero field); simpl; simpl in Hs; exact Hs.
      + destruct (py_in ":" (String c rest)) eqn:Ein.
        * simpl negb. simpl andb.
          simpl split. rewrite Ec.
          pose proof (allb_split _ ":" rest Hrest) as Hsp.
          assert (Hraise : forall h, allb no_decimal h = true ->
                     int_or_zero (String c h) = Raise ValueError).
          { intros h Hh. unfold int_or_zero. simpl truthy.
            apply py_int_no_decimal. simpl. rewrite Hc, Hh. reflexivity. }
          destruct (split ":" rest) as [ | h tl ].
          -- rewrite (Hraise "" eq_refl). reflexivity.
          -- inversion Hsp; subst. rewrite (Hraise h); [ reflexivity | ].
             assumption.
        * simpl negb. rewrite andb_true_l.
          assert (Hall : allb no_decimal (String c rest) = true)
            by (simpl; rewrite Hc, Hrest; reflexivity).
          pose proof (seconds_and_millis_returns _ Hall) as Hs.
          destruct (py_in "." (String c rest)) eqn:Ep.
          -- destruct (seconds_and_millis (String c rest)) as [ [x y] | ];
               simpl; simpl in Hs; exact Hs.
          -- destruct (dot_and_blank_fraction (String c rest)) eqn:Ed;
               [ | reflexivity ].
             apply dot_and_blank_has_dot in Ed. congruence.
    - subst body. intros r'. destruct (py_in ":" t).
      + pose proof (allb_split _ ":" t H) as Hsp.
        destruct (split ":" t) as [ | time_part rest ]; [ discriminate | ].
        inversion Hsp as [ | ? ? Ht Hrest ]; subst.
        destruct (int_or_zero time_part) as [m | ] eqn:Em; simpl;
          [ | discriminate ].
        apply (int_or_zero_no_decimal _ _ Ht) in Em. subst m.
        destruct rest as [ | sec_part rest' ];
          [ intros E; inversion E; reflexivity | ].
        inversion Hrest as [ | ? ? Hs _ ]; subst.
        destruct (py_in "." sec_part).
        * destruct (seconds_and_millis sec_part) as [ [s ms] | ] eqn:Es;
            simpl; [ | discriminate ].
          destruct (seconds_and_millis_no_decimal _ _ _ Hs Es) as [-> ->].
          intros E; inversion E; reflexivity.
        * destruct (int_or_zero sec_part) as [s | ] eqn:Es; simpl;
            [ | discriminate ].
          apply (int_or_zero_no_decimal _ _ Hs) in Es. subst s.
          intros E; inversion E; reflexivity.
      + destruct (py_in "." t); [ | discriminate ].
        destruct (seconds_and_millis t) as [ [s ms] | ] eqn:Es; simpl;
          [ | discriminate ].
        destruct (seconds_and_millis_no_decimal _ _ _ H Es) as [-> ->].
        intros E; inversion E; reflexivity. }
  destruct Hbody as [Hret Hzero].
  destruct body as [ [[m s] ms] | e ]; simpl; [ | exact Hret ].
  specialize (Hzero _ eq_refl). inversion Hzero; subst. simpl.
  exact Hret.
Qed.

(** The whole parser on an input without a decimal digit. *)
Lemma parse_time_input_zero_iff text :
  anyb is_decimal text = false ->
  parse_time_input text
  = if reads_as_zero (strip text) then Ok (0, 0, 0) else Raise ValueError.
Proof.
  intros H.
  pose proof (parse_time_input_no_decimal text H) as Hnd.
  apply anyb_false in H. apply allb_strip in H.
  pose proof (parse_formatted_returns _ H) as Hret.
  unfold parse_time_input in *.
  pose proof (parse_digits_no_decimal _ H) as Hd.
  set (t := strip text) in *.
  destruct (py_in ":" t || py_in "." t) eqn:Eg.
  - destruct (parse_formatted t) as [ r | e ] eqn:Ef; simpl in Hret;
      rewrite <- Hret.
    + destruct Hnd as [Hnd | [Hnd _]]; [ discriminate | exact Hnd ].
    + destruct Hnd as [Hnd | [Hnd _]]; [ exact Hnd | ].
      destruct e; try discriminate; rewrite Hd in Hnd; discriminate.
  - apply orb_false_elim in Eg. destruct Eg as [Ec Ep].
    assert (Hz : reads_as_zero t = false).
    { unfold reads_as_zero. destruct t as [ | c rest ]; [ reflexivity | ].
      destruct (Ascii.eqb c ":") eqn:E.
      - apply Ascii.eqb_eq in E. subst c. rewrite py_in_head in Ec.
        discriminate.
      - rewrite Ec. simpl negb. rewrite andb_true_l.
        destruct (dot_and_blank_fraction (String c rest)) eqn:Ed;
          [ | reflexivity ].
        apply dot_and_blank_has_dot in Ed. congruence. }
    rewrite Hz. exact Hd.
Qed.

End ZeroFacts.

(** C4 (as amended).  [parse_time_input] either returns a triple, whose
    seconds are below 60, or raises [ValueError], and nothing else.  On an
    input without any decimal digit it raises [ValueError], except that
    it returns (0, 0, 0) exactly when the stripped input starts with ':'
    and its seconds field, the text up to the next ':' or the end, is
    empty or a '.' with a blank fraction, or has no ':' and is a '.' with
    a blank fraction ([reads_as_zero]); without ':' and '.' it always
    raises [ValueError]. *)
Theorem parse_time_input_validation (text : string) :
  match TimeParse.parse_time_input text with
  | Ok (_, s, _) => s < 60
  | Raise e => e = ValueError
  end
  /\ (PyStr.anyb PyStr.is_decimal text = false ->
      TimeParse.parse_time_input text
      = if TimeParse.reads_as_zero (PyStr.strip text)
        then Ok (0, 0, 0) else Raise ValueError)
  /\ (PyStr.anyb PyStr.is_decimal text = false ->
      PyStr.py_in ":" text = false -> PyStr.py_in "." text = false ->
      TimeParse.parse_time_input text = Raise ValueError).
Proof.
  split; [ apply TimeParseFacts.parse_time_input_cases | ].
  split; [ apply ZeroFacts.parse_time_input_zero_iff | ].
  intros Hn Hc Hp.
  destruct (TimeParseFacts.parse_time_input_no_decimal text Hn)
    as [Hr | [_ Hg]]; [ exact Hr | ].
  rewrite (PyStrFacts.py_in_char_strip _ _ Hc),
    (PyStrFacts.py_in_char_strip _ _ Hp) in Hg.
  discriminate.
Qed.

Lemma parse_time_input_validation_witness :
  (PyStr.anyb PyStr.is_decimal "abc" = false
   /\ PyStr.py_in ":" "abc" = false /\ PyStr.py_in "." "abc" = false
   /\ TimeParse.parse_time_input "abc" = Raise ValueError)
  /\ (PyStr.anyb PyStr.is_decimal " :.+:x " = false
      /\ TimeParse.reads_as_zero (PyStr.strip " :.+:x ") = true
      /\ TimeParse.parse_time_input " :.+:x " = Ok (0, 0, 0))
  /\ (PyStr.anyb PyStr.is_decimal ".." = false
      /\ TimeParse.reads_as_zero (PyStr.strip "..") = false
      /\ TimeParse.parse_time_input ".." = Raise ValueError).
Proof.
  split; [ | split ].
  - split; [ reflexivity | ]. split; [ reflexivity | ].
    split; [ reflexivity | ].
    apply (parse_time_input_validation "abc"); reflexivity.
  - split; [ reflexivity | ]. split; [ reflexivity | ].
    apply (proj1 (proj2 (parse_time_input_validation " :.+:x "))).
    reflexivity.
  - split; [ reflexivity | ]. split; [ reflexivity | ].
    apply (proj1 (proj2 (parse_time_input_validation ".."))).
    reflexivity.
Defined.

(** C4 as stated fails on ":" : the input has no decimal digit, yet the
    call returns (0, 0, 0) instead of raising [ValueError]. *)
Lemma parse_time_input_colon_returns :
  PyStr.anyb PyStr.is_decimal ":" = false
  /\ TimeParse.parse_time_input ":" = Ok (0, 0, 0)
  /\ TimeParse.parse_time_input ":" <> Raise ValueError.
Proof. repeat split; try reflexivity. discriminate. Qed.

(** Inputs without a digit on either side of the line [reads_as_zero]
    draws. *)
Example parse_time_input_no_digit_examples :
  List.map TimeParse.parse_time_input [":"; "."; ":."; "::abc"; ".+"; ". -"]
  = List.repeat (Ok (0, 0, 0)) 6
  /\ List.map TimeParse.parse_time_input
       [".."; ".:"; ":x"; "x:"; "._"; ".+-"; ". . ."; ""]
     = List.repeat (Raise ValueError) 8.
Proof. split; reflexivity. Qed.


Example superscript_two_is_digit :
  PyStr.isdigit TimeParse.superscript_two = true
  /\ PyStr.is_decimal TimeParse.superscript_two = false
  /\ PyStr.ord TimeParse.superscript_two = 178%N.
Proof. repeat split. Qed.

(** C2 (as amended).  "704" is read as (7, 4, 0); and every input without
    ':' and '.', in which each character accepted by [str.isdigit] is one
    of '0' .. '9', and which has between one and six digits, is read by
    position: the digits are right-padded with '0' to six, the first is the
    minutes, the next two the seconds, the last three the milliseconds,
    provided the seconds are below 60. *)
Theorem parse_time_input_digit_positions :
  TimeParse.parse_time_input "704" = Ok (7, 4, 0)
  /\ forall text : string,
      PyStr.py_in ":" text = false -> PyStr.py_in "." text = false ->
      TimeParse.digits_are_decimal text = true ->
      (1 <= length (TimeParse.decimal_values text) <= 6)%nat ->
      snd (fst (TimeParse.six_digit_reading text)) < 60 ->
      TimeParse.parse_time_input text
      = Ok (TimeParse.six_digit_reading text).
Proof.
  split; [ reflexivity | ].
  apply TimeParseFacts.parse_time_input_six.
Qed.

Lemma parse_time_input_digit_positions_witness :
  PyStr.py_in ":" "6m58s2" = false /\ PyStr.py_in "." "6m58s2" = false
  /\ TimeParse.digits_are_decimal "6m58s2" = true
  /\ TimeParse.six_digit_reading "6m58s2" = (6, 58, 200)
  /\ TimeParse.parse_time_input "6m58s2" = Ok (6, 58, 200).
Proof.
  split; [ reflexivity | ]. split; [ reflexivity | ].
  split; [ reflexivity | ]. split; [ reflexivity | ].
  apply (proj2 parse_time_input_digit_positions "6m58s2");
    try reflexivity; simpl; lia.
Defined.

(** C2 as stated fails on the two characters '7', SUPERSCRIPT TWO: there
    is no ':' and no '.', the only decimal digit is 7, the reading by
    position is (7, 0, 0), and the call raises [ValueError], because
    [str.isdigit] keeps the superscript and [int()] rejects it. *)
Lemma parse_time_input_superscript_raises :
  let text := String "7" (String TimeParse.superscript_two EmptyString) in
  PyStr.py_in ":" text = false /\ PyStr.py_in "." text = false
  /\ length (TimeParse.decimal_values text) = 1%nat
  /\ TimeParse.six_digit_reading text = (7, 0, 0)
  /\ PyStr.filter PyStr.isdigit text = text
  /\ TimeParse.parse_time_input text = Raise ValueError.
Proof. repeat split. Qed.

(** C9.  Parsing the normalized text of (m, s, ms), with m >= 0,
    0 <= s <= 59 and 0 <= ms <= 999, gives back (m, s, ms); hence
    normalizing an entry field that already holds a normalized time leaves
    its text unchanged. *)
Theorem parse_normalized_roundtrip (m s ms : Z) :
  0 <= m -> 0 <= s <= 59 -> 0 <= ms <= 999 ->
  TimeParse.parse_time_input (TimeParse.normalized m s ms) = Ok (m, s, ms)
  /\ TimeParse.normalize (TimeParse.normalized m s ms)
     = TimeParse.normalized m s ms.
Proof.
  intros Hm Hs Hms.
  destruct (TimeParseFacts.normalized_roundtrip m s ms Hm Hs Hms)
    as [Hstrip Hparse].
  split; [ exact Hparse | ].
  unfold TimeParse.normalize. rewrite Hstrip, Hparse.
  destruct (PyStr.truthy _); reflexivity.
Qed.

Lemma parse_normalized_roundtrip_witness :
  TimeParse.normalized 7 4 123 = "07:04.123"
  /\ TimeParse.parse_time_input "07:04.123" = Ok (7, 4, 123)
  /\ TimeParse.normalize "07:04.123" = "07:04.123".
Proof.
  split; [ reflexivity | ].
  change "07:04.123" with (TimeParse.normalized 7 4 123).
  apply (parse_normalized_roundtrip 7 4 123); lia.
Defined.

(** ** Seconds as a float *)

Module MillisFacts.

Import PyStr PyStrFacts TimeParse TimeParseFacts.

Lemma int_digits_bound s : forall acc b z,
  0 <= acc -> int_digits acc b s = Some z ->
  0 <= z < (acc + 1) * 10 ^ Z.of_nat (String.length s).
Proof.
  induction s as [ | c s IH ]; intros acc b z Hacc; simpl int_digits.
  - destruct b; [ discriminate | ]. intros E; inversion E; subst.
    simpl. lia.
  - cbn [String.length]. rewrite Nat2Z.inj_succ, Z.pow_succ_r by lia.
    assert (Hp : 0 < 10 ^ Z.of_nat (String.length s))
      by (apply Z.pow_pos_nonneg; lia).
    destruct (is_decimal c) eqn:Ec.
    + intros E. pose proof (decimal_val_range c Ec) as Hd.
      apply IH in E; [ | lia ]. nia.
    + destruct (Ascii.eqb c "_"); [ | discriminate ].
      destruct b; [ discriminate | ]. intros E.
      apply IH in E; [ | lia ]. nia.
Qed.

Lemma int_body_bound s z :
  int_body s = Some z -> 0 <= z < 10 ^ Z.of_nat (String.length s).
Proof.
  unfold int_body. destruct s as [ | c s ]; [ discriminate | ].
  destruct (is_decimal c); [ | discriminate ].
  intros E. apply int_digits_bound in E; lia.
Qed.

Lemma length_lstrip q s :
  (String.length (lstrip_with q s) <= String.length s)%nat.
Proof.
  induction s as [ | c s IH ]; simpl; [ lia | ].
  destruct (q c); simpl; lia.
Qed.

Lemma length_rstrip q s :
  (String.length (rstrip_with q s) <= String.length s)%nat.
Proof.
  induction s as [ | c s IH ]; simpl; [ lia | ].
  destruct (rstrip_with q s); [ destruct (q c) | ]; simpl in *; lia.
Qed.

Lemma length_substring s : forall n m,
  (String.length (String.substring n m s) <= m)%nat.
Proof.
  induction s as [ | c s IH ]; intros [ | n ] [ | m ]; simpl; try lia.
  - specialize (IH 0%nat m). lia.
  - apply IH.
  - apply IH.
Qed.

Lemma py_int_bound s z :
  py_int s = Ok z -> Z.abs z < 10 ^ Z.of_nat (String.length s).
Proof.
  unfold py_int.
  pose proof (length_lstrip int_isspace s) as Hl.
  pose proof (length_rstrip int_isspace (lstrip_with int_isspace s)) as Hr.
  set (t := rstrip_with int_isspace (lstrip_with int_isspace s)) in *.
  assert (Hmono : forall u, (String.length u <= String.length t)%nat ->
                            10 ^ Z.of_nat (String.length u)
                            <= 10 ^ Z.of_nat (String.length s)).
  { intros u Hu. apply Z.pow_le_mono_r; lia. }
  destruct t as [ | c b ]; [ discriminate | ].
  pose proof (Hmono b ltac:(simpl; lia)) as Hb.
  pose proof (Hmono (String c b) ltac:(lia)) as Hcb.
  destruct (Ascii.eqb c "+").
  - destruct (int_body b) as [v | ] eqn:E; [ | discriminate ].
    intros H; inversion H; subst. apply int_body_bound in E. lia.
  - destruct (Ascii.eqb c "-").
    + destruct (int_body b) as [v | ] eqn:E; [ | discriminate ].
      intros H; inversion H; subst. apply int_body_bound in E. lia.
    + destruct (int_body (String c b)) as [v | ] eqn:E; [ | discriminate ].
      intros H; inversion H; subst. apply int_body_bound in E. lia.
Qed.

Lemma py_int_slice3 i s z :
  py_int (slice i (i + 3) s) = Ok z -> Z.abs z <= 999.
Proof.
  intros E. apply py_int_bound in E. unfold slice in E.
  pose proof (length_substring s i (i + 3 - i)) as Hl.
  assert (10 ^ Z.of_nat (String.length (String.substring i (i + 3 - i) s))
          <= 10 ^ 3) by (apply Z.pow_le_mono_r; lia).
  lia.
Qed.

Lemma seconds_and_millis_millis part s ms :
  seconds_and_millis part = Ok (s, ms) -> Z.abs ms <= 999.
Proof.
  unfold seconds_and_millis.
  destruct (split1 "." part) as [ | a [ | b [ | ? ? ] ] ]; try discriminate.
  destruct (int_or_zero a); simpl; [ | discriminate ].
  destruct (py_int _) as [ms' | ] eqn:Eb; simpl; [ | discriminate ].
  intros E; inversion E; subst. exact (py_int_slice3 0 _ _ Eb).
Qed.

Lemma parse_formatted_millis text m s ms :
  parse_formatted text = Ok (m, s, ms) -> Z.abs ms <= 999.
Proof.
  unfold parse_formatted.
  set (body := if py_in ":" text then _ else _).
  assert (Hbody : forall m' s' ms', body = Ok (m', s', ms') ->
                                    Z.abs ms' <= 999).
  { subst body. intros m' s' ms'. destruct (py_in ":" text).
    - destruct (split ":" text) as [ | time_part rest ]; [ discriminate | ].
      destruct (int_or_zero time_part); simpl; [ | discriminate ].
      destruct rest as [ | sec_part rest' ];
        [ intros E; inversion E; simpl; lia | ].
      destruct (py_in "." sec_part).
      + destruct (seconds_and_millis sec_part) as [ [x y] | ] eqn:Es; simpl;
          [ | discriminate ].
        intros E; inversion E; subst.
        exact (seconds_and_millis_millis _ _ _ Es).
      + destruct (int_or_zero sec_part); simpl; [ | discriminate ].
        intros E; inversion E; simpl; lia.
    - destruct (py_in "." text); [ | discriminate ].
      destruct (seconds_and_millis text) as [ [x y] | ] eqn:Es; simpl;
        [ | discriminate ].
      intros E; inversion E; subst.
      exact (seconds_and_millis_millis _ _ _ Es). }
  destruct body as [ [[m' s'] ms'] | e ]; simpl; [ | discriminate ].
  specialize (Hbody _ _ _ eq_refl).
  destruct (s' >=? 60); [ discriminate | ].
  intros E; inversion E; subst. exact Hbody.
Qed.

Lemma parse_digits_millis text m s ms :
  parse_digits text = Ok (m, s, ms) -> Z.abs ms <= 999.
Proof.
  unfold parse_digits.
  set (digits := filter isdigit text).
  destruct (truthy digits); simpl; [ | discriminate ].
  set (body := if (String.length digits <=? 6)%nat then _ else _).
  assert (Hbody : forall m' s' ms', body = Ok (m', s', ms') ->
                                    Z.abs ms' <= 999).
  { subst body. intros m' s' ms'.
    destruct (String.length digits <=? 6)%nat.
    - destruct (index0 _); simpl; [ | discriminate ].
      destruct (py_int a); simpl; [ | discriminate ].
      destruct (py_int (slice 1 3 _)); simpl; [ | discriminate ].
      destruct (py_int (slice 3 6 _)) eqn:E3; simpl; [ | discriminate ].
      intros E; inversion E; subst. exact (py_int_slice3 3 _ _ E3).
    - destruct (py_int (drop_last 6 digits)); simpl; [ | discriminate ].
      destruct (index0 _); simpl; [ | discriminate ].
      destruct (py_int a0); simpl; [ | discriminate ].
      destruct (py_int (slice 1 3 _)); simpl; [ | discriminate ].
      destruct (py_int (slice 3 6 _)) eqn:E3; simpl; [ | discriminate ].
      intros E; inversion E; subst. exact (py_int_slice3 3 _ _ E3). }
  destruct body as [ [[m' s'] ms'] | e ]; simpl; [ | discriminate ].
  specialize (Hbody _ _ _ eq_refl).
  destruct (s' >=? 60); [ discriminate | ].
  intros E; inversion E; subst. exact Hbody.
Qed.

Lemma parse_time_input_millis text m s ms :
  parse_time_input text = Ok (m, s, ms) -> Z.abs ms <= 999.
Proof.
  unfold parse_time_input.
  destruct (py_in ":" (strip text) || py_in "." (strip text)).
  - destruct (parse_formatted (strip text)) as [ [[m' s'] ms'] | e ] eqn:Ef.
    + intros E; inversion E; subst. exact (parse_formatted_millis _ _ _ _ Ef).
    + destruct e; try discriminate; apply parse_digits_millis.
  - apply parse_digits_millis.
Qed.

End MillisFacts.

Module RangeFacts.

Import PyStr PyStrFacts TimeParse TimeParseFacts MillisFacts.

Lemma length_filter p s :
  (String.length (filter p s) <= String.length s)%nat.
Proof.
  induction s as [ | c s IH ]; simpl; [ lia | ].
  destruct (p c); simpl; lia.
Qed.

Lemma length_strip s : (String.length (strip s) <= String.length s)%nat.
Proof.
  unfold strip.
  pose proof (length_lstrip isspace s).
  pose proof (length_rstrip isspace (lstrip_with isspace s)). lia.
Qed.

Lemma length_split sep s :
  Forall (fun x => (String.length x <= String.length s)%nat) (split sep s).
Proof.
  induction s as [ | c s IH ]; simpl.
  - constructor; [ simpl; lia | constructor ].
  - destruct (Ascii.eqb c sep).
    + constructor; [ simpl; lia | ].
      eapply Stdlib.Lists.List.Forall_impl; [ | exact IH ]. simpl. intros; lia.
    + destruct (split sep s) as [ | h t ].
      * constructor; [ simpl; lia | constructor ].
      * inversion IH; subst. constructor; [ simpl; lia | ].
        eapply Stdlib.Lists.List.Forall_impl; [ | eassumption ]. simpl. intros; lia.
Qed.

Lemma length_split1 sep s :
  Forall (fun x => (String.length x <= String.length s)%nat) (split1 sep s).
Proof.
  induction s as [ | c s IH ]; simpl.
  - constructor; [ simpl; lia | constructor ].
  - destruct (Ascii.eqb c sep).
    + constructor; [ simpl; lia | ].
      constructor; [ lia | constructor ].
    + destruct (split1 sep s) as [ | h t ].
      * constructor; [ simpl; lia | constructor ].
      * inversion IH; subst. constructor; [ simpl; lia | ].
        eapply Stdlib.Lists.List.Forall_impl; [ | eassumption ]. simpl. intros; lia.
Qed.

(** An integer read from a text of at most [n] characters. *)
Local Abbreviation within n z := (Z.abs z < 10 ^ Z.of_nat n).

Lemma within_mono n k z : (n <= k)%nat -> within n z -> within k z.
Proof.
  intros Hn Hz.
  assert (10 ^ Z.of_nat n <= 10 ^ Z.of_nat k)
    by (apply Z.pow_le_mono_r; lia). lia.
Qed.

Lemma within_zero n : within n 0.
Proof. simpl. apply Z.pow_pos_nonneg; lia. Qed.

Lemma py_int_within s z n :
  (String.length s <= n)%nat -> py_int s = Ok z -> within n z.
Proof.
  intros Hn E. apply within_mono with (n := String.length s); [ exact Hn | ].
  exact (py_int_bound s z E).
Qed.

Lemma int_or_zero_within s z n :
  (String.length s <= n)%nat -> int_or_zero s = Ok z -> within n z.
Proof.
  unfold int_or_zero. intros Hn. destruct (truthy s).
  - apply py_int_within, Hn.
  - intros E; inversion E; subst. apply within_zero.
Qed.

Lemma seconds_and_millis_within part s ms n :
  (String.length part <= n)%nat ->
  seconds_and_millis part = Ok (s, ms) -> within n s.
Proof.
  intros Hn. unfold seconds_and_millis.
  pose proof (length_split1 "." part) as Hsp.
  destruct (split1 "." part) as [ | a [ | b [ | ? ? ] ] ]; try discriminate.
  inversion Hsp as [ | ? ? Ha _ ]; subst.
  destruct (int_or_zero a) as [s' | ] eqn:Ea; simpl; [ | discriminate ].
  destruct (py_int _); simpl; [ | discriminate ].
  intros E; inversion E; subst.
  eapply int_or_zero_within; [ | exact Ea ]. lia.
Qed.

Lemma parse_formatted_within text m s ms n :
  (String.length text <= n)%nat ->
  parse_formatted text = Ok (m, s, ms) -> within n m /\ within n s.
Proof.
  intros Hn. unfold parse_formatted.
  set (body := if py_in ":" text then _ else _).
  assert (Hbody : forall m' s' ms', body = Ok (m', s', ms') ->
                                    within n m' /\ within n s').
  { subst body. intros m' s' ms'. destruct (py_in ":" text).
    - pose proof (length_split ":" text) as Hsp.
      destruct (split ":" text) as [ | time_part rest ]; [ discriminate | ].
      inversion Hsp as [ | ? ? Ht Hrest ]; subst.
      destruct (int_or_zero time_part) as [x | ] eqn:Em; simpl;
        [ | discriminate ].
      apply (int_or_zero_within _ _ n) in Em; [ | lia ].
      destruct rest as [ | sec_part rest' ].
      { intros E; inversion E; subst. split; [ exact Em | apply within_zero ]. }
      inversion Hrest as [ | ? ? Hs _ ]; subst.
      destruct (py_in "." sec_part).
      + destruct (seconds_and_millis sec_part) as [ [y z] | ] eqn:Es; simpl;
          [ | discriminate ].
        intros E; inversion E; subst. split; [ exact Em | ].
        eapply seconds_and_millis_within; [ | exact Es ]. lia.
      + destruct (int_or_zero sec_part) as [y | ] eqn:Es; simpl;
          [ | discriminate ].
        intros E; inversion E; subst. split; [ exact Em | ].
        eapply int_or_zero_within; [ | exact Es ]. lia.
    - destruct (py_in "." text); [ | discriminate ].
      destruct (seconds_and_millis text) as [ [y z] | ] eqn:Es; simpl;
        [ | discriminate ].
      intros E; inversion E; subst. split; [ apply within_zero | ].
      eapply seconds_and_millis_within; [ | exact Es ]. lia. }
  destruct body as [ [[m' s'] ms'] | e ]; simpl; [ | discriminate ].
  specialize (Hbody _ _ _ eq_refl).
  destruct (s' >=? 60); [ discriminate | ].
  intros E; inversion E; subst. exact Hbody.
Qed.

Lemma parse_digits_within text m s ms n :
  (String.length text <= n)%nat ->
  parse_digits text = Ok (m, s, ms) ->
  Z.abs m < 10 ^ Z.of_nat (n + 1) /\ Z.abs s < 100.
Proof.
  intros Hn. unfold parse_digits.
  pose proof (length_filter isdigit text) as Hd.
  set (digits := filter isdigit text) in *.
  destruct (truthy digits); simpl; [ | discriminate ].
  set (body := if (String.length digits <=? 6)%nat then _ else _).
  assert (Hp : 0 < 10 ^ Z.of_nat n) by (apply Z.pow_pos_nonneg; lia).
  assert (Hn1 : 10 ^ Z.of_nat (n + 1) = 10 * 10 ^ Z.of_nat n).
  { rewrite Nat2Z.inj_add, Z.pow_add_r by lia. simpl (10 ^ Z.of_nat 1). lia. }
  assert (Hone : forall c z, py_int (String c "") = Ok z -> Z.abs z < 10).
  { intros c z E. apply py_int_bound in E. exact E. }
  assert (Htwo : forall x z, py_int (slice 1 3 x) = Ok z -> Z.abs z < 100).
  { intros x z E. apply py_int_bound in E. unfold slice in E.
    pose proof (length_substring x 1 (3 - 1)) as Hl.
    assert (10 ^ Z.of_nat (String.length (String.substring 1 (3 - 1) x))
            <= 10 ^ 2) by (apply Z.pow_le_mono_r; lia).
    lia. }
  assert (Hbody : forall m' s' ms', body = Ok (m', s', ms') ->
                    Z.abs m' < 10 ^ Z.of_nat (n + 1) /\ Z.abs s' < 100).
  { subst body. intros m' s' ms'.
    destruct (String.length digits <=? 6)%nat.
    - destruct (ljust 6 "0" digits) as [ | c r ]; simpl index0; simpl pybind;
        [ discriminate | ].
      destruct (py_int (String c "")) as [x | ] eqn:E1; simpl;
        [ | discriminate ].
      destruct (py_int (slice 1 3 _)) as [y | ] eqn:E2; simpl;
        [ | discriminate ].
      destruct (py_int (slice 3 6 _)); simpl; [ | discriminate ].
      intros E; inversion E; subst.
      apply Hone in E1. apply Htwo in E2. split; [ lia | exact E2 ].
    - destruct (py_int (drop_last 6 digits)) as [t | ] eqn:E0; simpl;
        [ | discriminate ].
      destruct (take_last 6 digits) as [ | c r ]; simpl index0; simpl pybind;
        [ discriminate | ].
      destruct (py_int (String c "")) as [x | ] eqn:E1; simpl;
        [ | discriminate ].
      destruct (py_int (slice 1 3 _)) as [y | ] eqn:E2; simpl;
        [ | discriminate ].
      destruct (py_int (slice 3 6 _)); simpl; [ | discriminate ].
      intros E; inversion E; subst.
      apply Hone in E1. apply Htwo in E2. split; [ | exact E2 ].
      assert (Ht : within (n - 1) t).
      { eapply py_int_within; [ | exact E0 ]. unfold drop_last.
        pose proof (length_substring digits 0 (String.length digits - 6)).
        lia. }
      destruct n as [ | n' ].
      + simpl in Ht. simpl. lia.
      + replace (S n' - 1)%nat with n' in Ht by lia.
        rewrite Nat2Z.inj_succ, Z.pow_succ_r in Hn1, Hp by lia.
        lia. }
  destruct body as [ [[m' s'] ms'] | e ]; simpl; [ | discriminate ].
  specialize (Hbody _ _ _ eq_refl).
  destruct (s' >=? 60); [ discriminate | ].
  intros E; inversion E; subst. exact Hbody.
Qed.

Lemma parse_time_input_within text m s ms n :
  (String.length text <= n)%nat ->
  parse_time_input text = Ok (m, s, ms) ->
  Z.abs (m * 60 + s) < 700 * 10 ^ Z.of_nat n.
Proof.
  intros Hn. unfold parse_time_input.
  pose proof (length_strip text) as Hs.
  assert (Hp : 0 < 10 ^ Z.of_nat n) by (apply Z.pow_pos_nonneg; lia).
  assert (Hn1 : 10 ^ Z.of_nat (n + 1) = 10 * 10 ^ Z.of_nat n).
  { rewrite Nat2Z.inj_add, Z.pow_add_r by lia. simpl (10 ^ Z.of_nat 1). lia. }
  assert (Hdig : parse_digits (strip text) = Ok (m, s, ms) ->
                 Z.abs (m * 60 + s) < 700 * 10 ^ Z.of_nat n).
  { intros E. apply (parse_digits_within _ _ _ _ n) in E; [ | lia ]. lia. }
  destruct (py_in ":" (strip text) || py_in "." (strip text));
    [ | exact Hdig ].
  destruct (parse_formatted (strip text)) as [ [[m' s'] ms'] | e ] eqn:Ef.
  - intros E; inversion E; subst.
    apply (parse_formatted_within _ _ _ _ n) in Ef; [ | lia ].
    lia.
  - destruct e; try discriminate; exact Hdig.
Qed.

(** How [time_to_seconds] follows the parser. *)
Lemma time_to_seconds_cases (time_str : string) :
  match TimeParse.parse_time_input time_str with
  | Ok (m, s, ms) =>
      if Z.abs (m * 60 + s) <? 2 ^ 1024 - 2 ^ 970
      then TimeParse.time_to_seconds time_str
           = Ok (TimeParse.float_add (TimeParse.float_of_Z (m * 60 + s))
                   (TimeParse.float_div (TimeParse.float_of_Z ms)
                      TimeParse.float_1000))
      else TimeParse.time_to_seconds time_str = Raise OverflowError
  | Raise e =>
      e = ValueError
      /\ TimeParse.time_to_seconds time_str = Ok TimeParse.float_0
  end.
Proof.
  pose proof (TimeParseFacts.parse_time_input_cases time_str) as Hc.
  pose proof (MillisFacts.parse_time_input_millis time_str) as Hms.
  unfold TimeParse.time_to_seconds.
  destruct (TimeParse.parse_time_input time_str) as [ [[m s] ms] | e ].
  - specialize (Hms _ _ _ eq_refl).
    unfold TimeParse.float_of_int.
    assert (Hbig : 1000 < 2 ^ 1024 - 2 ^ 970) by (vm_compute; reflexivity).
    pose proof (Zge_cases (Z.abs ms) (2 ^ 1024 - 2 ^ 970)) as H1.
    destruct (Z.abs ms >=? 2 ^ 1024 - 2 ^ 970); [ lia | ].
    cbn [pybind].
    pose proof (Zge_cases (Z.abs (m * 60 + s)) (2 ^ 1024 - 2 ^ 970)) as H2.
    pose proof (Zlt_cases (Z.abs (m * 60 + s)) (2 ^ 1024 - 2 ^ 970)) as H3.
    destruct (Z.abs (m * 60 + s) >=? 2 ^ 1024 - 2 ^ 970),
      (Z.abs (m * 60 + s) <? 2 ^ 1024 - 2 ^ 970); try lia; reflexivity.
  - subst e. split; reflexivity.
Qed.

Lemma time_to_seconds_short (time_str : string) :
  (String.length time_str <= 300)%nat ->
  exists x, TimeParse.time_to_seconds time_str = Ok x.
Proof.
  intros Hl.
  pose proof (time_to_seconds_cases time_str) as Hc.
  pose proof (parse_time_input_within time_str) as Hw.
  destruct (TimeParse.parse_time_input time_str) as [ [[m s] ms] | e ].
  - specialize (Hw _ _ _ 300%nat Hl eq_refl).
    assert (Hbig : 700 * 10 ^ Z.of_nat 300 < 2 ^ 1024 - 2 ^ 970)
      by (vm_compute; reflexivity).
    pose proof (Zlt_cases (Z.abs (m * 60 + s)) (2 ^ 1024 - 2 ^ 970)) as H3.
    destruct (Z.abs (m * 60 + s) <? 2 ^ 1024 - 2 ^ 970); [ | lia ].
    eexists. exact Hc.
  - destruct Hc as [_ Hc]. eexists. exact Hc.
Qed.

End RangeFacts.

(** The conversion of an integer at the edge of the range of [float]:
    2^1024 - 2^970 is the first integer that rounds to infinity, the one
    before it rounds to the largest double. *)
Example float_of_int_edge :
  TimeParse.float_of_Z (2 ^ 1024 - 2 ^ 970) = S754_infinity false
  /\ TimeParse.float_of_Z (2 ^ 1024 - 2 ^ 970 - 1)
     = S754_finite false (2 ^ 53 - 1) 971
  /\ TimeParse.float_of_int (2 ^ 1024 - 2 ^ 970) = Raise OverflowError
  /\ TimeParse.float_of_int (2 ^ 1024 - 2 ^ 970 - 1)
     = Ok (S754_finite false (2 ^ 53 - 1) 971)
  /\ TimeParse.float_of_int (- (2 ^ 1024 - 2 ^ 970)) = Raise OverflowError.
Proof. repeat split; vm_compute; reflexivity. Qed.

(** The sum is computed in doubles: "1.118" gives 1 + 0.118, which is
    the double just below the one nearest to 1.118. *)
Example time_to_seconds_rounds :
  TimeParse.time_to_seconds "1.118"
  = Ok (S754_finite false 5035024383400214 (-52))
  /\ TimeParse.float_div (TimeParse.float_of_Z 1118) TimeParse.float_1000
     = S754_finite false 5035024383400215 (-52).
Proof. split; vm_compute; reflexivity. Qed.

(** C10 (as amended).  [time_to_seconds] raises nothing but
    [OverflowError], and only when the parser returns (m, s, ms) with
    m * 60 + s beyond the range of [float], that is of absolute value
    2^1024 - 2^970 or more: when the parser returns (m, s, ms) within
    that range the call returns the double
    [float(m * 60 + s) + float(ms) / 1000.0], when the parser raises
    (which is always [ValueError]) it returns 0.0; and on an input of at
    most 300 characters it always returns. *)
Theorem time_to_seconds_in_range (time_str : string) :
  match TimeParse.parse_time_input time_str with
  | Ok (m, s, ms) =>
      if Z.abs (m * 60 + s) <? 2 ^ 1024 - 2 ^ 970
      then TimeParse.time_to_seconds time_str
           = Ok (TimeParse.float_add (TimeParse.float_of_Z (m * 60 + s))
                   (TimeParse.float_div (TimeParse.float_of_Z ms)
                      TimeParse.float_1000))
      else TimeParse.time_to_seconds time_str = Raise OverflowError
  | Raise e =>
      e = ValueError
      /\ TimeParse.time_to_seconds time_str = Ok TimeParse.float_0
  end
  /\ ((String.length time_str <= 300)%nat ->
      exists x, TimeParse.time_to_seconds time_str = Ok x).
Proof.
  split.
  - apply RangeFacts.time_to_seconds_cases.
  - apply RangeFacts.time_to_seconds_short.
Qed.

Lemma time_to_seconds_in_range_witness :
  (String.length "7:04.123" <= 300)%nat
  /\ TimeParse.parse_time_input "7:04.123" = Ok (7, 4, 123)
  /\ TimeParse.time_to_seconds "7:04.123"
     = Ok (S754_finite false 7461250721715847 (-44))
  /\ exists x, TimeParse.time_to_seconds "7:04.123" = Ok x.
Proof.
  split; [ simpl; lia | ]. split; [ reflexivity | ].
  split.
  - exact (proj1 (time_to_seconds_in_range "7:04.123")).
  - apply (proj2 (time_to_seconds_in_range "7:04.123")). simpl. lia.
Defined.

(** C10 as stated fails on a string of 320 ones: the parser returns a
    number of minutes beyond the range of [float]; the sum
    [minutes * 60 + seconds + milliseconds / 1000.0] then raises
    [OverflowError], which [except ValueError] does not catch. *)
Lemma time_to_seconds_overflow :
  (exists m s ms,
      TimeParse.parse_time_input (PyStr.replicate_char 320 "1")
      = Ok (m, s, ms))
  /\ TimeParse.time_to_seconds (PyStr.replicate_char 320 "1")
     = Raise OverflowError.
Proof.
  split.
  - do 3 eexists. vm_compute. reflexivity.
  - vm_compute. reflexivity.
Qed.


(** ** Cascading deletes *)

Module SqlFacts.

Import Sql.

Lemma filter_nothing {A : Type} (q : A -> bool) (l : list A) :
  (forall x, In x l -> q x = false) -> List.filter q l = [].
Proof.
  induction l as [ | a l IH ]; intros H; simpl; [ reflexivity | ].
  rewrite (H a (or_introl eq_refl)). apply IH.
  intros x Hx. apply H. right. exact Hx.
Qed.

Lemma keep_everything {A : Type} (q : A -> bool) (l : list A) :
  (forall x, In x l -> q x = false) -> keep q l = l.
Proof.
  unfold keep. induction l as [ | a l IH ]; intros H; simpl; [ reflexivity | ].
  rewrite (H a (or_introl eq_refl)). simpl. f_equal. apply IH.
  intros x Hx. apply H. right. exact Hx.
Qed.

Lemma in_keep {A : Type} (p : A -> bool) (l : list A) (x : A) :
  In x (keep p l) <-> In x l /\ p x = false.
Proof.
  unfold keep. rewrite List.filter_In, negb_true_iff. reflexivity.
Qed.

Lemma existsb_filter {A : Type} (f p : A -> bool) (l : list A) :
  existsb f (List.filter p l) = existsb (fun x => f x && p x) l.
Proof.
  induction l as [ | a l IH ]; simpl; [ reflexivity | ].
  destruct (p a); simpl; rewrite IH.
  - rewrite andb_true_r. reflexivity.
  - rewrite andb_false_r. reflexivity.
Qed.

Lemma existsb_none {A : Type} (f : A -> bool) (l : list A) :
  (forall x, In x l -> f x = false) -> existsb f l = false.
Proof.
  induction l as [ | a l IH ]; intros H; simpl; [ reflexivity | ].
  rewrite (H a (or_introl eq_refl)). apply IH.
  intros x Hx. apply H. right. exact Hx.
Qed.

Lemma count_nonneg {A : Type} (p : A -> bool) (l : list A) : 0 <= count p l.
Proof. unfold count. lia. Qed.

Lemma with_results_same db : with_results db (results db) = db.
Proof. destruct db; reflexivity. Qed.

Lemma with_entries_same db : with_entries db (entries db) = db.
Proof. destruct db; reflexivity. Qed.

Lemma with_events_same db : with_events db (events db) = db.
Proof. destruct db; reflexivity. Qed.

(** A DELETE whose cascade finds nothing to remove. *)
Lemma delete_entries_plain p db :
  (forall r, In r (results db) ->
             existsb (fun e => (en_entry_id e =? res_entry_id r) && p e)
               (entries db) = false) ->
  fst (delete_entries p db) = with_entries db (keep p (entries db)).
Proof.
  intros H. unfold delete_entries, delete_results. simpl.
  rewrite (keep_everything _ (results db)).
  - destruct db; reflexivity.
  - intros r Hr. rewrite existsb_filter. apply H. exact Hr.
Qed.

Lemma delete_events_plain p db :
  (forall e, In e (entries db) ->
             existsb (fun ev => (ev_event_id ev =? en_event_id e) && p ev)
               (events db) = false) ->
  fst (delete_events p db) = with_events db (keep p (events db)).
Proof.
  intros H. unfold delete_events.
  cbv zeta. rewrite delete_entries_plain.
  - simpl. rewrite (keep_everything _ (entries db));
      [ destruct db; reflexivity | ].
    intros e He. rewrite existsb_filter. apply H. exact He.
  - intros r Hr. simpl. apply existsb_none.
    intros e He. rewrite existsb_filter, (H e He). apply andb_false_r.
Qed.

Lemma delete_regattas_plain p db :
  (forall ev, In ev (events db) ->
              existsb (fun rg => (r_regatta_id rg =? ev_regatta_id ev) && p rg)
                (regattas db) = false) ->
  fst (delete_regattas p db) = with_regattas db (keep p (regattas db)).
Proof.
  intros H. unfold delete_regattas.
  cbv zeta. rewrite delete_events_plain.
  - simpl. rewrite (keep_everything _ (events db));
      [ destruct db; reflexivity | ].
    intros ev Hev. rewrite existsb_filter. apply H. exact Hev.
  - intros e He. simpl. apply existsb_none.
    intros ev Hev. rewrite existsb_filter, (H ev Hev). apply andb_false_r.
Qed.

(** The four statements of [delete_regatta], one after the other. *)
Lemma regatta_statements db regatta_id :
  let db1 := fst (delete_results (result_in_regatta db regatta_id) db) in
  let db2 := fst (delete_entries (entry_in_regatta db1 regatta_id) db1) in
  let db3 := fst (delete_events
                    (fun ev => ev_regatta_id ev =? regatta_id) db2) in
  let db4 := fst (delete_regattas
                    (fun rg => r_regatta_id rg =? regatta_id) db3) in
  db4 = mkDatabase (schools db) (teams db) (conference_affiliations db)
          (school_participations db)
          (keep (fun rg => r_regatta_id rg =? regatta_id) (regattas db))
          (keep (fun ev => ev_regatta_id ev =? regatta_id) (events db))
          (keep (entry_in_regatta db regatta_id) (entries db))
          (keep (result_in_regatta db regatta_id) (results db))
          (seq_schools db) (seq_school_participations db) (seq_results db)
  /\ entries db1 = entries db /\ events db1 = events db
  /\ events db2 = events db /\ regattas db3 = regattas db.
Proof.
  intros db1 db2 db3 db4.
  assert (E1 : db1 = with_results db
                       (keep (result_in_regatta db regatta_id) (results db)))
    by reflexivity.
  assert (Hin : entry_in_regatta db1 regatta_id = entry_in_regatta db regatta_id)
    by reflexivity.
  assert (E2 : db2 = with_entries db1
                       (keep (entry_in_regatta db regatta_id) (entries db1))).
  { unfold db2. rewrite Hin. apply delete_entries_plain.
    intros r Hr. rewrite E1 in Hr. simpl in Hr.
    apply in_keep in Hr. destruct Hr as [_ Hr]. exact Hr. }
  assert (E3 : db3 = with_events db2
                       (keep (fun ev => ev_regatta_id ev =? regatta_id)
                          (events db2))).
  { unfold db3. apply delete_events_plain.
    intros e He. rewrite E2 in He. simpl in He.
    apply in_keep in He. destruct He as [_ He].
    rewrite E2. simpl. exact He. }
  assert (E4 : db4 = with_regattas db3
                       (keep (fun rg => r_regatta_id rg =? regatta_id)
                          (regattas db3))).
  { unfold db4. apply delete_regattas_plain.
    intros ev Hev. rewrite E3 in Hev. simpl in Hev.
    apply in_keep in Hev. destruct Hev as [_ Hev].
    apply existsb_none. intros rg _.
    destruct (r_regatta_id rg =? ev_regatta_id ev) eqn:Eq; [ | reflexivity ].
    apply Z.eqb_eq in Eq. rewrite Eq. exact Hev. }
  rewrite E4, E3, E2, E1. destruct db; repeat split.
Qed.

(** The three statements of [delete_event]. *)
Lemma event_statements db event_id :
  let db1 := fst (delete_results (result_in_event db event_id) db) in
  let db2 := fst (delete_entries (fun e => en_event_id e =? event_id) db1) in
  let db3 := fst (delete_events (fun ev => ev_event_id ev =? event_id) db2) in
  db3 = mkDatabase (schools db) (teams db) (conference_affiliations db)
          (school_participations db) (regattas db)
          (keep (fun ev => ev_event_id ev =? event_id) (events db))
          (keep (fun e => en_event_id e =? event_id) (entries db))
          (keep (result_in_event db event_id) (results db))
          (seq_schools db) (seq_school_participations db) (seq_results db)
  /\ entries db1 = entries db /\ events db2 = events db.
Proof.
  intros db1 db2 db3.
  assert (E1 : db1 = with_results db
                       (keep (result_in_event db event_id) (results db)))
    by reflexivity.
  assert (E2 : db2 = with_entries db1
                       (keep (fun e => en_event_id e =? event_id)
                          (entries db1))).
  { unfold db2. apply delete_entries_plain.
    intros r Hr. rewrite E1 in Hr. simpl in Hr.
    apply in_keep in Hr. destruct Hr as [_ Hr]. exact Hr. }
  assert (E3 : db3 = with_events db2
                       (keep (fun ev => ev_event_id ev =? event_id)
                          (events db2))).
  { unfold db3. apply delete_events_plain.
    intros e He. rewrite E2 in He. simpl in He.
    apply in_keep in He. destruct He as [_ He].
    apply existsb_none. intros ev _.
    destruct (ev_event_id ev =? en_event_id e) eqn:Eq; [ | reflexivity ].
    apply Z.eqb_eq in Eq. rewrite Eq. exact He. }
  rewrite E3, E2, E1. destruct db; repeat split.
Qed.


Lemma regatta_statements_run db regatta_id :
  exists db1 db2 db3,
    delete_results (result_in_regatta db regatta_id) db
    = (db1, count (result_in_regatta db regatta_id) (results db))
    /\ delete_entries (entry_in_regatta db1 regatta_id) db1
       = (db2, count (entry_in_regatta db regatta_id) (entries db))
    /\ delete_events (fun ev => ev_regatta_id ev =? regatta_id) db2
       = (db3, count (fun ev => ev_regatta_id ev =? regatta_id) (events db))
    /\ delete_regattas (fun rg => r_regatta_id rg =? regatta_id) db3
       = (mkDatabase (schools db) (teams db) (conference_affiliations db)
            (school_participations db)
            (keep (fun rg => r_regatta_id rg =? regatta_id) (regattas db))
            (keep (fun ev => ev_regatta_id ev =? regatta_id) (events db))
            (keep (entry_in_regatta db regatta_id) (entries db))
            (keep (result_in_regatta db regatta_id) (results db))
            (seq_schools db) (seq_school_participations db) (seq_results db),
          count (fun rg => r_regatta_id rg =? regatta_id) (regattas db)).
Proof.
  destruct (regatta_statements db regatta_id)
    as (E4 & He1 & Hv1 & Hv2 & Hr3).
  cbv zeta in *.
  set (db1 := fst (delete_results (result_in_regatta db regatta_id) db)) in *.
  set (db2 := fst (delete_entries (entry_in_regatta db1 regatta_id) db1)) in *.
  set (db3 := fst (delete_events
                     (fun ev => ev_regatta_id ev =? regatta_id) db2)) in *.
  exists db1, db2, db3.
  split; [ reflexivity | ]. split; [ reflexivity | ].
  split; [ reflexivity | ].
  rewrite (surjective_pairing (delete_regattas _ db3)). rewrite E4.
  reflexivity.
Qed.

Lemma event_statements_run db event_id :
  exists db1 db2,
    delete_results (result_in_event db event_id) db
    = (db1, count (result_in_event db event_id) (results db))
    /\ delete_entries (fun e => en_event_id e =? event_id) db1
       = (db2, count (fun e => en_event_id e =? event_id) (entries db))
    /\ delete_events (fun ev => ev_event_id ev =? event_id) db2
       = (mkDatabase (schools db) (teams db) (conference_affiliations db)
            (school_participations db) (regattas db)
            (keep (fun ev => ev_event_id ev =? event_id) (events db))
            (keep (fun e => en_event_id e =? event_id) (entries db))
            (keep (result_in_event db event_id) (results db))
            (seq_schools db) (seq_school_participations db) (seq_results db),
          count (fun ev => ev_event_id ev =? event_id) (events db)).
Proof.
  destruct (event_statements db event_id) as (E3 & He1 & Hv2).
  cbv zeta in *.
  set (db1 := fst (delete_results (result_in_event db event_id) db)) in *.
  set (db2 := fst (delete_entries
                     (fun e => en_event_id e =? event_id) db1)) in *.
  exists db1, db2.
  split; [ reflexivity | ]. split; [ reflexivity | ].
  rewrite (surjective_pairing (delete_events _ db2)). rewrite E3.
  reflexivity.
Qed.

End SqlFacts.

Module ManagerFacts.

Import Sql SqlFacts DatabaseManager.

Lemma delete_regatta_no_fault w regatta_id :
  faults w = [] ->
  let db := working w in
  let db' :=
    mkDatabase (schools db) (teams db) (conference_affiliations db)
      (school_participations db)
      (keep (fun rg => r_regatta_id rg =? regatta_id) (regattas db))
      (keep (fun ev => ev_regatta_id ev =? regatta_id) (events db))
      (keep (entry_in_regatta db regatta_id) (entries db))
      (keep (result_in_regatta db regatta_id) (results db))
      (seq_schools db) (seq_school_participations db) (seq_results db) in
  delete_regatta regatta_id w
  = (mkWorld db' db' false (school_cache w) (crr_name_to_id_cache w) [],
     Ok (count (result_in_regatta db regatta_id) (results db),
         count (entry_in_regatta db regatta_id) (entries db),
         count (fun ev => ev_regatta_id ev =? regatta_id) (events db),
         count (fun rg => r_regatta_id rg =? regatta_id) (regattas db))).
Proof.
  intros Hf db db'. destruct w as [cm wk tx sc cc fl].
  simpl in Hf, db. subst fl.
  destruct (regatta_statements_run db regatta_id)
    as (db1 & db2 & db3 & E1 & E2 & E3 & E4).
  unfold delete_regatta, try_except, mbind, execute_dml, engine, commit, ret,
    set_working, mbind.
  cbn -[delete_results delete_entries delete_events delete_regattas
        result_in_regatta entry_in_regatta count keep].
  fold db. rewrite E1.
  cbn -[delete_results delete_entries delete_events delete_regattas
        result_in_regatta entry_in_regatta count keep].
  rewrite E2.
  cbn -[delete_results delete_entries delete_events delete_regattas
        result_in_regatta entry_in_regatta count keep].
  rewrite E3.
  cbn -[delete_results delete_entries delete_events delete_regattas
        result_in_regatta entry_in_regatta count keep].
  rewrite E4. reflexivity.
Qed.

Lemma delete_event_no_fault w event_id :
  faults w = [] ->
  let db := working w in
  let db' :=
    mkDatabase (schools db) (teams db) (conference_affiliations db)
      (school_participations db) (regattas db)
      (keep (fun ev => ev_event_id ev =? event_id) (events db))
      (keep (fun e => en_event_id e =? event_id) (entries db))
      (keep (result_in_event db event_id) (results db))
      (seq_schools db) (seq_school_participations db) (seq_results db) in
  delete_event event_id w
  = (mkWorld db' db' false (school_cache w) (crr_name_to_id_cache w) [],
     Ok (count (result_in_event db event_id) (results db),
         count (fun e => en_event_id e =? event_id) (entries db),
         count (fun ev => ev_event_id ev =? event_id) (events db))).
Proof.
  intros Hf db db'. destruct w as [cm wk tx sc cc fl].
  simpl in Hf, db. subst fl.
  destruct (event_statements_run db event_id) as (db1 & db2 & E1 & E2 & E3).
  unfold delete_event, try_except, mbind, execute_dml, engine, commit, ret,
    set_working, mbind.
  cbn -[delete_results delete_entries delete_events result_in_event count keep].
  fold db. rewrite E1.
  cbn -[delete_results delete_entries delete_events result_in_event count keep].
  rewrite E2.
  cbn -[delete_results delete_entries delete_events result_in_event count keep].
  rewrite E3. reflexivity.
Qed.

(** *** Failing statements *)

Ltac run_to_raise H :=
  repeat first
    [ progress cbn -[delete_results delete_entries delete_events
                     delete_regattas result_in_regatta entry_in_regatta
                     result_in_event count keep] in H
    | match type of H with
      | context [ delete_results ?p ?d ] => destruct (delete_results p d)
      | context [ delete_entries ?p ?d ] => destruct (delete_entries p d)
      | context [ delete_events ?p ?d ] => destruct (delete_events p d)
      | context [ delete_regattas ?p ?d ] => destruct (delete_regattas p d)
      | context [ match ?fl with nil => _ | cons _ _ => _ end ] =>
          is_var fl; destruct fl as [ | [] ? ]
      | context [ if ?b then _ else _ ] => is_var b; destruct b eqn:?
      end ].

Lemma delete_regatta_raises w regatta_id w' e :
  clean w ->
  delete_regatta regatta_id w = (w', Raise e) ->
  e = OperationalError
  /\ committed w' = committed w /\ working w' = committed w
  /\ school_cache w' = school_cache w
  /\ crr_name_to_id_cache w' = crr_name_to_id_cache w
  /\ clean w'.
Proof.
  intros Hc H. destruct w as [cm wk tx sc cc fl].
  unfold clean in *. simpl in Hc.
  unfold delete_regatta, try_except, mbind, execute_dml, commit,
    rollback, raise, ret, set_working, mbind, engine in H.
  run_to_raise H;
    inversion H; subst; simpl; repeat split; auto; try discriminate.
Qed.

Lemma delete_event_raises w event_id w' e :
  clean w ->
  delete_event event_id w = (w', Raise e) ->
  e = OperationalError
  /\ committed w' = committed w /\ working w' = committed w
  /\ school_cache w' = school_cache w
  /\ crr_name_to_id_cache w' = crr_name_to_id_cache w
  /\ clean w'.
Proof.
  intros Hc H. destruct w as [cm wk tx sc cc fl].
  unfold clean in *. simpl in Hc.
  unfold delete_event, try_except, mbind, execute_dml, commit,
    rollback, raise, ret, set_working, mbind, engine in H.
  run_to_raise H;
    inversion H; subst; simpl; repeat split; auto; try discriminate.
Qed.

Ltac run_goal :=
  repeat first
    [ progress cbn -[delete_results delete_entries delete_events
                     delete_regattas result_in_regatta entry_in_regatta
                     result_in_event count keep]
    | match goal with
      | |- context [ delete_results ?p ?d ] => destruct (delete_results p d)
      | |- context [ delete_entries ?p ?d ] => destruct (delete_entries p d)
      | |- context [ delete_events ?p ?d ] => destruct (delete_events p d)
      | |- context [ delete_regattas ?p ?d ] => destruct (delete_regattas p d)
      | |- context [ match ?fl with nil => _ | cons _ _ => _ end ] =>
          is_var fl; destruct fl as [ | [] ? ]
      | |- context [ if ?b then _ else _ ] => is_var b; destruct b eqn:?
      end ].

Lemma delete_regatta_fault w regatta_id k :
  (k < 5)%nat -> nth k (faults w) false = true ->
  snd (delete_regatta regatta_id w) = Raise OperationalError.
Proof.
  intros Hk Hn. destruct w as [cm wk tx sc cc fl]. simpl in Hn.
  unfold delete_regatta, try_except, mbind, execute_dml, commit,
    rollback, raise, ret, set_working, mbind, engine.
  destruct fl as [ | b0 [ | b1 [ | b2 [ | b3 [ | b4 fl ] ] ] ] ];
    destruct k as [ | [ | [ | [ | [ | k ] ] ] ] ];
    simpl in Hn; try discriminate Hn; try lia; subst;
    repeat match goal with b : bool |- _ => destruct b end;
    run_goal; reflexivity.
Qed.

Lemma delete_event_fault w event_id k :
  (k < 4)%nat -> nth k (faults w) false = true ->
  snd (delete_event event_id w) = Raise OperationalError.
Proof.
  intros Hk Hn. destruct w as [cm wk tx sc cc fl]. simpl in Hn.
  unfold delete_event, try_except, mbind, execute_dml, commit,
    rollback, raise, ret, set_working, mbind, engine.
  destruct fl as [ | b0 [ | b1 [ | b2 [ | b3 fl ] ] ] ];
    destruct k as [ | [ | [ | [ | k ] ] ] ];
    simpl in Hn; try discriminate Hn; try lia; subst;
    repeat match goal with b : bool |- _ => destruct b end;
    run_goal; reflexivity.
Qed.

(** *** Results *)

Lemma next_id_above (ids : list Z) (seq : Z) :
  forall i, In i ids -> i < next_id ids seq.
Proof.
  unfold next_id. induction ids as [ | a ids IH ]; intros i Hi;
    [ destruct Hi | ].
  simpl. destruct Hi as [-> | Hi]; [ lia | ].
  specialize (IH i Hi). lia.
Qed.

Lemma next_id_positive (ids : list Z) (seq : Z) : 1 <= next_id ids seq.
Proof.
  unfold next_id.
  assert (0 <= fold_right Z.max 0 ids)
    by (induction ids; simpl; lia).
  lia.
Qed.


(** *** School participations *)

Lemma display_name_current y :
  0 <= y ->
  let text := display_name (mkSeason y None) in
  PyStr.py_in " - current" text = true
  /\ PyStr.split_head " - current" text = PyStr.str_of_Z y.
Proof.
  intros Hy text. unfold text, display_name. simpl. split.
  - apply PyStrFacts.py_in_suffix.
  - apply PyStrFacts.split_head_suffix, PyStrFacts.str_of_Z_no_space.
Qed.

Lemma display_name_finite y e :
  0 <= y ->
  let text := display_name (mkSeason y (Some e)) in
  PyStr.py_in " - current" text = false
  /\ PyStr.split_head "-" text = PyStr.str_of_Z y.
Proof.
  intros Hy text. unfold text, display_name. simpl. split.
  - apply PyStrFacts.py_in_first_absent.
    change ("-" +:+ PyStr.str_of_Z e) with (String "-" (PyStr.str_of_Z e)).
    rewrite PyStrFacts.allb_app. cbn [PyStr.allb].
    rewrite !PyStrFacts.str_of_Z_no_space. reflexivity.
  - change ("-" +:+ PyStr.str_of_Z e) with (String "-" (PyStr.str_of_Z e)).
    apply PyStrFacts.split_head_char.
    rewrite (PyStrFacts.str_of_Z_nonneg y Hy).
    apply PyStrFacts.decimal_no_char;
      [ reflexivity | apply PyStrFacts.str_of_N_decimal ].
Qed.

Lemma update_school_participation_inserts w school_id team_type
  participating season_display season_year end_date :
  faults w = [] ->
  (if PyStr.py_in " - current" season_display
   then PyStr.split_head " - current" season_display
   else PyStr.split_head "-" season_display) = season_year ->
  (if PyStr.py_in " - current" season_display then Ok None
   else y <~ PyStr.py_int season_year ;;
        Ok (Some (PyStr.str_of_Z (y + 1) +:+ "-08-31"))) = Ok end_date ->
  select_participation school_id season_year (working w) = None ->
  existsb (fun s => s_school_id s =? school_id) (schools (working w)) = true ->
  let db := working w in
  let id := next_id (List.map p_participation_id (school_participations db))
              (seq_school_participations db) in
  let row := mkParticipationRow id school_id
               (SqlText (season_year +:+ "-09-01"))
               (option_map SqlText end_date)
               (String.eqb team_type "openweight_women" && participating)
               (String.eqb team_type "heavyweight_men" && participating)
               (String.eqb team_type "lightweight_men" && participating)
               (String.eqb team_type "lightweight_women" && participating) in
  let db' := with_school_participations db
               (school_participations db ++ [row]) id in
  update_school_participation_by_id school_id team_type participating
    season_display w
  = (mkWorld db' db' false (school_cache w) (crr_name_to_id_cache w) [],
     Ok true).
Proof.
  intros Hf Hy He Hsel Hsch db id row db'.
  destruct w as [cm wk tx sc cc fl]. simpl in Hf, db, Hsel, Hsch. subst fl.
  unfold update_school_participation_by_id.
  rewrite Hy.
  unfold mbind at 1.
  assert (Hend : (if PyStr.py_in " - current" season_display
                  then ret None
                  else y <- lift (PyStr.py_int season_year) ;;
                       ret (Some (PyStr.str_of_Z (y + 1) +:+ "-08-31")))
                   (mkWorld cm wk tx sc cc [])
                 = (mkWorld cm wk tx sc cc [], Ok end_date)).
  { destruct (PyStr.py_in " - current" season_display).
    - inversion He; subst. reflexivity.
    - unfold mbind, lift, ret.
      destruct (PyStr.py_int season_year) as [y | e]; simpl in He |- *;
        [ inversion He; subst; reflexivity | discriminate ]. }
  rewrite Hend.
  unfold try_except, mbind, execute_select, execute_dml, commit, ret, gets,
    set_working, mbind, engine, insert_participation.
  cbn -[next_id existsb select_participation with_school_participations
        String.eqb].
  rewrite Hsel.
  cbn -[next_id existsb select_participation with_school_participations
        String.eqb].
  rewrite Hsch. reflexivity.
Qed.

End ManagerFacts.

Module CascadeFacts.

Import Sql SqlFacts.

Lemma entry_in_regatta_spec db regatta_id e :
  entry_in_regatta db regatta_id e = true <-> entry_of_regatta db regatta_id e.
Proof.
  unfold entry_in_regatta, entry_of_regatta. rewrite existsb_exists.
  split; intros (ev & Hin & H); exists ev; (split; [ exact Hin | ]).
  - apply andb_prop in H. destruct H as [H1 H2]. lia.
  - apply andb_true_intro. lia.
Qed.

Lemma result_in_regatta_spec db regatta_id r :
  result_in_regatta db regatta_id r = true
  <-> result_of_regatta db regatta_id r.
Proof.
  unfold result_in_regatta, result_of_regatta. rewrite existsb_exists.
  split; intros (e & Hin & H); exists e; (split; [ exact Hin | ]).
  - apply andb_prop in H. destruct H as [H1 H2].
    apply entry_in_regatta_spec in H2. split; [ lia | exact H2 ].
  - destruct H as [H1 H2]. apply entry_in_regatta_spec in H2.
    apply andb_true_intro. split; [ lia | exact H2 ].
Qed.

Lemma result_in_event_spec db event_id r :
  result_in_event db event_id r = true <-> result_of_event db event_id r.
Proof.
  unfold result_in_event, result_of_event. rewrite existsb_exists.
  split; intros (e & Hin & H); exists e; (split; [ exact Hin | ]).
  - apply andb_prop in H. lia.
  - apply andb_true_intro. lia.
Qed.

(** What a DELETE leaves of a table: the rows that do not match, in
    their order, and the number of rows it removed. *)
Lemma keep_spec {A : Type} (p : A -> bool) (gone : A -> Prop)
  (l : list A) :
  (forall x, p x = true <-> gone x) ->
  (forall x, In x (keep p l) <-> In x l /\ ~ gone x)
  /\ sublist (keep p l) l
  /\ count p l = rows_lost l (keep p l).
Proof.
  intros Hp. split; [ | split ].
  - intros x. rewrite in_keep, <- Hp. destruct (p x); intuition congruence.
  - unfold keep. induction l as [ | a l IH ]; simpl; [ constructor | ].
    destruct (p a); simpl; [ apply sublist_cons | apply sublist_skip ];
      exact IH.
  - unfold count, keep, rows_lost.
    induction l as [ | a l IH ]; simpl; [ reflexivity | ].
    destruct (p a); simpl; lia.
Qed.

End CascadeFacts.

(** C6.  Without an engine failure, [delete_regatta] removes exactly the
    results whose entry is in an event of the regatta, the entries of
    those events, the events of the regatta and the regatta row: a row is
    in a table afterwards if and only if it was there before and is not
    one of those, the rows left keep their order, the four numbers
    returned are the numbers of rows each table lost, and the change is
    committed; the tables of schools, teams, conference affiliations and
    school participations stay as they were.  [delete_event] does the
    same for the results, the entries and the row of one event, and
    leaves the regattas as they were too. *)
Theorem delete_cascade_exact (w : world) :
  faults w = [] ->
  let db := working w in
  (forall regatta_id : Z,
      exists w' n_results n_entries n_events n_regattas,
        DatabaseManager.delete_regatta regatta_id w
        = (w', Ok (n_results, n_entries, n_events, n_regattas))
        /\ (forall r, In r (results (working w'))
                      <-> In r (results db)
                          /\ ~ result_of_regatta db regatta_id r)
        /\ (forall e, In e (entries (working w'))
                      <-> In e (entries db)
                          /\ ~ entry_of_regatta db regatta_id e)
        /\ (forall ev, In ev (events (working w'))
                       <-> In ev (events db)
                           /\ ev_regatta_id ev <> regatta_id)
        /\ (forall rg, In rg (regattas (working w'))
                       <-> In rg (regattas db)
                           /\ r_regatta_id rg <> regatta_id)
        /\ sublist (results (working w')) (results db)
        /\ sublist (entries (working w')) (entries db)
        /\ sublist (events (working w')) (events db)
        /\ sublist (regattas (working w')) (regattas db)
        /\ n_results = rows_lost (results db) (results (working w'))
        /\ n_entries = rows_lost (entries db) (entries (working w'))
        /\ n_events = rows_lost (events db) (events (working w'))
        /\ n_regattas = rows_lost (regattas db) (regattas (working w'))
        /\ schools (working w') = schools db
        /\ teams (working w') = teams db
        /\ conference_affiliations (working w') = conference_affiliations db
        /\ school_participations (working w') = school_participations db
        /\ committed w' = working w')
  /\ (forall event_id : Z,
        exists w' n_results n_entries n_events,
          DatabaseManager.delete_event event_id w
          = (w', Ok (n_results, n_entries, n_events))
          /\ (forall r, In r (results (working w'))
                        <-> In r (results db)
                            /\ ~ result_of_event db event_id r)
          /\ (forall e, In e (entries (working w'))
                        <-> In e (entries db) /\ en_event_id e <> event_id)
          /\ (forall ev, In ev (events (working w'))
                         <-> In ev (events db) /\ ev_event_id ev <> event_id)
          /\ sublist (results (working w')) (results db)
          /\ sublist (entries (working w')) (entries db)
          /\ sublist (events (working w')) (events db)
          /\ n_results = rows_lost (results db) (results (working w'))
          /\ n_entries = rows_lost (entries db) (entries (working w'))
          /\ n_events = rows_lost (events db) (events (working w'))
          /\ regattas (working w') = regattas db
          /\ schools (working w') = schools db
          /\ teams (working w') = teams db
          /\ conference_affiliations (working w')
             = conference_affiliations db
          /\ school_participations (working w') = school_participations db
          /\ committed w' = working w').
Proof.
  intros Hf db. split.
  - intros regatta_id.
    pose proof (ManagerFacts.delete_regatta_no_fault w regatta_id Hf) as E.
    cbv zeta in E. fold db in E.
    destruct (CascadeFacts.keep_spec (Sql.result_in_regatta db regatta_id)
                (result_of_regatta db regatta_id) (results db)
                (CascadeFacts.result_in_regatta_spec db regatta_id))
      as (R1 & R2 & R3).
    destruct (CascadeFacts.keep_spec (Sql.entry_in_regatta db regatta_id)
                (entry_of_regatta db regatta_id) (entries db)
                (CascadeFacts.entry_in_regatta_spec db regatta_id))
      as (N1 & N2 & N3).
    destruct (CascadeFacts.keep_spec
                (fun ev => ev_regatta_id ev =? regatta_id)
                (fun ev => ev_regatta_id ev = regatta_id) (events db)
                (fun ev => Z.eqb_eq _ _))
      as (V1 & V2 & V3).
    destruct (CascadeFacts.keep_spec
                (fun rg => r_regatta_id rg =? regatta_id)
                (fun rg => r_regatta_id rg = regatta_id) (regattas db)
                (fun rg => Z.eqb_eq _ _))
      as (G1 & G2 & G3).
    do 5 eexists. split; [ exact E | ].
    cbn [working committed results entries events regattas schools teams
         conference_affiliations school_participations].
    repeat match goal with |- _ /\ _ => split end;
      first [ exact R1 | exact N1 | exact V1 | exact G1 | assumption
            | reflexivity ].
  - intros event_id.
    pose proof (ManagerFacts.delete_event_no_fault w event_id Hf) as E.
    cbv zeta in E. fold db in E.
    destruct (CascadeFacts.keep_spec (Sql.result_in_event db event_id)
                (result_of_event db event_id) (results db)
                (CascadeFacts.result_in_event_spec db event_id))
      as (R1 & R2 & R3).
    destruct (CascadeFacts.keep_spec
                (fun e => en_event_id e =? event_id)
                (fun e => en_event_id e = event_id) (entries db)
                (fun e => Z.eqb_eq _ _))
      as (N1 & N2 & N3).
    destruct (CascadeFacts.keep_spec
                (fun ev => ev_event_id ev =? event_id)
                (fun ev => ev_event_id ev = event_id) (events db)
                (fun ev => Z.eqb_eq _ _))
      as (V1 & V2 & V3).
    do 4 eexists. split; [ exact E | ].
    cbn [working committed results entries events regattas schools teams
         conference_affiliations school_participations].
    repeat match goal with |- _ /\ _ => split end;
      first [ exact R1 | exact N1 | exact V1 | assumption | reflexivity ].
Qed.

Lemma delete_cascade_exact_witness :
  faults example_world = []
  /\ (exists w',
        DatabaseManager.delete_regatta 2 example_world
        = (w', Ok (1, 1, 1, 1))
        /\ ~ In (mkRegattaRow 2 "Eastern Sprints" None None None)
               (regattas (working w'))
        /\ In (mkRegattaRow 1 "Head of the Charles" (Some "Boston")
                 (Some "2024-10-19") (Some "2024-10-20"))
              (regattas (working w'))
        /\ ~ In (mkEventRow 2 2 "8+" "1V" "W" "OW" "Final" (Some "2k") None)
               (events (working w'))
        /\ ~ In (mkEntryRow 2 2 2 (Some "1V") (Some "Ivy") None (Some ""))
               (entries (working w'))
        /\ In (mkEntryRow 1 1 1 (Some "1V") (Some "Big East") None (Some ""))
              (entries (working w'))
        /\ ~ In (mkResultRow 1 2 (Some 3) (Some 1) None None)
               (results (working w')))
  /\ (exists w',
        DatabaseManager.delete_event 1 example_world = (w', Ok (0, 1, 1))
        /\ ~ In (mkEntryRow 1 1 1 (Some "1V") (Some "Big East") None
                   (Some ""))
               (entries (working w'))
        /\ In (mkResultRow 1 2 (Some 3) (Some 1) None None)
              (results (working w'))
        /\ regattas (working w') = regattas example_db).
Proof.
  split; [ reflexivity | ].
  destruct (delete_cascade_exact example_world eq_refl) as [Hr He].
  split.
  - destruct (Hr 2)
      as (w' & nr & ne & nv & ng & E & R & N & V & G & _ & _ & _ & _
          & Cr & Cn & Cv & Cg & _).
    exists w'. split.
    + rewrite E. pose proof E as E2. vm_compute in E2.
      inversion E2; subst. vm_compute. reflexivity.
    + split; [ intros H; apply G in H; destruct H as [_ H]; apply H;
               reflexivity | ].
      split; [ apply G; split; [ left; reflexivity | discriminate ] | ].
      split; [ intros H; apply V in H; destruct H as [_ H]; apply H;
               reflexivity | ].
      split.
      { intros H. apply N in H. destruct H as [_ H]. apply H.
        exists (mkEventRow 2 2 "8+" "1V" "W" "OW" "Final" (Some "2k") None).
        split; [ right; left; reflexivity | split; reflexivity ]. }
      split.
      { apply N. split; [ left; reflexivity | ].
        intros (ev & Hin & Hid & Hrg).
        destruct Hin as [<- | [<- | []]]; discriminate. }
      intros H. apply R in H. destruct H as [_ H]. apply H.
      exists (mkEntryRow 2 2 2 (Some "1V") (Some "Ivy") None (Some "")).
      split; [ right; left; reflexivity | ]. split; [ reflexivity | ].
      exists (mkEventRow 2 2 "8+" "1V" "W" "OW" "Final" (Some "2k") None).
      split; [ right; left; reflexivity | split; reflexivity ].
  - destruct (He 1)
      as (w' & nr & ne & nv & E & R & N & V & _ & _ & _ & Cr & Cn & Cv
          & G & _).
    exists w'. split.
    + rewrite E. pose proof E as E2. vm_compute in E2.
      inversion E2; subst. vm_compute. reflexivity.
    + split; [ intros H; apply N in H; destruct H as [_ H]; apply H;
               reflexivity | ].
      split; [ | exact G ].
      apply R. split; [ left; reflexivity | ].
      intros (e & Hin & Hid & Hev).
      destruct Hin as [<- | [<- | []]]; discriminate.
Defined.


(** C8.  When a statement of [delete_regatta] or [delete_event] fails, the
    call raises that exception after rolling the transaction back: the
    database file is untouched, the connection sees the database as last
    committed, no deletion of the call survives, and with no change
    pending when the call was made the state is what it was before. *)
Theorem delete_rollback (w : world) :
  clean w ->
  (forall regatta_id w' e,
      DatabaseManager.delete_regatta regatta_id w = (w', Raise e) ->
      committed w' = committed w /\ working w' = committed w
      /\ (in_transaction w = false -> working w' = working w))
  /\ (forall event_id w' e,
        DatabaseManager.delete_event event_id w = (w', Raise e) ->
        committed w' = committed w /\ working w' = committed w
        /\ (in_transaction w = false -> working w' = working w))
  /\ (forall regatta_id k,
        (k < 5)%nat -> nth k (faults w) false = true ->
        snd (DatabaseManager.delete_regatta regatta_id w)
        = Raise OperationalError)
  /\ (forall event_id k,
        (k < 4)%nat -> nth k (faults w) false = true ->
        snd (DatabaseManager.delete_event event_id w)
        = Raise OperationalError).
Proof.
  intros Hc. split; [ | split; [ | split ] ].
  - intros regatta_id w' e H.
    destruct (ManagerFacts.delete_regatta_raises w regatta_id w' e Hc H)
      as (_ & H1 & H2 & _).
    repeat split; [ exact H1 | exact H2 | ].
    intros Ht. rewrite H2. symmetry. apply Hc, Ht.
  - intros event_id w' e H.
    destruct (ManagerFacts.delete_event_raises w event_id w' e Hc H)
      as (_ & H1 & H2 & _).
    repeat split; [ exact H1 | exact H2 | ].
    intros Ht. rewrite H2. symmetry. apply Hc, Ht.
  - intros regatta_id k. apply ManagerFacts.delete_regatta_fault.
  - intros event_id k. apply ManagerFacts.delete_event_fault.
Qed.

Lemma delete_rollback_witness :
  clean failing_world
  /\ snd (DatabaseManager.delete_regatta 2 failing_world)
     = Raise OperationalError
  /\ working (fst (DatabaseManager.delete_regatta 2 failing_world))
     = working failing_world.
Proof.
  assert (Hc : clean failing_world) by (intros _; reflexivity).
  split; [ exact Hc | ].
  destruct (delete_rollback failing_world Hc) as (Hr & _ & Hf & _).
  assert (E : snd (DatabaseManager.delete_regatta 2 failing_world)
              = Raise OperationalError)
    by (apply (Hf 2 2%nat); [ lia | reflexivity ]).
  split; [ exact E | ].
  destruct (DatabaseManager.delete_regatta 2 failing_world) as [w' r] eqn:Ed.
  simpl in E. subst r.
  destruct (Hr 2 w' OperationalError Ed) as (_ & _ & Hw).
  apply Hw. reflexivity.
Defined.



Lemma example_world_reachable : reachable example_world.
Proof.
  apply (reachable_init example_db []).
  - unfold initial_ok. simpl. split; [ | split ].
    + apply (bool_decide_unpack _). vm_compute. exact I.
    + apply (bool_decide_unpack _). vm_compute. exact I.
    + repeat constructor; simpl; lia.
  - unfold example_world.
    rewrite (surjective_pairing (DatabaseManager.init example_db [])).
    f_equal.
Qed.


(** ** Seasons and participation rows *)

Module ParticipationFacts.

Import Sql DatabaseManager.

Lemma team_column_known team_type :
  In team_type team_columns ->
  participation_column team_type = Some team_type
  /\ String.eqb team_type "school_id" = false
  /\ String.eqb team_type "participation_id" = false
  /\ String.eqb team_type "start_date" = false
  /\ String.eqb team_type "end_date" = false.
Proof.
  intros [<- | [<- | [<- | [<- | []]]]]; repeat split; reflexivity.
Qed.

Lemma set_team_column_spec team_type v p :
  In team_type team_columns ->
  let p' := set_team_column team_type v p in
  p_participation_id p' = p_participation_id p
  /\ p_school_id p' = p_school_id p
  /\ p_start_date p' = p_start_date p
  /\ p_end_date p' = p_end_date p
  /\ team_flag team_type p' = v
  /\ forall other, In other team_columns -> other <> team_type ->
                   team_flag other p' = team_flag other p.
Proof.
  intros Hin p'. repeat split.
  - destruct Hin as [<- | [<- | [<- | [<- | []]]]]; reflexivity.
  - intros other Ho Hne.
    destruct Hin as [<- | [<- | [<- | [<- | []]]]];
      destruct Ho as [<- | [<- | [<- | [<- | []]]]];
      first [ reflexivity | contradiction ].
Qed.

(** The call on a season whose year already has a row for the school:
    one UPDATE of the team column, then the commit. *)
Lemma update_school_participation_updates w school_id team_type
  participating season_display season_year end_date pid :
  faults w = [] ->
  (if PyStr.py_in " - current" season_display
   then PyStr.split_head " - current" season_display
   else PyStr.split_head "-" season_display) = season_year ->
  (if PyStr.py_in " - current" season_display then Ok None
   else y <~ PyStr.py_int season_year ;;
        Ok (Some (PyStr.str_of_Z (y + 1) +:+ "-08-31"))) = Ok end_date ->
  select_participation school_id season_year (working w) = Some pid ->
  In team_type team_columns ->
  let db := working w in
  let db' := with_school_participations db
               (List.map (fun p => if p_participation_id p =? pid
                                   then set_team_column team_type
                                          participating p
                                   else p) (school_participations db))
               (seq_school_participations db) in
  update_school_participation_by_id school_id team_type participating
    season_display w
  = (mkWorld db' db' false (school_cache w) (crr_name_to_id_cache w) [],
     Ok true).
Proof.
  intros Hf Hy He Hsel Hin db db'.
  destruct (team_column_known team_type Hin) as (Hcol & H1 & H2 & H3 & H4).
  destruct w as [cm wk tx sc cc fl]. simpl in Hf, db, Hsel. subst fl.
  unfold update_school_participation_by_id.
  rewrite Hy.
  unfold mbind at 1.
  assert (Hend : (if PyStr.py_in " - current" season_display
                  then ret None
                  else y <- lift (PyStr.py_int season_year) ;;
                       ret (Some (PyStr.str_of_Z (y + 1) +:+ "-08-31")))
                   (mkWorld cm wk tx sc cc [])
                 = (mkWorld cm wk tx sc cc [], Ok end_date)).
  { destruct (PyStr.py_in " - current" season_display).
    - inversion He; subst. reflexivity.
    - unfold mbind, lift, ret.
      destruct (PyStr.py_int season_year) as [y | e]; simpl in He |- *;
        [ inversion He; subst; reflexivity | discriminate ]. }
  rewrite Hend.
  unfold try_except, mbind, execute_select, execute_dml, commit, ret, gets,
    set_working, mbind, engine, update_participation.
  cbn -[next_id existsb select_participation with_school_participations
        String.eqb participation_column set_participation_column count
        by_rowid].
  rewrite Hsel.
  cbn -[next_id existsb select_participation with_school_participations
        String.eqb participation_column set_participation_column count
        by_rowid].
  rewrite Hcol, H1, H2.
  cbn -[next_id existsb select_participation with_school_participations
        String.eqb participation_column set_participation_column count
        by_rowid].
  unfold set_participation_column. rewrite H1, H2, H3, H4.
  reflexivity.
Qed.

End ParticipationFacts.

(** C5 (as amended).  The range of a season is 1 September to 31 August:
    [start_date] is "{start_year}-09-01", [end_date] is "{end_year}-08-31"
    for a finite season and [None] for a current one.
    [update_school_participation_by_id], given the display name of a
    season that is current or ends the year after it starts, for a school
    that has no row yet for the year of the season, inserts a row with
    the bounds of the season: "{year}-09-01" and, as end, NULL or
    "{year+1}-08-31".  When the school has a row for that year, the call
    sets the team column on that row and changes no bound: every row
    keeps its id, its school and its two dates, the rows of other ids are
    unchanged, and on the row found the named team flag takes the value
    given while the other team flags stay. *)
Theorem season_bounds :
  (forall s : Season,
      start_date s = PyStr.str_of_Z (start_year s) +:+ "-09-01"
      /\ end_date s = match end_year s with
                      | Some e => Some (PyStr.str_of_Z e +:+ "-08-31")
                      | None => None
                      end)
  /\ (forall (w : world) (school_id : Z) (team_type : string)
         (participating : bool) (s : Season),
        faults w = [] ->
        0 <= start_year s ->
        end_year s = None \/ end_year s = Some (start_year s + 1) ->
        existsb (fun r => s_school_id r =? school_id) (schools (working w))
        = true ->
        Sql.select_participation school_id (PyStr.str_of_Z (start_year s))
          (working w) = None ->
        exists w' row,
          DatabaseManager.update_school_participation_by_id school_id
            team_type participating (display_name s) w = (w', Ok true)
          /\ school_participations (working w')
             = school_participations (working w) ++ [row]
          /\ committed w' = working w'
          /\ p_school_id row = school_id
          /\ p_start_date row = SqlText (start_date s)
          /\ p_end_date row = option_map SqlText (end_date s)
          /\ p_end_date row
             = match end_year s with
               | Some _ =>
                   Some (SqlText (PyStr.str_of_Z (start_year s + 1)
                                  +:+ "-08-31"))
               | None => None
               end)
  /\ (forall (w : world) (school_id : Z) (team_type : string)
         (participating : bool) (s : Season) (pid : Z),
        faults w = [] ->
        0 <= start_year s ->
        In team_type Sql.team_columns ->
        Sql.select_participation school_id (PyStr.str_of_Z (start_year s))
          (working w) = Some pid ->
        exists w',
          DatabaseManager.update_school_participation_by_id school_id
            team_type participating (display_name s) w = (w', Ok true)
          /\ committed w' = working w'
          /\ Forall2
               (fun p p' =>
                  p_participation_id p' = p_participation_id p
                  /\ p_school_id p' = p_school_id p
                  /\ p_start_date p' = p_start_date p
                  /\ p_end_date p' = p_end_date p
                  /\ (p_participation_id p <> pid -> p' = p)
                  /\ (p_participation_id p = pid ->
                      team_flag team_type p' = participating
                      /\ forall other,
                          In other Sql.team_columns -> other <> team_type ->
                          team_flag other p' = team_flag other p))
               (school_participations (working w))
               (school_participations (working w'))).
Proof.
  split; [ | split ].
  - intros s. split; [ reflexivity | ]. unfold end_date.
    destruct (end_year s); reflexivity.
  - intros w school_id team_type participating [y oe] Hf Hy Hone Hsch Hsel.
    simpl in Hy, Hsel, Hone.
    destruct oe as [e | ].
    + destruct Hone as [Hone | Hone]; [ discriminate | ].
      inversion Hone; subst e.
      destruct (ManagerFacts.display_name_finite y (y + 1) Hy)
        as [Hin Hhead].
      do 2 eexists. split.
      * apply ManagerFacts.update_school_participation_inserts
          with (season_year := PyStr.str_of_Z y);
          [ exact Hf | rewrite Hin; exact Hhead | rewrite Hin
          | exact Hsel | exact Hsch ].
        rewrite (PyStrFacts.py_int_str_of_Z y Hy). reflexivity.
      * simpl. repeat split.
    + destruct (ManagerFacts.display_name_current y Hy) as [Hin Hhead].
      do 2 eexists. split.
      * apply ManagerFacts.update_school_participation_inserts
          with (season_year := PyStr.str_of_Z y);
          [ exact Hf | rewrite Hin; exact Hhead | rewrite Hin
          | exact Hsel | exact Hsch ].
        reflexivity.
      * simpl. repeat split.
  - intros w school_id team_type participating [y oe] pid Hf Hy Hteam Hsel.
    simpl in Hy, Hsel.
    assert (Hrows : forall ps : list participation_row,
               Forall2
                 (fun p p' =>
                    p_participation_id p' = p_participation_id p
                    /\ p_school_id p' = p_school_id p
                    /\ p_start_date p' = p_start_date p
                    /\ p_end_date p' = p_end_date p
                    /\ (p_participation_id p <> pid -> p' = p)
                    /\ (p_participation_id p = pid ->
                        team_flag team_type p' = participating
                        /\ forall other,
                            In other Sql.team_columns -> other <> team_type ->
                            team_flag other p' = team_flag other p))
                 ps
                 (List.map (fun p => if p_participation_id p =? pid
                                     then Sql.set_team_column team_type
                                            participating p
                                     else p) ps)).
    { induction ps as [ | p ps IH ]; simpl; constructor; [ | exact IH ].
      destruct (Z.eqb_spec (p_participation_id p) pid) as [Heq | Hne].
      - pose proof (ParticipationFacts.set_team_column_spec team_type
                      participating p Hteam) as Hspec.
        cbv zeta in Hspec.
        destruct Hspec as (H1 & H2 & H3 & H4 & H5 & H6).
        split; [ exact H1 | ]. split; [ exact H2 | ].
        split; [ exact H3 | ]. split; [ exact H4 | ].
        split; [ intros Hc; contradiction | intros _ ].
        split; [ exact H5 | exact H6 ].
      - split; [ reflexivity | ]. split; [ reflexivity | ].
        split; [ reflexivity | ]. split; [ reflexivity | ].
        split; [ reflexivity | intros Hc; contradiction ]. }
    destruct oe as [e | ].
    + destruct (ManagerFacts.display_name_finite y e Hy) as [Hin Hhead].
      eexists. split.
      * apply ParticipationFacts.update_school_participation_updates
          with (season_year := PyStr.str_of_Z y)
               (end_date := Some (PyStr.str_of_Z (y + 1) +:+ "-08-31"));
          [ exact Hf | rewrite Hin; exact Hhead | rewrite Hin
          | exact Hsel | exact Hteam ].
        rewrite (PyStrFacts.py_int_str_of_Z y Hy). reflexivity.
      * split; [ reflexivity | apply Hrows ].
    + destruct (ManagerFacts.display_name_current y Hy) as [Hin Hhead].
      eexists. split.
      * apply ParticipationFacts.update_school_participation_updates
          with (season_year := PyStr.str_of_Z y) (end_date := None);
          [ exact Hf | rewrite Hin; exact Hhead | rewrite Hin
          | exact Hsel | exact Hteam ].
        reflexivity.
      * split; [ reflexivity | apply Hrows ].
Qed.

Lemma season_bounds_witness :
  (faults example_world = []
   /\ display_name (mkSeason 2025 (Some 2026)) = "2025-2026"
   /\ exists w' row,
       DatabaseManager.update_school_participation_by_id 2 "heavyweight_men"
         true "2025-2026" example_world = (w', Ok true)
       /\ school_participations (working w') = [row]
       /\ p_start_date row = SqlText "2025-09-01"
       /\ p_end_date row = Some (SqlText "2026-08-31"))
  /\ (faults current_2025_world = []
      /\ Sql.select_participation 2 "2025" (working current_2025_world)
         = Some 1
      /\ exists w',
          DatabaseManager.update_school_participation_by_id 2
            "heavyweight_men" true "2025-2026" current_2025_world
          = (w', Ok true)
          /\ Forall2 (fun p p' => p_start_date p' = p_start_date p
                                  /\ p_end_date p' = p_end_date p)
               (school_participations (working current_2025_world))
               (school_participations (working w'))).
Proof.
  split.
  - split; [ reflexivity | ]. split; [ reflexivity | ].
    destruct (proj1 (proj2 season_bounds) example_world 2 "heavyweight_men"
                true (mkSeason 2025 (Some 2026)))
      as (w' & row & E & Hps & _ & _ & Hs & He & _);
      [ reflexivity | simpl; lia | right; reflexivity | reflexivity
      | reflexivity | ].
    exists w', row. split; [ exact E | ]. split; [ exact Hps | ].
    split; [ exact Hs | exact He ].
  - split; [ reflexivity | ]. split; [ reflexivity | ].
    destruct (proj2 (proj2 season_bounds) current_2025_world 2
                "heavyweight_men" true (mkSeason 2025 (Some 2026)) 1)
      as (w' & E & _ & Hrows);
      [ reflexivity | simpl; lia | right; left; reflexivity | reflexivity
      | ].
    exists w'. split; [ exact E | ].
    eapply Stdlib.Lists.List.Forall2_impl; [ | exact Hrows ].
    intros p p' H. simpl in H. tauto.
Defined.

(** C5 as stated fails when the school already has a row for the year
    of the season: Yale has the row of the current season that began in
    2025, with no end; the call for the finite season 2025-2026 succeeds,
    sets the team flag, and the row still has no end, whereas the season
    ends on 2026-08-31. *)
Lemma finite_season_keeps_null_end :
  display_name (mkSeason 2025 (Some 2026)) = "2025-2026"
  /\ end_date (mkSeason 2025 (Some 2026)) = Some "2026-08-31"
  /\ faults current_2025_world = []
  /\ school_participations (working current_2025_world)
     = [mkParticipationRow 1 2 (SqlText "2025-09-01") None
          true false false false]
  /\ exists w',
      DatabaseManager.update_school_participation_by_id 2 "heavyweight_men"
        true "2025-2026" current_2025_world = (w', Ok true)
      /\ school_participations (working w')
         = [mkParticipationRow 1 2 (SqlText "2025-09-01") None
              true true false false]
      /\ committed w' = working w'.
Proof.
  split; [ reflexivity | ]. split; [ reflexivity | ].
  split; [ reflexivity | ]. split; [ reflexivity | ].
  eexists. split; [ vm_compute; reflexivity | ].
  split; reflexivity.
Qed.

(** [team_type] is pasted into the UPDATE: naming the column [end_date]
    it overwrites the end of the row with the integer of the flag, and a
    name that is no column makes the statement fail, which the method
    reports by returning [False] after a rollback. *)
Example update_names_any_column :
  (exists w',
      DatabaseManager.update_school_participation_by_id 2 "end_date" true
        "2025 - current" current_2025_world = (w', Ok true)
      /\ school_participations (working w')
         = [mkParticipationRow 1 2 (SqlText "2025-09-01") (Some (SqlInt 1))
              true false false false])
  /\ (exists w',
        DatabaseManager.update_school_participation_by_id 2 "END_DATE" false
          "2025 - current" current_2025_world = (w', Ok true)
        /\ school_participations (working w')
           = [mkParticipationRow 1 2 (SqlText "2025-09-01")
                (Some (SqlInt 0)) true false false false])
  /\ (exists w',
        DatabaseManager.update_school_participation_by_id 2 "varsity" true
          "2025 - current" current_2025_world = (w', Ok false)
        /\ working w' = working current_2025_world).
Proof.
  split; [ | split ]; eexists; (split; [ vm_compute; reflexivity | ]);
    reflexivity.
Qed.


(** ** CRR names *)

Module SchoolFacts.

Import Sql SqlFacts DatabaseManager ManagerFacts.

(** *** Operations that leave the schools alone *)

Lemma frame_refl w : frame w w.
Proof. unfold frame. auto. Qed.

Lemma frame_trans w1 w2 w3 : frame w1 w2 -> frame w2 w3 -> frame w1 w3.
Proof.
  unfold frame. intros (Hs1 & Hc1 & Hw1 & Hm1) (Hs2 & Hc2 & Hw2 & Hm2).
  rewrite Hs2, Hc2.
  repeat split; auto;
    destruct Hw1 as [Hw1 | Hw1], Hm1 as [Hm1 | Hm1],
             Hw2 as [Hw2 | Hw2], Hm2 as [Hm2 | Hm2];
    rewrite ?Hw2, ?Hm2, ?Hw1, ?Hm1; auto.
Qed.

Lemma frame_inv w w' : schools_inv w -> frame w w' -> schools_inv w'.
Proof.
  unfold schools_inv, frame.
  intros (H0 & H1 & H2 & H3 & H4 & H5) (Hs & Hc & Hw & Hm).
  rewrite Hs, Hc.
  assert (Ew : schools (working w') = schools (working w))
    by (destruct Hw as [-> | ->]; congruence).
  assert (Em : schools (committed w') = schools (working w))
    by (destruct Hm as [-> | ->]; congruence).
  rewrite Ew, Em. auto 10.
Qed.

Lemma framed_ret {A} (a : A) : framed (ret a).
Proof. intros w. apply frame_refl. Qed.

Lemma framed_raise {A} e : framed (@raise A e).
Proof. intros w. apply frame_refl. Qed.

Lemma framed_lift {A} (r : pyres A) : framed (lift r).
Proof. intros w. apply frame_refl. Qed.

Lemma framed_gets {A} (f : world -> A) : framed (gets f).
Proof. intros w. apply frame_refl. Qed.

Lemma framed_bind {A B} (m : M A) (k : A -> M B) :
  framed m -> (forall a, framed (k a)) -> framed (mbind m k).
Proof.
  intros Hm Hk w. unfold mbind. specialize (Hm w).
  destruct (m w) as [w1 [a | e]]; simpl in *; [ | exact Hm ].
  eapply frame_trans; [ exact Hm | apply Hk ].
Qed.

Lemma framed_try_except {A} (m : M A) (h : pyexn -> M A) :
  framed m -> (forall e, framed (h e)) -> framed (try_except m h).
Proof.
  intros Hm Hh w. unfold try_except. specialize (Hm w).
  destruct (m w) as [w1 [a | e]]; simpl in *; [ exact Hm | ].
  eapply frame_trans; [ exact Hm | apply Hh ].
Qed.

Lemma framed_engine : framed engine.
Proof.
  intros [cm wk tx sc cc fl]. unfold engine, frame.
  destruct fl as [ | [] fl ]; simpl; auto.
Qed.

Lemma framed_execute_dml {A} (stmt : database -> pyres (database * A)) :
  (forall db db' a, stmt db = Ok (db', a) -> schools db' = schools db) ->
  framed (execute_dml stmt).
Proof.
  intros Hst. unfold execute_dml. apply framed_bind; [ apply framed_engine | ].
  intros _ [cm wk tx sc cc fl]. unfold frame. simpl.
  destruct (stmt wk) as [ [db' a] | e ] eqn:E; simpl; auto.
  rewrite (Hst _ _ _ E). auto.
Qed.

Lemma framed_execute_select {A} (q : database -> A) :
  framed (execute_select q).
Proof.
  unfold execute_select. apply framed_bind;
    [ apply framed_engine | intros; apply framed_gets ].
Qed.

Lemma framed_commit : framed commit.
Proof.
  intros [cm wk tx sc cc fl]. unfold commit, frame, mbind, engine. simpl.
  destruct tx; simpl; [ | auto ].
  destruct fl as [ | [] fl ]; simpl; auto.
Qed.

Lemma framed_rollback : framed rollback.
Proof.
  intros [cm wk tx sc cc fl]. unfold rollback, frame. simpl.
  destruct tx; simpl; auto.
Qed.

Ltac framed_steps :=
  repeat match goal with
         | |- framed (ret _) => apply framed_ret
         | |- framed (raise _) => apply framed_raise
         | |- framed (lift _) => apply framed_lift
         | |- framed (gets _) => apply framed_gets
         | |- framed commit => apply framed_commit
         | |- framed rollback => apply framed_rollback
         | |- framed (execute_select _) => apply framed_execute_select
         | |- framed (try_except _ _) => apply framed_try_except
         | |- framed (mbind _ _) => apply framed_bind
         | |- forall _, framed _ => intro
         end.

Lemma framed_delete_regatta regatta_id : framed (delete_regatta regatta_id).
Proof.
  unfold delete_regatta. framed_steps;
    apply framed_execute_dml; intros db db' n E; inversion E;
    destruct db; reflexivity.
Qed.

Lemma framed_delete_event event_id : framed (delete_event event_id).
Proof.
  unfold delete_event. framed_steps;
    apply framed_execute_dml; intros db db' n E; inversion E;
    destruct db; reflexivity.
Qed.

Lemma framed_add_result entry_id lane position elapsed_sec margin_sec :
  framed (add_result entry_id lane position elapsed_sec margin_sec).
Proof.
  unfold add_result. framed_steps.
  apply framed_execute_dml. intros db db' n. unfold insert_result.
  destruct (existsb _ _); intros E; inversion E. reflexivity.
Qed.

Lemma framed_update_school_participation_by_id school_id team_type
  participating season_display :
  framed (update_school_participation_by_id school_id team_type participating
            season_display).
Proof.
  unfold update_school_participation_by_id.
  apply framed_bind.
  - destruct (PyStr.py_in _ _); framed_steps.
  - intros end_date. apply framed_try_except; [ | framed_steps ].
    apply framed_bind; [ apply framed_execute_select | ].
    intros [pid | ]; framed_steps.
    + apply framed_execute_dml. intros db db' n. unfold update_participation.
      destruct (participation_column team_type); [ | discriminate ].
      repeat match goal with
             | |- context [if ?c then Raise _ else _] => destruct c
             end; intros E; inversion E; reflexivity.
    + apply framed_execute_dml. intros db db' n. unfold insert_participation.
      destruct (existsb _ _); intros E; inversion E. reflexivity.
Qed.

(** *** Filling the caches *)

Lemma insert_by_crr_name_perm r l :
  Permutation (insert_by_crr_name r l) (r :: l).
Proof.
  induction l as [ | x l IH ]; simpl; [ reflexivity | ].
  destruct (String.leb _ _); [ reflexivity | ].
  rewrite IH. apply perm_swap.
Qed.

Lemma order_by_crr_name_perm l : Permutation (order_by_crr_name l) l.
Proof.
  unfold order_by_crr_name. induction l as [ | x l IH ]; simpl;
    [ reflexivity | ].
  rewrite insert_by_crr_name_perm, IH. reflexivity.
Qed.

Lemma filter_everything {A : Type} (q : A -> bool) (l : list A) :
  (forall x, In x l -> q x = true) -> List.filter q l = l.
Proof.
  induction l as [ | a l IH ]; intros H; simpl; [ reflexivity | ].
  rewrite (H a (or_introl eq_refl)). f_equal. apply IH.
  intros x Hx. apply H. right. exact Hx.
Qed.

Lemma not_blank_nonempty s :
  blank s = false -> negb (String.eqb s "") = true.
Proof. destruct s; [ discriminate | reflexivity ]. Qed.

Lemma fill_caches_spec rows :
  (forall r, In r rows -> blank (s_crr_name r) = false) ->
  NoDup (List.map s_crr_name rows) ->
  forall w,
  exists sc' cc',
    fill_caches rows w
    = (mkWorld (committed w) (working w) (in_transaction w) sc' cc'
         (faults w), Ok tt)
    /\ (forall r, In r rows -> cc' !! s_crr_name r = Some (s_school_id r))
    /\ (forall n, ~ In n (List.map s_crr_name rows) ->
                  cc' !! n = crr_name_to_id_cache w !! n)
    /\ (forall n i, cc' !! n = Some i ->
                    (exists r, In r rows /\ s_crr_name r = n
                               /\ s_school_id r = i)
                    \/ crr_name_to_id_cache w !! n = Some i)
    /\ (forall sid S, sc' !! sid = Some S ->
                      (exists r, In r rows /\ sc_crr_name S = s_crr_name r
                                 /\ s_school_id r = sid)
                      \/ school_cache w !! sid = Some S).
Proof.
  induction rows as [ | row rest IH ]; intros Hnb Hnd w.
  - exists (school_cache w), (crr_name_to_id_cache w).
    destruct w; simpl. repeat split; auto. intros r [].
  - assert (Hb : blank (s_crr_name row) = false)
      by (apply Hnb; left; reflexivity).
    inversion Hnd as [ | ? ? Hnotin Hnd' ]; subst.
    rewrite list_elem_of_In in Hnotin.
    set (S0 := mkSchool (s_school_id row) (s_name row)
                 (coalesce (s_short_name row)) (coalesce (s_acronym row))
                 (s_crr_name row) (coalesce (s_color row))).
    set (w1 := mkWorld (committed w) (working w) (in_transaction w)
                 (<[s_school_id row := S0]> (school_cache w))
                 (<[s_crr_name row := s_school_id row]>
                    (crr_name_to_id_cache w)) (faults w)).
    destruct (IH (fun r Hr => Hnb r (or_intror Hr)) Hnd' w1)
      as (sc' & cc' & E & Hin & Hout & Hsrc & Hsc).
    exists sc', cc'. split; [ | split; [ | split; [ | split ] ] ].
    + cbn [fill_caches]. unfold mbind at 1. unfold lift, new_School.
      rewrite Hb. fold S0.
      unfold mbind, gets, set_caches. cbn [fst snd].
      destruct w as [cm wk tx sc cc fl]. exact E.
    + intros r [<- | Hr]; [ | apply Hin, Hr ].
      rewrite Hout by exact Hnotin.
      unfold w1. simpl. apply lookup_insert_eq.
    + intros n Hn. rewrite Hout.
      * unfold w1. simpl. apply lookup_insert_ne.
        intros <-. apply Hn. left. reflexivity.
      * intros Hn'. apply Hn. right. exact Hn'.
    + intros n i Hl. destruct (Hsrc n i Hl) as [(r & Hr & Hn & Hi) | Hl1].
      * left. exists r. split; [ right; exact Hr | split; assumption ].
      * unfold w1 in Hl1. simpl in Hl1.
        rewrite lookup_insert in Hl1.
        destruct (decide (s_crr_name row = n)) as [En | En].
        -- inversion Hl1; subst. left. exists row.
           split; [ left; reflexivity | split; reflexivity ].
        -- right. exact Hl1.
    + intros sid S Hl. destruct (Hsc sid S Hl) as [(r & Hr & Hn & Hi) | Hl1].
      * left. exists r. split; [ right; exact Hr | split; assumption ].
      * unfold w1 in Hl1. simpl in Hl1.
        rewrite lookup_insert in Hl1.
        destruct (decide (s_school_id row = sid)) as [En | En].
        -- inversion Hl1; subst. left. exists row.
           split; [ left; reflexivity | split; reflexivity ].
        -- right. exact Hl1.
Qed.

Lemma schools_inv_table_ok w : schools_inv w -> table_ok w.
Proof.
  unfold schools_inv, table_ok.
  intros (H0 & H1 & H2 & H3 & _). repeat split; auto; apply H3; assumption.
Qed.

Lemma table_ok_frame w w' : table_ok w -> frame w w' -> table_ok w'.
Proof.
  unfold table_ok, frame. intros (H0 & H1 & H2 & H3) (_ & _ & Hw & Hm).
  assert (Ew : schools (working w') = schools (working w))
    by (destruct Hw as [-> | ->]; congruence).
  assert (Em : schools (committed w') = schools (working w))
    by (destruct Hm as [-> | ->]; congruence).
  rewrite Ew, Em. auto.
Qed.

Lemma initialize_school_caches_cases w :
  table_ok w ->
  let '(w', r) := _initialize_school_caches w in
  (r = Raise OperationalError /\ frame w w')
  \/ (r = Ok tt /\ schools_inv w').
Proof.
  intros (H0 & H1 & H2 & H3).
  destruct w as [cm wk tx sc cc fl]. simpl in H0, H1, H2, H3.
  unfold _initialize_school_caches, execute_select.
  unfold mbind at 1. unfold mbind at 1. unfold engine. cbn [faults].
  destruct fl as [ | [] fl ]; cbn [fst snd];
    try (left; split; [ reflexivity | unfold frame; simpl; auto ]).
  all: unfold gets; cbn [working]; unfold mbind at 1;
    unfold set_caches at 1; cbn [fst snd committed working in_transaction
                                 faults].
  all: rewrite (filter_everything _ (schools wk))
       by (intros x Hx; apply not_blank_nonempty, H3, Hx).
  all: match goal with
       | |- context [ fill_caches ?rows ?w0 ] =>
           destruct (fill_caches_spec rows
                       (fun r Hr => proj2 (H3 r (Permutation_in r
                                                  (order_by_crr_name_perm _)
                                                  Hr)))
                       ltac:(rewrite order_by_crr_name_perm; exact H2) w0)
             as (sc' & cc' & E & Hin & Hout & Hsrc & Hsc)
       end.
  all: rewrite E; right; split; [ reflexivity | ].
  all: unfold schools_inv; cbn [committed working school_cache
                                crr_name_to_id_cache].
  all: split; [ exact H0 | ]; split; [ exact H1 | ]; split; [ exact H2 | ].
  all: split; [ | split ].
  all: try (intros r Hr; destruct (H3 r Hr) as [Hid Hb];
            split; [ exact Hid | split; [ exact Hb | ] ];
            apply Hin;
            apply (Permutation_in r
                     (Permutation_sym (order_by_crr_name_perm _)) Hr)).
  all: try (intros sid S Hl;
            destruct (Hsc sid S Hl) as [(r & Hr & Hn & Hi) | Hl1];
            [ | simpl in Hl1; rewrite lookup_empty in Hl1; discriminate ];
            rewrite Hn; subst sid;
            split; [ apply Hin, Hr | ];
            apply H3;
            apply (Permutation_in r (order_by_crr_name_perm _) Hr)).
  all: intros n sid Hl;
    destruct (Hsrc n sid Hl) as [(r & Hr & Hn & Hi) | Hl1];
    [ | simpl in Hl1; rewrite lookup_empty in Hl1; discriminate ];
    subst sid;
    pose proof (proj1 (H3 r (Permutation_in r (order_by_crr_name_perm _) Hr)));
    lia.
Qed.

Lemma framed_verify : framed _verify_database_initialized.
Proof.
  unfold _verify_database_initialized.
  apply framed_try_except.
  - framed_steps. destruct (_ || _); framed_steps.
  - intros e. destruct e; framed_steps.
Qed.

Lemma initial_ok_table_ok db fl :
  initial_ok db -> table_ok (mkWorld db db false ∅ ∅ fl).
Proof.
  unfold initial_ok, table_ok. simpl. intros (H1 & H2 & H3).
  repeat split; auto; rewrite Forall_forall in H3;
    apply H3, list_elem_of_In; assumption.
Qed.

Lemma init_inv db fl w :
  initial_ok db -> init db fl = (w, Ok tt) -> schools_inv w.
Proof.
  intros Hok. unfold init, mbind.
  pose proof (framed_verify (mkWorld db db false ∅ ∅ fl)) as Hf.
  destruct (_verify_database_initialized _) as [w1 [ [] | e ]];
    [ | discriminate ].
  simpl in Hf.
  pose proof (table_ok_frame _ _ (initial_ok_table_ok db fl Hok) Hf) as Ht.
  pose proof (initialize_school_caches_cases w1 Ht) as Hc.
  destruct (_initialize_school_caches w1) as [w2 r].
  intros E. inversion E; subst.
  destruct Hc as [[Hr _] | [_ Hinv]]; [ discriminate | exact Hinv ].
Qed.

Lemma refresh_inv w :
  schools_inv w -> schools_inv (fst (refresh_school_caches w)).
Proof.
  intros Hinv. unfold refresh_school_caches.
  pose proof (initialize_school_caches_cases w (schools_inv_table_ok w Hinv))
    as Hc.
  destruct (_initialize_school_caches w) as [w' r]. simpl.
  destruct Hc as [[_ Hf] | [_ H]]; [ | exact H ].
  eapply frame_inv; eauto.
Qed.

(** *** [add_school] *)

Lemma existsb_crr_name_false crr rows :
  existsb (fun s => String.eqb (s_crr_name s) crr) rows = false ->
  ~ In crr (List.map s_crr_name rows).
Proof.
  intros H Hin. apply List.in_map_iff in Hin. destruct Hin as (r & Hn & Hr).
  assert (Ht : existsb (fun s => String.eqb (s_crr_name s) crr) rows = true).
  { apply List.existsb_exists. exists r. split; [ exact Hr | ].
    apply String.eqb_eq. exact Hn. }
  congruence.
Qed.

Lemma inv_cache_added cm wk tx sc cc fl crr id S cm' wk' tx' fl' :
  schools_inv (mkWorld cm wk tx sc cc fl) ->
  cc !! crr = None -> id <> 0 -> sc_crr_name S = crr -> blank crr = false ->
  schools cm' = schools wk -> schools wk' = schools wk ->
  schools_inv (mkWorld cm' wk' tx' (<[id := S]> sc) (<[crr := id]> cc) fl').
Proof.
  unfold schools_inv. simpl.
  intros (H0 & H1 & H2 & H3 & H4 & H5) Hcc Hid HS Hb Ecm Ewk.
  rewrite Ecm, Ewk.
  split; [ reflexivity | ]. split; [ exact H1 | ]. split; [ exact H2 | ].
  split; [ | split ].
  - intros r Hr. destruct (H3 r Hr) as (Hi & Hbl & Hl).
    split; [ exact Hi | split; [ exact Hbl | ] ].
    rewrite lookup_insert_ne; [ exact Hl | ].
    intros E. rewrite <- E in Hl. congruence.
  - intros sid S' Hl. rewrite lookup_insert in Hl.
    destruct (decide (id = sid)) as [<- | Hne].
    + inversion Hl; subst S'. rewrite HS.
      split; [ apply lookup_insert_eq | exact Hb ].
    + destruct (H4 sid S' Hl) as [Hl' Hb'].
      split; [ | exact Hb' ].
      rewrite lookup_insert_ne; [ exact Hl' | ].
      intros E. rewrite <- E in Hl'. congruence.
  - intros n sid Hl. rewrite lookup_insert in Hl.
    destruct (decide (crr = n)); [ inversion Hl; subst; exact Hid | ].
    eapply H5; eauto.
Qed.

Lemma inv_school_inserted cm wk tx sc cc fl name short_name acronym crr color
  tx' fl' :
  schools_inv (mkWorld cm wk tx sc cc fl) ->
  cc !! crr = None -> blank crr = false ->
  existsb (fun s => String.eqb (s_crr_name s) crr) (schools wk) = false ->
  let id := next_id (List.map s_school_id (schools wk)) (seq_schools wk) in
  let db' := with_schools wk
               (schools wk ++ [mkSchoolRow id name (Some short_name)
                                 (Some acronym) crr (Some color)]) id in
  schools_inv
    (mkWorld db' db' tx'
       (<[id := mkSchool id name short_name acronym crr color]> sc)
       (<[crr := id]> cc) fl').
Proof.
  intros Hinv Hcc Hb Hex id db'.
  assert (Hpos : 1 <= id) by apply next_id_positive.
  pose proof (inv_cache_added cm wk tx sc cc fl crr id
                (mkSchool id name short_name acronym crr color) wk wk tx' fl'
                Hinv Hcc ltac:(lia) eq_refl Hb eq_refl eq_refl) as Hinv'.
  unfold schools_inv in *. simpl in *.
  destruct Hinv' as (_ & H1 & H2 & H3 & H4 & H5).
  split; [ reflexivity | ].
  rewrite !List.map_app. simpl.
  split; [ | split; [ | split; [ | split ] ] ].
  - apply NoDup_app. split; [ exact H1 | ]. split.
    + intros x Hx Hx'. apply list_elem_of_In in Hx.
      apply list_elem_of_singleton in Hx'. subst x.
      pose proof (next_id_above _ (seq_schools wk) _ Hx). fold id in H. lia.
    + apply NoDup_singleton.
  - apply NoDup_app. split; [ exact H2 | ]. split.
    + intros x Hx Hx'. apply list_elem_of_In in Hx.
      apply list_elem_of_singleton in Hx'. subst x.
      apply (existsb_crr_name_false crr (schools wk) Hex). exact Hx.
    + apply NoDup_singleton.
  - intros r Hr. apply List.in_app_or in Hr. destruct Hr as [Hr | [<- | []]].
    + apply H3, Hr.
    + simpl. split; [ exact Hpos | split; [ exact Hb | ] ].
      apply lookup_insert_eq.
  - exact H4.
  - exact H5.
Qed.

Lemma add_school_inv name short_name acronym crr_name color w :
  schools_inv w ->
  schools_inv (fst (add_school name short_name acronym crr_name color w)).
Proof.
  intros Hinv. destruct w as [cm wk tx sc cc fl].
  unfold add_school.
  set (crr := PyStr.strip (if PyStr.truthy crr_name then crr_name else name)).
  unfold mbind at 1. unfold gets. cbn [fst snd crr_name_to_id_cache].
  destruct (cc !! crr) as [ex | ] eqn:Ecc; [ exact Hinv | ].
  assert (H0 : schools cm = schools wk) by apply Hinv.
  unfold try_except, mbind, execute_dml, commit, rollback, raise, ret, lift,
    gets, set_caches, set_working, mbind, engine, insert_school, new_School.
  cbn -[next_id existsb blank with_schools].
  repeat match goal with
         | |- context [ match ?l with nil => _ | cons _ _ => _ end ] =>
             is_var l; destruct l as [ | [] ? ];
             cbn -[next_id existsb blank with_schools]
         | |- context [ if existsb ?f ?l then _ else _ ] =>
             destruct (existsb f l) eqn:?;
             cbn -[next_id existsb blank with_schools]
         | |- context [ if blank ?s then _ else _ ] =>
             destruct (blank s) eqn:?;
             cbn -[next_id existsb blank with_schools]
         | |- context [ if ?b then _ else _ ] =>
             is_var b; destruct b eqn:?;
             cbn -[next_id existsb blank with_schools]
         end.
  all: try (eapply frame_inv; [ exact Hinv | unfold frame; simpl; auto ];
            fail).
  all: try (eapply inv_school_inserted; eassumption).
  all: eapply inv_cache_added; try eassumption; try reflexivity;
    pose proof (next_id_positive (List.map s_school_id (schools wk))
                  (seq_schools wk)); lia.
Qed.

Lemma add_school_existing name short_name acronym crr_name color w r :
  schools_inv w ->
  In r (schools (working w)) ->
  s_crr_name r
  = PyStr.strip (if PyStr.truthy crr_name then crr_name else name) ->
  add_school name short_name acronym crr_name color w = (w, Raise ValueError).
Proof.
  intros Hinv Hr Hn. destruct w as [cm wk tx sc cc fl].
  destruct Hinv as (_ & _ & _ & H3 & _). simpl in H3, Hr.
  destruct (H3 r Hr) as (_ & _ & Hl). rewrite Hn in Hl.
  unfold add_school, mbind, gets. cbn [fst snd crr_name_to_id_cache].
  rewrite Hl. reflexivity.
Qed.

(** *** [update_school_field] *)

Lemma blank_strip s : blank s = false -> blank (PyStr.strip s) = false.
Proof.
  unfold blank. intros H. apply orb_false_iff in H. destruct H as [_ H].
  rewrite PyStrFacts.strip_idem, H. reflexivity.
Qed.

Lemma inv_school_cached cm wk tx sc cc fl sid old :
  schools_inv (mkWorld cm wk tx sc cc fl) -> sc !! sid = Some old ->
  cc !! sc_crr_name old = Some sid /\ blank (sc_crr_name old) = false
  /\ sid <> 0.
Proof.
  intros (_ & _ & _ & _ & H4 & H5) Hs. simpl in *.
  destruct (H4 sid old Hs) as [Hl Hb]. repeat split; auto.
  eapply H5; eauto.
Qed.

(** The rows that are not the school being renamed have neither the new
    name nor the cached old one. *)
Lemma other_rows_names cm wk tx sc cc fl sid old v :
  schools_inv (mkWorld cm wk tx sc cc fl) -> sc !! sid = Some old ->
  (cc !! v = None \/ cc !! v = Some sid) ->
  forall r, In r (schools wk) -> s_school_id r <> sid ->
            s_crr_name r <> v /\ s_crr_name r <> sc_crr_name old.
Proof.
  intros Hinv Hs Hv r Hr Hne.
  destruct (inv_school_cached _ _ _ _ _ _ _ _ Hinv Hs) as (Ho & _ & _).
  destruct Hinv as (_ & _ & _ & H3 & _). simpl in H3.
  destruct (H3 r Hr) as (_ & _ & Hl).
  split; intros E; rewrite E in Hl.
  - destruct Hv as [Hv | Hv]; rewrite Hv in Hl; congruence.
  - rewrite Ho in Hl. congruence.
Qed.

(** Replacing a cached [School] by one with a CRR name that the name
    cache sends to the same id. *)
Lemma inv_cache_renamed cm wk tx sc cc fl sid old v S' cc2 cm' wk' tx' fl' :
  schools_inv (mkWorld cm wk tx sc cc fl) -> sc !! sid = Some old ->
  blank v = false -> (cc !! v = None \/ cc !! v = Some sid) ->
  sc_crr_name S' = v ->
  cc2 !! v = Some sid ->
  (cc2 !! sc_crr_name old = Some sid \/ cc2 !! sc_crr_name old = None) ->
  (forall r, In r (schools wk') -> cc2 !! s_crr_name r = Some (s_school_id r)) ->
  (forall n, n <> v -> n <> sc_crr_name old -> cc2 !! n = cc !! n) ->
  schools cm' = schools wk' ->
  NoDup (List.map s_school_id (schools wk')) ->
  NoDup (List.map s_crr_name (schools wk')) ->
  (forall r, In r (schools wk') ->
             1 <= s_school_id r /\ blank (s_crr_name r) = false) ->
  schools_inv (mkWorld cm' wk' tx' (<[sid := S']> sc) cc2 fl').
Proof.
  intros Hinv Hs Hb Hv HS Hcv Hco Hrows Hcc Ecm Hn1 Hn2 Hr.
  destruct (inv_school_cached _ _ _ _ _ _ _ _ Hinv Hs) as (Ho & _ & Hsid).
  destruct Hinv as (_ & _ & _ & _ & H4 & H5). simpl in H4, H5.
  unfold schools_inv. simpl.
  split; [ exact Ecm | ]. split; [ exact Hn1 | ]. split; [ exact Hn2 | ].
  split; [ | split ].
  - intros r Hin. destruct (Hr r Hin) as [Hi Hbl].
    split; [ exact Hi | split; [ exact Hbl | apply Hrows, Hin ] ].
  - intros sid' S'' Hl. rewrite lookup_insert in Hl.
    destruct (decide (sid = sid')) as [<- | Hne].
    + inversion Hl; subst S''. rewrite HS. split; [ exact Hcv | exact Hb ].
    + destruct (H4 sid' S'' Hl) as [Hl' Hb']. split; [ | exact Hb' ].
      rewrite Hcc; [ exact Hl' | | ].
      * intros E. rewrite E in Hl'.
        destruct Hv as [Hv | Hv]; rewrite Hv in Hl'; congruence.
      * intros E. rewrite E in Hl'. rewrite Ho in Hl'. congruence.
  - intros n i Hl.
    destruct (decide (n = v)) as [-> | Hnv];
      [ rewrite Hcv in Hl; inversion Hl; subst; exact Hsid | ].
    destruct (decide (n = sc_crr_name old)) as [-> | Hno].
    + destruct Hco as [Hco | Hco]; rewrite Hco in Hl;
        [ inversion Hl; subst; exact Hsid | discriminate ].
    + rewrite (Hcc n Hnv Hno) in Hl. eapply H5; eauto.
Qed.

Lemma set_school_field_id f v s :
  s_school_id (set_school_field f v s) = s_school_id s.
Proof.
  unfold set_school_field.
  repeat match goal with
         | |- context [ if ?b then _ else _ ] => destruct b
         end; reflexivity.
Qed.

Lemma set_school_field_crr_name f v s :
  s_crr_name (set_school_field f v s)
  = if String.eqb f "crr_name" then v else s_crr_name s.
Proof.
  unfold set_school_field.
  destruct (String.eqb_spec f "name") as [-> | ]; [ reflexivity | ].
  destruct (String.eqb_spec f "short_name") as [-> | ]; [ reflexivity | ].
  destruct (String.eqb_spec f "acronym") as [-> | ]; [ reflexivity | ].
  destruct (String.eqb_spec f "crr_name") as [-> | ]; [ reflexivity | ].
  destruct (String.eqb_spec f "color") as [-> | ]; reflexivity.
Qed.

Lemma update_school_rows f v sid wk db' n :
  update_school f v sid wk = Ok (db', n) ->
  schools db'
  = List.map (fun s => if s_school_id s =? sid
                       then set_school_field f v s else s) (schools wk).
Proof.
  unfold update_school. destruct (_ && _); [ discriminate | ].
  intros E. inversion E. reflexivity.
Qed.

Section Renamed.

Variables (f v : string) (sid : Z) (rows : list school_row).

Local Abbreviation upd :=
  (fun s : school_row =>
     if s_school_id s =? sid then set_school_field f v s else s).

Lemma renamed_ids :
  List.map s_school_id (List.map upd rows) = List.map s_school_id rows.
Proof.
  rewrite List.map_map. apply List.map_ext. intros s. cbv beta.
  destruct (s_school_id s =? sid); [ apply set_school_field_id | ].
  reflexivity.
Qed.

Lemma renamed_in r' :
  In r' (List.map upd rows) ->
  exists r, In r rows /\ s_school_id r' = s_school_id r
            /\ s_crr_name r'
               = if (s_school_id r =? sid) && String.eqb f "crr_name"
                 then v else s_crr_name r.
Proof.
  intros H. apply List.in_map_iff in H. destruct H as (r & <- & Hr).
  exists r. split; [ exact Hr | ]. cbv beta.
  destruct (s_school_id r =? sid); simpl.
  - rewrite set_school_field_id, set_school_field_crr_name. auto.
  - auto.
Qed.

Lemma renamed_names_nodup :
  NoDup (List.map s_school_id rows) ->
  NoDup (List.map s_crr_name rows) ->
  (forall r, In r rows -> s_school_id r <> sid -> s_crr_name r <> v) ->
  NoDup (List.map s_crr_name (List.map upd rows)).
Proof.
  intros Hid Hnm Hv.
  assert (Hname : forall s, s_crr_name (upd s)
                            = if (s_school_id s =? sid)
                                 && String.eqb f "crr_name"
                              then v else s_crr_name s).
  { intros s. cbv beta. destruct (s_school_id s =? sid); simpl;
      [ apply set_school_field_crr_name | reflexivity ]. }
  induction rows as [ | r l IH ]; simpl; [ constructor | ].
  simpl in Hid, Hnm.
  apply NoDup_cons in Hid. destruct Hid as [Hid1 Hid2].
  apply NoDup_cons in Hnm. destruct Hnm as [Hnm1 Hnm2].
  apply NoDup_cons. split.
  - intros Hin. apply list_elem_of_In, List.in_map_iff in Hin.
    destruct Hin as (x' & Hx' & Hin).
    apply List.in_map_iff in Hin. destruct Hin as (x & <- & Hx).
    rewrite !Hname in Hx'.
    assert (Hxr : s_school_id x <> s_school_id r).
    { intros E. apply Hid1. apply list_elem_of_In, List.in_map_iff.
      exists x. auto. }
    assert (Hnn : s_crr_name x <> s_crr_name r).
    { intros E. apply Hnm1. apply list_elem_of_In, List.in_map_iff.
      exists x. auto. }
    destruct (Z.eqb_spec (s_school_id x) sid) as [Ex | Ex];
      destruct (Z.eqb_spec (s_school_id r) sid) as [Er | Er];
      destruct (String.eqb f "crr_name"); simpl in Hx';
      try congruence.
    + symmetry in Hx'. revert Hx'. apply Hv; [ left; reflexivity | exact Er ].
    + revert Hx'. apply Hv; [ right; exact Hx | exact Ex ].
  - apply IH; auto. intros x Hx. apply Hv. right. exact Hx.
Qed.

Lemma renamed_names_same :
  String.eqb f "crr_name" = false ->
  List.map s_crr_name (List.map upd rows) = List.map s_crr_name rows.
Proof.
  intros Hf. rewrite List.map_map. apply List.map_ext. intros s.
  cbv beta. destruct (s_school_id s =? sid); [ | reflexivity ].
  rewrite set_school_field_crr_name, Hf. reflexivity.
Qed.

End Renamed.

(** The schools table after a successful [UPDATE] that renames school
    [sid] to [v], against a name cache [cc2] that sends [v] to [sid] and
    agrees with the old one elsewhere. *)
Lemma rows_after_rename cm wk tx sc cc fl sid old v d z (cc2 : gmap string Z) :
  schools_inv (mkWorld cm wk tx sc cc fl) -> sc !! sid = Some old ->
  blank v = false -> (cc !! v = None \/ cc !! v = Some sid) ->
  update_school "crr_name" v sid wk = Ok (d, z) ->
  cc2 !! v = Some sid ->
  (forall n, n <> v -> n <> sc_crr_name old -> cc2 !! n = cc !! n) ->
  (forall r, In r (schools d) -> cc2 !! s_crr_name r = Some (s_school_id r))
  /\ NoDup (List.map s_school_id (schools d))
  /\ NoDup (List.map s_crr_name (schools d))
  /\ (forall r, In r (schools d) ->
                1 <= s_school_id r /\ blank (s_crr_name r) = false).
Proof.
  intros Hinv Hs Hb Hv Hu Hcv Hcc.
  pose proof (other_rows_names _ _ _ _ _ _ _ _ _ Hinv Hs Hv) as Hoth.
  destruct Hinv as (_ & H1 & H2 & H3 & _). simpl in H1, H2, H3.
  rewrite (update_school_rows _ _ _ _ _ _ Hu).
  split; [ | split; [ | split ] ].
  - intros r' Hr'. apply renamed_in in Hr'.
    destruct Hr' as (r & Hr & -> & ->). simpl. rewrite andb_true_r.
    destruct (Z.eqb_spec (s_school_id r) sid) as [-> | Hne];
      [ exact Hcv | ].
    destruct (Hoth r Hr Hne) as [Hn1 Hn2].
    rewrite (Hcc _ Hn1 Hn2). apply H3, Hr.
  - rewrite renamed_ids. exact H1.
  - apply renamed_names_nodup; [ exact H1 | exact H2 | ].
    intros r Hr Hne. apply (Hoth r Hr Hne).
  - intros r' Hr'. apply renamed_in in Hr'.
    destruct Hr' as (r & Hr & -> & ->). simpl. rewrite andb_true_r.
    destruct (H3 r Hr) as (Hi & Hbl & _). split; [ exact Hi | ].
    destruct (s_school_id r =? sid); [ exact Hb | exact Hbl ].
Qed.

(** The same after an [UPDATE] of another column. *)
Lemma rows_after_update cm wk tx sc cc fl f v sid d z :
  schools_inv (mkWorld cm wk tx sc cc fl) ->
  String.eqb f "crr_name" = false ->
  update_school f v sid wk = Ok (d, z) ->
  (forall r, In r (schools d) -> cc !! s_crr_name r = Some (s_school_id r))
  /\ NoDup (List.map s_school_id (schools d))
  /\ NoDup (List.map s_crr_name (schools d))
  /\ (forall r, In r (schools d) ->
                1 <= s_school_id r /\ blank (s_crr_name r) = false).
Proof.
  intros Hinv Hf Hu.
  destruct Hinv as (_ & H1 & H2 & H3 & _). simpl in H1, H2, H3.
  rewrite (update_school_rows _ _ _ _ _ _ Hu).
  assert (Hrow : forall r',
    In r' (List.map (fun s => if s_school_id s =? sid
                              then set_school_field f v s else s)
             (schools wk)) ->
    exists r, In r (schools wk) /\ s_school_id r' = s_school_id r
              /\ s_crr_name r' = s_crr_name r).
  { intros r' Hr'. apply renamed_in in Hr'.
    destruct Hr' as (r & Hr & Hi & Hn). exists r.
    rewrite Hf, andb_false_r in Hn. auto. }
  split; [ | split; [ | split ] ].
  - intros r' Hr'. destruct (Hrow r' Hr') as (r & Hr & -> & ->).
    apply H3, Hr.
  - rewrite renamed_ids. exact H1.
  - rewrite (renamed_names_same _ _ _ _ Hf). exact H2.
  - intros r' Hr'. destruct (Hrow r' Hr') as (r & Hr & -> & ->).
    destruct (H3 r Hr) as (Hi & Hbl & _). auto.
Qed.

(** The schools table when the [UPDATE] was rolled back, against a name
    cache that kept the new name and the old one. *)
Lemma rows_rolled_back cm wk tx sc cc fl sid old v rows
  (cc2 : gmap string Z) :
  schools_inv (mkWorld cm wk tx sc cc fl) -> sc !! sid = Some old ->
  (cc !! v = None \/ cc !! v = Some sid) ->
  rows = schools wk ->
  cc2 !! v = Some sid -> cc2 !! sc_crr_name old = Some sid ->
  (forall n, n <> v -> n <> sc_crr_name old -> cc2 !! n = cc !! n) ->
  (forall r, In r rows -> cc2 !! s_crr_name r = Some (s_school_id r))
  /\ NoDup (List.map s_school_id rows)
  /\ NoDup (List.map s_crr_name rows)
  /\ (forall r, In r rows ->
                1 <= s_school_id r /\ blank (s_crr_name r) = false).
Proof.
  intros Hinv Hs Hv -> Hcv Hco Hcc.
  destruct (inv_school_cached _ _ _ _ _ _ _ _ Hinv Hs) as (Ho & _ & _).
  destruct Hinv as (_ & H1 & H2 & H3 & _). simpl in H1, H2, H3.
  split; [ | split; [ exact H1 | split; [ exact H2 | ] ] ].
  - intros r Hr. destruct (H3 r Hr) as (_ & _ & Hl).
    destruct (decide (s_crr_name r = v)) as [E | Hn1].
    { rewrite E in *. destruct Hv as [Hv | Hv]; rewrite Hv in Hl;
        [ discriminate | ]. rewrite Hcv. exact Hl. }
    destruct (decide (s_crr_name r = sc_crr_name old)) as [E | Hn2].
    { rewrite E in *. rewrite Ho in Hl. rewrite Hco. exact Hl. }
    rewrite (Hcc _ Hn1 Hn2). exact Hl.
  - intros r Hr. destruct (H3 r Hr) as (Hi & Hbl & _). auto.
Qed.

Ltac cache_lookup :=
  repeat first
    [ rewrite lookup_insert_eq
    | rewrite lookup_insert_ne by congruence
    | rewrite lookup_delete_eq
    | rewrite lookup_delete_ne by congruence ];
  try reflexivity.

Ltac run_update Hold Hb :=
  repeat first
    [ progress cbn -[update_school blank]
    | rewrite Hold
    | rewrite Hb
    | match goal with
      | |- context [ match ?l with nil => _ | cons _ _ => _ end ] =>
          is_var l; destruct l as [ | [] ? ]
      | |- context [ update_school ?a ?b ?c ?d ] =>
          destruct (update_school a b c d) as [ [? ?] | ? ] eqn:?
      | |- context [ if ?b then _ else _ ] => is_var b; destruct b eqn:?
      | |- context [ (<[?v := _]> (delete ?o _)) !! ?o ] =>
          rewrite (lookup_insert (delete o _) v o);
          destruct (decide (v = o)); [ | rewrite lookup_delete_eq ]
      end ].

(** Renaming a school keeps the invariant, whatever the engine does: the
    name cache the [try] block or the [except] branch leaves is the old
    one apart from the new name and the name the cached [School] had. *)
Lemma update_crr_name_inv school_id new_value w :
  schools_inv w ->
  schools_inv (fst (update_school_field school_id "crr_name" new_value w)).
Proof.
  intros Hinv. destruct w as [cm wk tx sc cc fl].
  unfold update_school_field.
  cbn [existsb school_fields String.eqb Ascii.eqb Bool.eqb negb orb andb].
  unfold mbind at 1. unfold gets at 1. cbn [fst snd school_cache].
  destruct (sc !! school_id) as [old | ] eqn:Esc; [ | exact Hinv ].
  destruct (inv_school_cached _ _ _ _ _ _ _ _ Hinv Esc) as (Hold & Hbo & Hsid).
  unfold mbind at 1.
  destruct (blank new_value) eqn:Eb; [ exact Hinv | ].
  pose proof (blank_strip _ Eb) as Hbv.
  set (v := PyStr.strip new_value) in *. clearbody v.
  unfold mbind at 1. unfold gets at 1. cbn [fst snd crr_name_to_id_cache].
  assert (Hcases :
    (exists ex, cc !! v = Some ex
                /\ negb (ex =? 0) && negb (ex =? school_id) = true)
    \/ (cc !! v = None \/ cc !! v = Some school_id)).
  { destruct (cc !! v) as [ex | ] eqn:Ecv; [ | right; left; reflexivity ].
    destruct (negb (ex =? 0) && negb (ex =? school_id)) eqn:Ex;
      [ left; eauto | right; right ].
    apply andb_false_iff in Ex.
    destruct Hinv as (_ & _ & _ & _ & _ & H5). simpl in H5.
    pose proof (H5 v ex Ecv).
    destruct Ex as [Ex | Ex]; apply negb_false_iff, Z.eqb_eq in Ex;
      congruence. }
  destruct Hcases as [(ex & Ecv & Ex) | Hv].
  { rewrite Ecv, Ex. exact Hinv. }
  assert (Hret : (match cc !! v with
             | Some existing_id =>
                 if negb (existing_id =? 0) && negb (existing_id =? school_id)
                 then raise ValueError
                 else ret v
             | None => ret v
             end) = ret v).
  { destruct Hv as [-> | Hv']; [ reflexivity | ]. rewrite Hv'.
    rewrite Z.eqb_refl. simpl. rewrite andb_false_r. reflexivity. }
  rewrite Hret. clear Hret.
  assert (Hcm : schools cm = schools wk) by (destruct Hinv as [H0 _]; exact H0).
  unfold try_except, mbind, execute_begin, execute_dml, commit, rollback,
      raise, ret, lift, gets, set_caches, set_working, mbind, engine,
      set_School_field, new_School.
  run_update Hold Hbv.
  all: try (eapply frame_inv; [ exact Hinv | unfold frame; simpl; auto ]; fail).
  all: try exact Hinv.
  all: match goal with
       | Hu : update_school _ _ _ _ = Ok (?d, _) |-
           schools_inv (mkWorld ?d ?d _ _ ?cc2 _) =>
           assert (Hcv : cc2 !! v = Some school_id) by cache_lookup;
           assert (Hcc : forall n, n <> v -> n <> sc_crr_name old ->
                                   cc2 !! n = cc !! n)
             by (intros; cache_lookup);
           destruct (rows_after_rename _ _ _ _ _ _ _ _ _ _ _ cc2
                       Hinv Esc Hbv Hv Hu Hcv Hcc) as (R1 & R2 & R3 & R4);
           eapply inv_cache_renamed;
             [ exact Hinv | exact Esc | exact Hbv | exact Hv | reflexivity
             | exact Hcv
             | destruct (decide (v = sc_crr_name old)) as [E | N];
                 [ left; rewrite <- E; cache_lookup | right; cache_lookup ]
             | exact R1 | exact Hcc | reflexivity | exact R2 | exact R3
             | exact R4 ]
       | Hc : schools ?c = schools _ |-
           schools_inv (mkWorld ?c ?c _ _ ?cc2 _) =>
           assert (Hcv : cc2 !! v = Some school_id) by cache_lookup;
           assert (Hco : cc2 !! sc_crr_name old = Some school_id)
             by (try match goal with
                     | E : _ = sc_crr_name _ |- _ => rewrite <- E
                     end; cache_lookup);
           assert (Hcc : forall n, n <> v -> n <> sc_crr_name old ->
                                   cc2 !! n = cc !! n)
             by (intros; cache_lookup);
           destruct (rows_rolled_back _ _ _ _ _ _ _ _ _ (schools c) cc2
                       Hinv Esc Hv Hc Hcv Hco Hcc) as (R1 & R2 & R3 & R4);
           eapply inv_cache_renamed;
             [ exact Hinv | exact Esc | exact Hbv | exact Hv | reflexivity
             | exact Hcv | left; exact Hco
             | exact R1 | exact Hcc | reflexivity | exact R2 | exact R3
             | exact R4 ]
       end.
Qed.

Lemma update_other_field_inv school_id field_name new_value w :
  String.eqb field_name "crr_name" = false ->
  schools_inv w ->
  schools_inv (fst (update_school_field school_id field_name new_value w)).
Proof.
  intros Hf Hinv. destruct w as [cm wk tx sc cc fl].
  unfold update_school_field.
  destruct (negb (existsb (String.eqb field_name) school_fields));
    [ exact Hinv | ].
  unfold mbind at 1. unfold gets at 1. cbn [fst snd school_cache].
  destruct (sc !! school_id) as [old | ] eqn:Esc; [ | exact Hinv ].
  destruct (inv_school_cached _ _ _ _ _ _ _ _ Hinv Esc) as (Hold & Hbo & Hsid).
  assert (Hcm : schools cm = schools wk) by (destruct Hinv as [H0 _]; exact H0).
  assert (Hv : cc !! sc_crr_name old = None
               \/ cc !! sc_crr_name old = Some school_id)
    by (right; exact Hold).
  cbv zeta. rewrite Hf.
  unfold try_except, mbind, execute_begin, execute_dml, commit, rollback,
      raise, ret, lift, gets, set_caches, set_working, mbind, engine,
      set_School_field, new_School.
  rewrite Hf.
  run_update Hf Hbo.
  all: try (eapply frame_inv; [ exact Hinv | unfold frame; simpl; auto ]; fail).
  all: try exact Hinv.
  all: match goal with
       | Hu : update_school _ _ _ _ = Ok (?d, _) |-
           schools_inv (mkWorld ?d ?d _ _ _ _) =>
           destruct (rows_after_update _ _ _ _ _ _ _ _ _ _ _ Hinv Hf Hu)
             as (R1 & R2 & R3 & R4)
       | Hc : schools ?c = schools _ |- schools_inv (mkWorld ?c ?c _ _ _ _) =>
           destruct (rows_rolled_back _ _ _ _ _ _ _ _ _ (schools c) cc
                       Hinv Esc Hv Hc Hold Hold (fun n _ _ => eq_refl))
             as (R1 & R2 & R3 & R4)
       end;
    eapply inv_cache_renamed;
      [ exact Hinv | exact Esc | exact Hbo | exact Hv | reflexivity
      | exact Hold | left; exact Hold | exact R1
      | intros; reflexivity | reflexivity | exact R2 | exact R3 | exact R4 ].
Qed.

Lemma update_school_field_inv school_id field_name new_value w :
  schools_inv w ->
  schools_inv (fst (update_school_field school_id field_name new_value w)).
Proof.
  destruct (String.eqb_spec field_name "crr_name") as [-> | Hne].
  - apply update_crr_name_inv.
  - apply update_other_field_inv. apply String.eqb_neq. exact Hne.
Qed.

(** [update_school_field] on the column [crr_name] raises ValueError and
    leaves the world as it was when the new value is blank, or when its
    stripped form is the name of another school. *)
Lemma update_crr_name_rejected school_id new_value w :
  schools_inv w ->
  blank new_value = true
  \/ (exists r, In r (schools (working w))
                /\ s_crr_name r = PyStr.strip new_value
                /\ s_school_id r <> school_id) ->
  update_school_field school_id "crr_name" new_value w = (w, Raise ValueError).
Proof.
  intros Hinv Hc. destruct w as [cm wk tx sc cc fl].
  unfold update_school_field.
  cbn [existsb school_fields String.eqb Ascii.eqb Bool.eqb negb orb andb].
  unfold mbind at 1. unfold gets at 1. cbn [fst snd school_cache].
  destruct (sc !! school_id) as [old | ] eqn:Esc; [ | reflexivity ].
  unfold mbind at 1.
  destruct (blank new_value) eqn:Eb; [ reflexivity | ].
  destruct Hc as [Hc | (r & Hr & Hn & Hi)]; [ discriminate | ].
  destruct Hinv as (_ & _ & _ & H3 & _). simpl in H3, Hr.
  destruct (H3 r Hr) as (H1 & _ & Hl). rewrite Hn in Hl.
  unfold mbind at 1. unfold gets at 1. cbn [fst snd crr_name_to_id_cache].
  rewrite Hl.
  destruct (Z.eqb_spec (s_school_id r) 0) as [E | _]; [ lia | ].
  destruct (Z.eqb_spec (s_school_id r) school_id) as [E | _];
    [ contradiction | ].
  reflexivity.
Qed.

Lemma reachable_inv w : reachable w -> schools_inv w.
Proof.
  induction 1 as [db fl w Hok Hinit | o w Hr IH | w db' fl Hr IH Hs].
  - eapply init_inv; eauto.
  - destruct o; simpl.
    + apply add_school_inv, IH.
    + apply update_school_field_inv, IH.
    + apply refresh_inv, IH.
    + eapply frame_inv; [ exact IH | apply framed_add_result ].
    + eapply frame_inv; [ exact IH | apply framed_delete_event ].
    + eapply frame_inv; [ exact IH | apply framed_delete_regatta ].
    + eapply frame_inv;
        [ exact IH | apply framed_update_school_participation_by_id ].
  - eapply frame_inv; [ exact IH | ].
    unfold frame. simpl. auto.
Qed.

End SchoolFacts.

(** C7 (as amended: names are compared after [str.strip]).  In every
    world a manager reaches, whatever operations ran and whichever engine
    calls failed, no two rows of the schools table hold the same CRR name,
    in the file as in the view of the connection, and the name cache sends
    the CRR name of every school to the id of that school.  In such a
    world [add_school] raises ValueError and changes nothing when the
    stripped given (or name-defaulted) CRR name is the name of a school,
    and [update_school_field] on [crr_name] raises ValueError and changes
    nothing when the value is blank or its stripped form is the name of
    another school. *)
Theorem crr_names_unique (w : world) :
  reachable w ->
  let rows := schools (working w) in
  NoDup (List.map s_crr_name rows)
  /\ schools (committed w) = rows
  /\ (forall r, In r rows ->
        crr_name_to_id_cache w !! s_crr_name r = Some (s_school_id r))
  /\ (forall name short_name acronym crr_name color r,
        In r rows ->
        s_crr_name r
        = PyStr.strip (if PyStr.truthy crr_name then crr_name else name) ->
        DatabaseManager.add_school name short_name acronym crr_name color w
        = (w, Raise ValueError))
  /\ (forall school_id new_value,
        blank new_value = true
        \/ (exists r, In r rows /\ s_crr_name r = PyStr.strip new_value
                      /\ s_school_id r <> school_id) ->
        DatabaseManager.update_school_field school_id "crr_name" new_value w
        = (w, Raise ValueError)).
Proof.
  intros Hr rows. pose proof (SchoolFacts.reachable_inv w Hr) as Hinv.
  pose proof Hinv as (H0 & _ & H2 & H3 & _).
  split; [ exact H2 | ]. split; [ exact H0 | ]. split; [ | split ].
  - intros r Hin. apply (H3 r Hin).
  - intros name short_name acronym crr_name color r Hin Hn.
    exact (SchoolFacts.add_school_existing name short_name acronym crr_name
             color w r Hinv Hin Hn).
  - intros school_id new_value Hc.
    exact (SchoolFacts.update_crr_name_rejected school_id new_value w Hinv
             Hc).
Qed.

Lemma crr_names_unique_witness :
  reachable example_world
  /\ List.map s_crr_name (schools (working example_world))
     = ["Villanova "; "Yale"]
  /\ DatabaseManager.add_school "Yale University" "Yale" "" "Yale" "#00356B"
       example_world = (example_world, Raise ValueError)
  /\ DatabaseManager.update_school_field 1 "crr_name" " Yale " example_world
     = (example_world, Raise ValueError).
Proof.
  split; [ exact example_world_reachable | ].
  split; [ reflexivity | ].
  destruct (crr_names_unique example_world example_world_reachable)
    as (_ & _ & _ & Hadd & Hupd).
  split.
  - apply (Hadd _ _ _ _ _
             (mkSchoolRow 2 "Yale University" (Some "Yale") (Some "") "Yale"
                (Some "#00356B"))).
    + right. left. reflexivity.
    + reflexivity.
  - apply Hupd. right.
    exists (mkSchoolRow 2 "Yale University" (Some "Yale") (Some "") "Yale"
              (Some "#00356B")).
    split; [ right; left; reflexivity | ].
    split; [ reflexivity | discriminate ].
Defined.

(** C7 as stated fails for a name that differs from its stripped form.
    The initializer stores the CRR name "Villanova " with a blank at the
    end.  In the example world, opened on a database that holds it for
    school 1, [add_school] given that very name returns a new id, and
    [update_school_field] gives the name of school 1, stripped, to
    school 2 and returns [True]. *)
Lemma crr_name_in_use_accepted :
  reachable example_world
  /\ (exists r, In r (schools (working example_world))
                /\ s_crr_name r = "Villanova " /\ s_school_id r = 1)
  /\ snd (DatabaseManager.add_school "Villanova University" "Villanova" ""
            "Villanova " "#002F87" example_world) = Ok 3
  /\ snd (DatabaseManager.update_school_field 2 "crr_name" "Villanova "
            example_world) = Ok true
  /\ List.map s_crr_name
       (schools (working (run (UpdateSchoolField 2 "crr_name" "Villanova ")
                            example_world)))
     = ["Villanova "; "Villanova"].
Proof.
  split; [ exact example_world_reachable | ].
  split.
  - exists (mkSchoolRow 1 "Villanova University" (Some "Villanova") (Some "")
              "Villanova " (Some "#002F87")).
    split; [ left; reflexivity | split; reflexivity ].
  - repeat split; vm_compute; reflexivity.
Qed.
